(** * A shallow embedding of [mockbe/server.py]

    The in-memory back end of the file-sharing service: four dictionaries
    (users, sessions, pending second-factor challenges, uploaded files), a
    policy dictionary, and one handler per HTTP route.  Every handler is
    embedded as a computation in a small state monad over the five stores;
    the clock and the random UUID source are inputs of a request. *)

From Stdlib Require Import ZArith String Ascii List Floats.
From stdpp Require Import base option strings pretty gmap list fin_maps sorting.
Import ListNotations.

#[local] Set Warnings "-register-all".
#[local] Open Scope string_scope.
#[local] Open Scope Z_scope.

(** ** Python strings

    A [str] is a sequence of code points; the model keeps the 8-bit ones
    (latin-1), which is what a header value can hold. *)
Module PyStr.

(** [bool(s)]: a string is true when it is not empty. *)
Definition truthy (s : string) : bool :=
  match s with
  | EmptyString => false
  | String _ _ => true
  end.

(** [s.startswith(p)]. *)
Fixpoint startswith (p s : string) : bool :=
  match p, s with
  | EmptyString, _ => true
  | String a p', String b s' => if Ascii.eqb a b then startswith p' s' else false
  | String _ _, EmptyString => false
  end.

(** [c.isspace()] on the code points below 256. *)
Definition isspace (c : ascii) : bool :=
  let n := N_of_ascii c in
  ((9 <=? n) && (n <=? 13) || (28 <=? n) && (n <=? 32)
   || (n =? 133) || (n =? 160))%N.

Fixpoint lstrip (s : string) : string :=
  match s with
  | EmptyString => EmptyString
  | String c s' => if isspace c then lstrip s' else s
  end.

Fixpoint rstrip (s : string) : string :=
  match s with
  | EmptyString => EmptyString
  | String c s' =>
      match rstrip s' with
      | EmptyString => if isspace c then EmptyString else String c EmptyString
      | r => String c r
      end
  end.

(** [s.strip()]. *)
Definition strip (s : string) : string := rstrip (lstrip s).

(** [s.split(" ", 1)[1]]: what follows the first blank, [None] standing
    for the [IndexError] of a string without one. *)
Fixpoint split_space_1 (s : string) : option string :=
  match s with
  | EmptyString => None
  | String c s' => if Ascii.eqb c " " then Some s' else split_space_1 s'
  end.

(** [c.lower()] on the code points below 256. *)
Definition lower_char (c : ascii) : ascii :=
  let n := N_of_ascii c in
  if ((65 <=? n) && (n <=? 90)
      || (192 <=? n) && (n <=? 222) && negb (n =? 215))%N
  then ascii_of_N (n + 32) else c.

Fixpoint lower (s : string) : string :=
  match s with
  | EmptyString => EmptyString
  | String c s' => String (lower_char c) (lower s')
  end.

(** [len(s)]. *)
Definition len (s : string) : Z := Z.of_nat (String.length s).

End PyStr.

(** [bool(x)] for an optional string: [None] and [""] are false. *)
Definition truthy_opt (x : option string) : bool :=
  match x with
  | Some s => PyStr.truthy s
  | None => false
  end.

(** ** JSON values

    As [get_json] parses them and [jsonify] writes them: a number without
    fraction or exponent is an [int] ([JNum]), any other a [float]
    ([JFloat]). *)
Inductive json : Type :=
| JNull
| JBool (b : bool)
| JNum (n : Z)
| JFloat (f : float)
| JStr (s : string)
| JArr (items : list json)
| JObj (fields : list (string * json)).

Definition json_of_opt_str (x : option string) : json :=
  match x with
  | Some s => JStr s
  | None => JNull
  end.

(** The value of a key of a JSON object. *)
Fixpoint assoc_get {A} (k : string) (l : list (string * A)) : option A :=
  match l with
  | [] => None
  | (k', v) :: l' => if String.eqb k k' then Some v else assoc_get k l'
  end.

Definition json_get (k : string) (j : json) : option json :=
  match j with
  | JObj fields => assoc_get k fields
  | _ => None
  end.

(** ** Python numbers

    The operands of the arithmetic and of the comparisons that the upload
    makes on two values of the policy: an [int] or a [float]; a [bool]
    counts as the [int] 0 or 1. *)
Inductive number : Type :=
| PyInt (n : Z)
| PyFloat (f : float).

(** A JSON value as a number; [None] for [None], a [str], a [list] and a
    [dict], on which the product with 1024 or the comparison with an [int]
    raises [TypeError]. *)
Definition number_of (v : json) : option number :=
  match v with
  | JNum n => Some (PyInt n)
  | JBool b => Some (PyInt (Z.b2z b))
  | JFloat f => Some (PyFloat f)
  | JNull | JStr _ | JArr _ | JObj _ => None
  end.

(** [x * 1024]: exact on an [int], rounded to the nearest [float] on a
    [float]. *)
Definition times_1024 (x : number) : number :=
  match x with
  | PyInt n => PyInt (n * 1024)
  | PyFloat f => PyFloat (f * 1024)%float
  end.

(** A [float] against an [int], as Python compares them: exactly, on the
    value [m * 2 ^ e] of the float.  [None] for a NaN, which is neither
    below nor above anything. *)
Definition float_compare_Z (f : float) (a : Z) : option comparison :=
  match Prim2SF f with
  | S754_nan => None
  | S754_infinity true => Some Lt
  | S754_infinity false => Some Gt
  | S754_zero _ => Some (0 ?= a)
  | S754_finite s m e =>
      let n := if s then Z.neg m else Z.pos m in
      Some (if 0 <=? e then (n * 2 ^ e ?= a) else (n ?= a * 2 ^ (- e)))
  end.

(** [a > x] and [a < x] for an [int] [a]. *)
Definition Z_gt_number (a : Z) (x : number) : bool :=
  match x with
  | PyInt n => n <? a
  | PyFloat f => bool_decide (float_compare_Z f a = Some Lt)
  end.

Definition Z_lt_number (a : Z) (x : number) : bool :=
  match x with
  | PyInt n => a <? n
  | PyFloat f => bool_decide (float_compare_Z f a = Some Gt)
  end.

(** ** Datetimes

    A [datetime] is offset-aware or offset-naive.  An aware one is kept as
    its instant (microseconds, UTC) together with the UTC offset that its
    text carries; a naive one as the reading of its wall clock. *)
Inductive datetime : Type :=
| aware (instant : Z) (utcoffset : Z)
| naive (wall : Z).

(** [datetime.now(timezone.utc)] at the instant [t]. *)
Definition utc (t : Z) : datetime := aware t 0.

(** [a < b]: two aware datetimes are compared by their instants, two naive
    ones by their wall clocks; [None] stands for the [TypeError] of
    comparing an aware datetime with a naive one. *)
Definition datetime_lt (a b : datetime) : option bool :=
  match a, b with
  | aware x _, aware y _ => Some (x <? y)
  | naive x, naive y => Some (x <? y)
  | aware _ _, naive _ | naive _, aware _ _ => None
  end.

(** [a >= b]. *)
Definition datetime_ge (a b : datetime) : option bool :=
  negb <$> datetime_lt a b.

(** A response: the pair [(jsonify(body), status)] a handler returns. *)
Record Response : Type := mkResponse {
  body : json;
  status : Z
}.

(** What Flask answers when a handler raises. *)
Definition internal_server_error : Response :=
  {| body := JNull; status := 500 |}.

(** ** The stores *)

(** A value of the [users] dictionary. *)
Record User : Type := mkUser {
  user_id : string;
  username : string;
  email : string;
  password : string;
  role : string;
  totp_enabled : bool;
  totp_secret : option string
}.

(** [user["email"]] and [user["password"]], for use where the handlers have
    local variables of those names. *)
Abbreviation user_email := email (only parsing).
Abbreviation user_password := password (only parsing).

(** A value of the [files] dictionary.  The two ends of the availability
    window are kept as the datetimes that the stored ISO-8601 texts denote
    ([upload_file] writes them with [isoformat], [get_file_status] reads
    them back with [fromisoformat]), [None] for a missing text; [createdAt]
    as the instant (microseconds, UTC) of the upload. *)
Record FileMeta : Type := mkFileMeta {
  file_id : string;
  filename : string;
  size : Z;
  shareToken : string;
  ownerEmail : option string;
  isPublic : bool;
  passwordProtected : bool;
  availableFrom : option datetime;
  availableTo : option datetime;
  sharedWith : list string;
  shareLink : string;
  createdAt : Z;
  totpEnabled : bool
}.

(** The [policy] dictionary.  Its five updatable keys hold whatever JSON
    value the last policy update assigned to them; [id] is never assigned. *)
Record Policy : Type := mkPolicy {
  policy_id : Z;
  maxFileSizeMB : json;
  minValidityHours : json;
  maxValidityDays : json;
  defaultValidityDays : json;
  requirePasswordMinLength : json
}.

(** The module-level state: every dictionary of the server. *)
Record State : Type := mkState {
  users : gmap string User;
  sessions : gmap string string;
  totp_temp_sessions : gmap string string;
  files : gmap string FileMeta;
  policy : Policy
}.

Definition set_users (f : gmap string User → gmap string User) (s : State) : State :=
  {| users := f (users s); sessions := sessions s;
     totp_temp_sessions := totp_temp_sessions s; files := files s;
     policy := policy s |}.

Definition set_sessions (f : gmap string string → gmap string string) (s : State) : State :=
  {| users := users s; sessions := f (sessions s);
     totp_temp_sessions := totp_temp_sessions s; files := files s;
     policy := policy s |}.

Definition set_totp_temp_sessions (f : gmap string string → gmap string string)
    (s : State) : State :=
  {| users := users s; sessions := sessions s;
     totp_temp_sessions := f (totp_temp_sessions s); files := files s;
     policy := policy s |}.

Definition set_files (f : gmap string FileMeta → gmap string FileMeta) (s : State) : State :=
  {| users := users s; sessions := sessions s;
     totp_temp_sessions := totp_temp_sessions s; files := f (files s);
     policy := policy s |}.

Definition set_policy (f : Policy → Policy) (s : State) : State :=
  {| users := users s; sessions := sessions s;
     totp_temp_sessions := totp_temp_sessions s; files := files s;
     policy := f (policy s) |}.

(** ** The request and its environment *)

(** One draw of [uuid.uuid4()], with its two renderings. *)
Record UUID : Type := mkUUID {
  uuid_str : string;   (* str(u) *)
  uuid_hex : string    (* u.hex *)
}.

(** The uploaded part [request.files["file"]]. *)
Record FileStorage : Type := mkFileStorage {
  fs_filename : string;
  fs_data : list Byte.byte
}.

(** What a handler reads from Flask's [request], the clock and the random
    source.  A JSON body is an object: [json_body] holds its string-valued
    fields, which is what the authentication routes read; [json_policy]
    holds the values, of any JSON type, that it gives to the five updatable
    keys of the policy, which is all that the policy update reads.  A body
    that is no object, or that gives a key read by an authentication route
    a value that is no string, is outside the model.  [form] is the
    multi-valued form of an upload. *)
Record Request : Type := mkRequest {
  authorization : option string;
  json_body : gmap string string;
  json_policy : gmap string json;
  form : list (string * string);
  file_part : option FileStorage;
  now : Z;
  uuid4 : nat → UUID
}.

(** ** The handler monad: state passing over [State] *)
Definition M (A : Type) : Type := State → A * State.

Definition ret {A} (a : A) : M A := fun s => (a, s).
Definition bind {A B} (m : M A) (k : A → M B) : M B :=
  fun s => let '(a, s') := m s in k a s'.
Definition gets {A} (f : State → A) : M A := fun s => (f s, s).
Definition modify (f : State → State) : M unit := fun s => (tt, f s).

Notation "'let*' x ':=' m 'in' k" := (bind m (fun x => k))
  (at level 10, x name, m at level 100, k at level 200).
Notation "'let*' ' p ':=' m 'in' k" := (bind m (fun p => k))
  (at level 10, p strict pattern, m at level 100, k at level 200).
Notation "m ';;' k" := (bind m (fun _ => k))
  (at level 100, k at level 200, right associativity).

(** ** Helper functions *)

Definition MOCK_TOTP_CODE : string := "123456".

(** [create_token(prefix)], on the UUID drawn for it. *)
Definition create_token (prefix : string) (u : UUID) : string :=
  prefix ++ "-" ++ uuid_hex u.

(** [get_current_user()]: the bearer token and the user it stands for.  The
    user dictionary it returns is the very object held in [users]; the model
    returns the key it is stored under together with its current value, and
    callers write back through that key. *)
Definition get_current_user (req : Request)
    : M (option string * option (string * User)) :=
  let auth_header := default "" (authorization req) in
  if negb (PyStr.startswith "Bearer " auth_header) then ret (None, None)
  else
    match PyStr.split_space_1 auth_header with
    | None => ret (None, None)
    | Some rest =>
        let token := PyStr.strip rest in
        let* email := gets (fun s => sessions s !! token) in
        if negb (truthy_opt email) then ret (None, None)
        else
          let key := default "" email in
          let* user := gets (fun s => users s !! key) in
          match user with
          | None => ret (None, None)
          | Some u => ret (Some token, Some (key, u))
          end
    end.

(** [serialize_user(user)]. *)
Definition serialize_user (user : User) : json :=
  JObj [("id", JStr (user_id user));
        ("username", JStr (username user));
        ("email", JStr (email user));
        ("role", JStr (role user));
        ("totpEnabled", JBool (totp_enabled user))].

(** The lifecycle status strings. *)
Inductive FileStatus : Type := pending | expired | active.

(** [get_file_status(file_meta)], at the instant [now] read from the clock.
    The clock is offset-aware: [None] stands for the [TypeError] that the
    comparison with an offset-naive end of the window raises. *)
Definition get_file_status (now : Z) (file_meta : FileMeta) : option FileStatus :=
  let now := utc now in
  let available_from := availableFrom file_meta in
  let available_to := availableTo file_meta in
  before ← match available_from with
           | Some available_from => datetime_lt now available_from
           | None => Some false
           end;
  if before : bool then Some pending
  else
    after ← match available_to with
            | Some available_to => datetime_lt available_to now
            | None => Some false
            end;
    if after : bool then Some expired else Some active.

(** ** The authentication routes *)

Definition error (msg : string) : json := JObj [("error", JStr msg)].
Definition message (msg : string) : json := JObj [("message", JStr msg)].

(** The user dictionary with one key assigned: [user[k] = v] on the object
    stored in [users] under [key]. *)
Definition set_password (v : string) (u : User) : User :=
  {| user_id := user_id u; username := username u; email := email u;
     password := v; role := role u; totp_enabled := totp_enabled u;
     totp_secret := totp_secret u |}.

Definition set_totp_enabled (v : bool) (u : User) : User :=
  {| user_id := user_id u; username := username u; email := email u;
     password := password u; role := role u; totp_enabled := v;
     totp_secret := totp_secret u |}.

Definition set_totp_secret (v : option string) (u : User) : User :=
  {| user_id := user_id u; username := username u; email := email u;
     password := password u; role := role u; totp_enabled := totp_enabled u;
     totp_secret := v |}.

Definition update_user (key : string) (f : User → User) : M unit :=
  modify (set_users (fun us => match us !! key with
                               | Some u => <[key := f u]> us
                               | None => us
                               end)).

(** [POST /api/auth/register]. *)
Definition register (req : Request) : M Response :=
  let data := json_body req in
  let email := data !! "email" in
  let password := data !! "password" in
  if negb (truthy_opt email) || negb (truthy_opt password)
  then ret {| body := error "email and password are required"; status := 400 |}
  else
    let email := default "" email in
    let password := default "" password in
    let* us := gets users in
    if bool_decide (is_Some (us !! email))
    then ret {| body := error "User already exists"; status := 400 |}
    else
      modify (set_users (insert email
        {| user_id := uuid_str (uuid4 req 0%nat);
           email := email;
           username := default "" (data !! "username");
           password := password;
           role := "user";
           totp_enabled := false;
           totp_secret := None |})) ;;
      ret {| body := JObj [("message", JStr "Registered successfully (mock)");
                           ("email", JStr email)];
             status := 201 |}.

(** [POST /api/auth/login]. *)
Definition login (req : Request) : M Response :=
  let data := json_body req in
  let email := data !! "email" in
  let password := data !! "password" in
  let* user := gets (fun s => email ≫= fun e => users s !! e) in
  match user with
  | None => ret {| body := message "Invalid email or password"; status := 401 |}
  | Some user =>
      if negb (bool_decide (Some (user_password user) = password))
      then ret {| body := message "Invalid email or password"; status := 401 |}
      else
        let email := default "" email in
        if totp_enabled user then
          modify (set_totp_temp_sessions (insert email email)) ;;
          ret {| body := JObj [("requireTOTP", JBool true);
                               ("message", JStr "TOTP required (mock)")];
                 status := 200 |}
        else
          let token := create_token "token" (uuid4 req 0%nat) in
          modify (set_sessions (insert token email)) ;;
          ret {| body := JObj [("accessToken", JStr token);
                               ("user", serialize_user user);
                               ("message", JStr "Login successful (mock)")];
                 status := 200 |}
  end.

(** [POST /api/auth/login/totp].  After the new session is stored, the
    handler deletes the challenge under the e-mail it read out of it
    ([KeyError] when that is no key) and only then fetches the user
    ([TypeError] on [None]): both failures leave the earlier writes in place. *)
Definition login_totp (req : Request) : M Response :=
  let data := json_body req in
  let email := data !! "email" in
  let code := data !! "code" in
  if negb (truthy_opt email) || negb (truthy_opt code)
  then ret {| body := error "email and code are required"; status := 400 |}
  else
    let code := default "" code in
    let* email := gets (fun s => totp_temp_sessions s !! default "" email) in
    if negb (truthy_opt email)
    then ret {| body := error "Invalid or expired tempToken"; status := 401 |}
    else
      let email := default "" email in
      if negb (String.eqb code MOCK_TOTP_CODE)
      then ret {| body := error "Invalid TOTP code (mock: use 123456)"; status := 401 |}
      else
        let token := create_token "token" (uuid4 req 0%nat) in
        modify (set_sessions (insert token email)) ;;
        let* pending_key := gets (fun s => totp_temp_sessions s !! email) in
        match pending_key with
        | None => ret internal_server_error
        | Some _ =>
            modify (set_totp_temp_sessions (delete email)) ;;
            let* user := gets (fun s => users s !! email) in
            match user with
            | None => ret internal_server_error
            | Some user =>
                ret {| body := JObj [("accessToken", JStr token);
                                     ("user", JObj [("id", JStr (user_id user));
                                                    ("email", JStr (user_email user));
                                                    ("username", JStr (username user))]);
                                     ("message", JStr "Login successful (mock)")];
                       status := 200 |}
            end
        end.

(** [POST /api/auth/totp/verify]. *)
Definition totp_verify (req : Request) : M Response :=
  let* '(token, user) := get_current_user req in
  match user with
  | None => ret {| body := error "Unauthorized"; status := 401 |}
  | Some (key, user) =>
      let data := json_body req in
      let code := data !! "code" in
      if negb (truthy_opt code)
      then ret {| body := error "code is required"; status := 400 |}
      else
        let code := default "" code in
        if negb (String.eqb code MOCK_TOTP_CODE)
        then ret {| body := error "Invalid TOTP code (mock: use 123456)"; status := 401 |}
        else
          update_user key (set_totp_enabled true) ;;
          ret {| body := JObj [("message", JStr "TOTP enabled successfully (mock)");
                               ("totpEnabled", JBool true)];
                 status := 200 |}
  end.

(** [POST /api/auth/totp/disable]. *)
Definition totp_disable (req : Request) : M Response :=
  let* '(token, user) := get_current_user req in
  match user with
  | None => ret {| body := error "Unauthorized"; status := 401 |}
  | Some (key, user) =>
      let data := json_body req in
      let code := data !! "code" in
      if negb (truthy_opt code)
      then ret {| body := error "code is required"; status := 400 |}
      else
        let code := default "" code in
        if negb (totp_enabled user)
        then ret {| body := error "TOTP not enabled for this account"; status := 400 |}
        else if negb (String.eqb code MOCK_TOTP_CODE)
        then ret {| body := error "Invalid TOTP code (mock: use 123456)"; status := 400 |}
        else
          update_user key (set_totp_enabled false) ;;
          update_user key (set_totp_secret None) ;;
          ret {| body := JObj [("message", JStr "TOTP disabled successfully (mock)");
                               ("totpEnabled", JBool false)];
                 status := 200 |}
  end.

(** [POST /api/auth/logout]. *)
Definition logout (req : Request) : M Response :=
  let* '(token, user) := get_current_user req in
  match token, user with
  | Some token, Some _ =>
      let* present := gets (fun s => bool_decide (is_Some (sessions s !! token))) in
      (if present : bool then modify (set_sessions (delete token)) else ret tt) ;;
      ret {| body := message "Logged out successfully (mock)"; status := 200 |}
  | _, _ =>
      ret {| body := JObj [("error", JStr "Unauthorized");
                           ("message", JStr "No token found")];
             status := 401 |}
  end.

(** [POST /api/auth/password/change]. *)
Definition change_password (req : Request) : M Response :=
  let* '(token, user) := get_current_user req in
  match user with
  | None => ret {| body := message "Unauthorized"; status := 401 |}
  | Some (key, user) =>
      let data := json_body req in
      let old_password := data !! "oldPassword" in
      let totp_code := data !! "totpCode" in
      let new_password := data !! "newPassword" in
      if negb (truthy_opt new_password) || (PyStr.len (default "" new_password) <? 6)%Z
      then ret {| body := message "New password must be at least 6 characters";
                  status := 400 |}
      else
        let new_password := default "" new_password in
        let update :=
          update_user key (set_password new_password) ;;
          ret {| body := message "Password changed successfully"; status := 200 |} in
        if truthy_opt old_password then
          if negb (bool_decide (Some (user_password user) = old_password))
          then ret {| body := message "The old password is incorrect"; status := 400 |}
          else update
        else if truthy_opt totp_code then
          if negb (totp_enabled user)
          then ret {| body := message "This account does not have TOTP enabled";
                      status := 400 |}
          else if negb (bool_decide (totp_code = Some MOCK_TOTP_CODE))
          then ret {| body := message "Invalid TOTP code"; status := 400 |}
          else update
        else ret {| body := message "Either oldPassword or totpCode is required";
                    status := 400 |}
  end.

(** [GET /api/user]. *)
Definition get_user_profile (req : Request) : M Response :=
  let* '(token, user) := get_current_user req in
  match user with
  | None => ret {| body := message "Unauthorized"; status := 401 |}
  | Some (_, user) => ret {| body := JObj [("user", serialize_user user)]; status := 200 |}
  end.

(** ** Library functions the server calls

    The handlers below use functions of [datetime] and [werkzeug] and one
    long literal; they are taken as given.  [fromisoformat s] is the
    datetime that the text [s] denotes, aware when the text carries a UTC
    offset and naive when it does not, [None] when
    [datetime.fromisoformat] raises. *)
Class Library : Type := mkLibrary {
  fromisoformat : string → option datetime;
  isoformat : datetime → string;     (* d.isoformat() *)
  utcnow_isoformat : Z → string;     (* datetime.utcnow().isoformat() *)
  secure_filename : string → string;
  qr_code : string                   (* the placeholder PNG data URL *)
}.

(** ** Policy routes *)

Definition policy_json (p : Policy) : json :=
  JObj [("id", JNum (policy_id p));
        ("maxFileSizeMB", maxFileSizeMB p);
        ("minValidityHours", minValidityHours p);
        ("maxValidityDays", maxValidityDays p);
        ("defaultValidityDays", defaultValidityDays p);
        ("requirePasswordMinLength", requirePasswordMinLength p)].

(** [GET /api/admin/policy]. *)
Definition get_policy (req : Request) : M Response :=
  let* p := gets policy in
  ret {| body := policy_json p; status := 200 |}.

(** [PATCH /api/admin/policy]: the value of every updatable key present in
    the body, of whatever type, is assigned to the policy. *)
Definition update_policy (req : Request) : M Response :=
  let data := json_policy req in
  modify (set_policy (fun p =>
    {| policy_id := policy_id p;
       maxFileSizeMB := default (maxFileSizeMB p) (data !! "maxFileSizeMB");
       minValidityHours := default (minValidityHours p) (data !! "minValidityHours");
       maxValidityDays := default (maxValidityDays p) (data !! "maxValidityDays");
       defaultValidityDays :=
         default (defaultValidityDays p) (data !! "defaultValidityDays");
       requirePasswordMinLength :=
         default (requirePasswordMinLength p) (data !! "requirePasswordMinLength") |})) ;;
  let* p := gets policy in
  ret {| body := JObj [("message", JStr "Cập nhật thành công (mock)");
                       ("policy", policy_json p)];
         status := 200 |}.

Section Routes.
Context `{Library}.

(** [POST /api/admin/cleanup]. *)
Definition admin_cleanup (req : Request) : M Response :=
  let deleted_files := 100 in
  ret {| body := JObj [("message", JStr "Cleanup hoàn tất (mock)");
                       ("deletedFiles", JNum deleted_files);
                       ("timestamp", JStr (utcnow_isoformat (now req) ++ "Z"))];
         status := 200 |}.

(** [POST /api/auth/totp/setup]. *)
Definition totp_setup (req : Request) : M Response :=
  let* '(token, user) := get_current_user req in
  match user with
  | None => ret {| body := error "Unauthorized"; status := 401 |}
  | Some (key, user) =>
      let secret := "MOCK-SECRET-SECRET" in
      update_user key (set_totp_secret (Some secret)) ;;
      ret {| body := JObj [("totpSetup", JObj [("secret", JStr secret);
                                               ("qrCode", JStr qr_code)]);
                           ("message", JStr "TOTP setup generated (mock). Use code 123456 in /auth/totp/verify.")];
             status := 200 |}
  end.

(** ** File routes *)

(** [request.form.get(k)] and [request.form.getlist(k)]. *)
Definition form_get (k : string) (req : Request) : option string :=
  assoc_get k (form req).

Definition form_getlist (k : string) (req : Request) : list string :=
  map snd (filter (fun kv => bool_decide (fst kv = k)) (form req)).

(** [str(request.form.get(k, "false")).lower() in ("1", "true", "yes", "on")]. *)
Definition form_flag (k : string) (req : Request) : bool :=
  let v := PyStr.lower (default "false" (form_get k req)) in
  bool_decide (v ∈ ["1"; "true"; "yes"; "on"]).

Definition file_meta_json (m : FileMeta) : json :=
  JObj [("id", JStr (file_id m));
        ("filename", JStr (filename m));
        ("size", JNum (size m));
        ("shareToken", JStr (shareToken m));
        ("ownerEmail", json_of_opt_str (ownerEmail m));
        ("isPublic", JBool (isPublic m));
        ("passwordProtected", JBool (passwordProtected m));
        ("availableFrom", json_of_opt_str (isoformat <$> availableFrom m));
        ("availableTo", json_of_opt_str (isoformat <$> availableTo m));
        ("sharedWith", JArr (JStr <$> sharedWith m));
        ("shareLink", JStr (shareLink m));
        ("createdAt", JStr (isoformat (utc (createdAt m))));
        ("totpEnabled", JBool (totpEnabled m))].

(** One optional date field inside the [try] block: [None] when
    [fromisoformat] raises, otherwise the parsed value if any. *)
Definition parse_date (raw : option string) : option (option datetime) :=
  if truthy_opt raw
  then match fromisoformat (default "" raw) with
       | Some d => Some (Some d)
       | None => None
       end
  else Some None.

(** [POST /api/files/upload].  The two values it reads from the policy are
    whatever the last update left there: on one that is no number the
    product or the comparison raises, before anything is stored. *)
Definition upload_file (req : Request) : M Response :=
  let* '(token, user) := get_current_user req in
  match file_part req with
  | None => ret {| body := error "file is required"; status := 400 |}
  | Some upload_file =>
    (* a FileStorage is true when its filename is *)
    if negb (PyStr.truthy (fs_filename upload_file))
    then ret {| body := error "file is required"; status := 400 |}
    else
    let '(name, drawn) :=
      if PyStr.truthy (fs_filename upload_file)
      then (fs_filename upload_file, 0%nat)
      else ("upload-" ++ uuid_hex (uuid4 req 0%nat), 1%nat) in
    let filename := secure_filename name in
    let data := fs_data upload_file in
    let size := Z.of_nat (length data) in
    let* pol := gets policy in
    match times_1024 <$> (times_1024 <$> number_of (maxFileSizeMB pol)) with
    | None => ret internal_server_error
    | Some max_bytes =>
    if Z_gt_number size max_bytes
    then ret {| body := JObj [("error", JStr "File too large");
                              ("maxFileSizeMB", maxFileSizeMB pol)];
                status := 413 |}
    else
    let is_public := form_flag "isPublic" req in
    let password := if truthy_opt (form_get "password" req)
                    then form_get "password" req else None in
    match (if truthy_opt password
           then Z_lt_number (PyStr.len (default "" password))
                  <$> number_of (requirePasswordMinLength pol)
           else Some false) with
    | None => ret internal_server_error
    | Some true =>
        ret {| body := JObj [("error", JStr "Password too short");
                             ("minLength", requirePasswordMinLength pol)];
               status := 400 |}
    | Some false =>
    let invalid_format :=
      ret {| body := error "Invalid datetime format, use ISO format"; status := 400 |} in
    match parse_date (form_get "availableFrom" req) with
    | None => invalid_format
    | Some available_from =>
    match parse_date (form_get "availableTo" req) with
    | None => invalid_format
    | Some available_to =>
    (* inside the [try]: a [TypeError] of the comparison is caught too *)
    match (match available_from, available_to with
           | Some f, Some t => datetime_ge f t
           | _, _ => Some false
           end) with
    | None => invalid_format
    | Some true =>
        ret {| body := error "availableFrom must be earlier than availableTo";
               status := 400 |}
    | Some false =>
    let shared_with := form_getlist "sharedWith" req in
    let enable_totp := form_flag "enableTOTP" req in
    let file_id := uuid_str (uuid4 req drawn) in
    let share_token := file_id in
    let owner_email := (fun ku => user_email (snd ku)) <$> user in
    let share_link := "http://localhost:3000/f/" ++ share_token in
    let file_meta :=
      {| file_id := file_id;
         filename := filename;
         size := size;
         shareToken := share_token;
         ownerEmail := owner_email;
         isPublic := is_public;
         passwordProtected := truthy_opt password;
         availableFrom := available_from;
         availableTo := available_to;
         sharedWith := shared_with;
         shareLink := share_link;
         createdAt := now req;
         totpEnabled := enable_totp |} in
    modify (set_files (insert file_id file_meta)) ;;
    let totp_setup :=
      if enable_totp
      then
        let secret := "MOCK-FILE-SECRET-"
                      ++ String.substring 0 8 (uuid_hex (uuid4 req (S drawn))) in
        [("totpSetup", JObj [("secret", JStr secret); ("qrCode", JStr qr_code)])]
      else [] in
    ret {| body := JObj ([("success", JBool true);
                          ("file", file_meta_json file_meta);
                          ("message", JStr "Upload successful (mock)")]
                         ++ totp_setup);
           status := 200 |}
    end end end end end
  end.

(** [DELETE /api/files/<file_id>]. *)
Definition delete_file (file_id : string) (req : Request) : M Response :=
  let* '(token, user) := get_current_user req in
  match user with
  | None => ret {| body := message "Unauthorized"; status := 401 |}
  | Some (_, user) =>
      let* file_to_delete := gets (fun s => files s !! file_id) in
      match file_to_delete with
      | None => ret {| body := message "File not found"; status := 404 |}
      | Some file_to_delete =>
          if negb (bool_decide (ownerEmail file_to_delete = Some (user_email user)))
          then ret {| body := message "Forbidden"; status := 403 |}
          else
            modify (set_files (delete file_id)) ;;
            ret {| body := JObj [("message", JStr "File deleted successfully");
                                 ("fileId", JStr file_id)];
                   status := 200 |}
      end
  end.

(** ** The server as a transition system

    One constructor per route that can assign to a dictionary, and the
    read-only routes without further input.  The listing route
    [GET /api/files/my], which assigns to none, is embedded apart, as
    [get_user_files] below: it reads the query string and the order of the
    file store besides. *)
Inductive Route : Type :=
| POST_auth_register
| POST_auth_login
| POST_auth_login_totp
| POST_auth_totp_setup
| POST_auth_totp_verify
| POST_auth_totp_disable
| POST_auth_logout
| POST_auth_password_change
| GET_user
| GET_admin_policy
| PATCH_admin_policy
| POST_admin_cleanup
| POST_files_upload
| DELETE_files (file_id : string).

#[global] Instance Route_eq_dec : EqDecision Route.
Proof. solve_decision. Defined.

Definition handle (r : Route) : Request → M Response :=
  match r with
  | POST_auth_register => register
  | POST_auth_login => login
  | POST_auth_login_totp => login_totp
  | POST_auth_totp_setup => totp_setup
  | POST_auth_totp_verify => totp_verify
  | POST_auth_totp_disable => totp_disable
  | POST_auth_logout => logout
  | POST_auth_password_change => change_password
  | GET_user => get_user_profile
  | GET_admin_policy => get_policy
  | PATCH_admin_policy => update_policy
  | POST_admin_cleanup => admin_cleanup
  | POST_files_upload => upload_file
  | DELETE_files file_id => delete_file file_id
  end.

(** The states the server can be in: the state at import, closed under
    requests. *)
Inductive reachable (s0 : State) : State → Prop :=
| reachable_init : reachable s0 s0
| reachable_step s r req :
    reachable s0 s → reachable s0 (snd (handle r req s)).
End Routes.

(** The dictionaries as the module creates them at import; the three user
    ids are UUIDs drawn then. *)
Definition initial_users (u0 u1 u2 : UUID) : gmap string User :=
  {[ "jitensha@hcmut.edu.vn" :=
       {| user_id := uuid_str u0; username := "jitensha";
          email := "jitensha@hcmut.edu.vn"; password := "jitensha@123";
          role := "admin"; totp_enabled := false; totp_secret := None |};
     "eenose@hcmut.edu.vn" :=
       {| user_id := uuid_str u1; username := "eenose";
          email := "eenose@hcmut.edu.vn"; password := "eenose@123";
          role := "user"; totp_enabled := true; totp_secret := None |};
     "bigbluewhale@hcmut.edu.vn" :=
       {| user_id := uuid_str u2; username := "bigbluewhale";
          email := "bigbluewhale@hcmut.edu.vn"; password := "bigbluewhale@123";
          role := "user"; totp_enabled := false; totp_secret := None |} ]}.

Definition initial_policy : Policy :=
  {| policy_id := 1; maxFileSizeMB := JNum 50; minValidityHours := JNum 1;
     maxValidityDays := JNum 30; defaultValidityDays := JNum 7;
     requirePasswordMinLength := JNum 6 |}.

Definition initial_state (u0 u1 u2 : UUID) : State :=
  {| users := initial_users u0 u1 u2; sessions := ∅;
     totp_temp_sessions := ∅; files := ∅; policy := initial_policy |}.


(** ** What a request may write

    [writes s s'] lists the ways a single request changes the stores: the
    relation is an upper bound on every handler (see [handle_writes]). *)

(** A window whose start, when both ends are set, compares with its end
    and is before it. *)
Definition window_ordered (m : FileMeta) : Prop :=
  ∀ f t, availableFrom m = Some f → availableTo m = Some t →
         datetime_lt f t = Some true.

Inductive writes (s : State) : State → Prop :=
| writes_nothing :
    writes s s
| writes_new_user e u :
    e ≠ "" → users s !! e = None → email u = e →
    writes s (set_users (insert e u) s)
| writes_user_field key u u' :
    users s !! key = Some u → email u' = email u →
    writes s (set_users (insert key u') s)
| writes_challenge e :
    is_Some (users s !! e) →
    writes s (set_totp_temp_sessions (insert e e) s)
| writes_session tok e :
    is_Some (users s !! e) →
    writes s (set_sessions (insert tok e) s)
| writes_session_of_challenge tok k e :
    totp_temp_sessions s !! k = Some e →
    writes s (set_sessions (insert tok e) s)
| writes_session_for_challenge tok k e :
    totp_temp_sessions s !! k = Some e →
    writes s (set_totp_temp_sessions (delete e) (set_sessions (insert tok e) s))
| writes_session_removed tok :
    writes s (set_sessions (delete tok) s)
| writes_policy f :
    writes s (set_policy f s)
| writes_file id m :
    window_ordered m → file_id m = id →
    (∀ o, ownerEmail m = Some o → ∃ key u, users s !! key = Some u ∧ email u = o) →
    writes s (set_files (insert id m) s)
| writes_file_removed id :
    writes s (set_files (delete id) s).

(** The shape of the stores that every request keeps: a user is stored
    under its own, non-empty e-mail; sessions and pending challenges point
    at stored users, a challenge under the very e-mail it holds; a file is
    stored under its own id, with an ordered window and a stored owner. *)
Definition wf_state (s : State) : Prop :=
  (∀ k u, users s !! k = Some u → email u = k ∧ k ≠ "")
  ∧ (∀ tok e, sessions s !! tok = Some e → is_Some (users s !! e))
  ∧ (∀ k e, totp_temp_sessions s !! k = Some e → e = k ∧ is_Some (users s !! e))
  ∧ (∀ id m, files s !! id = Some m →
       window_ordered m ∧ file_id m = id
       ∧ ∀ o, ownerEmail m = Some o → is_Some (users s !! o)).


(** ** Enrollment state of a user record

    The record keeps a flag and an optional secret; the three enrollment
    states of the data model are read off the pair: the flag alone makes a
    user Enabled (it is what [login] tests), a stored secret without the
    flag is an enrollment that awaits confirmation. *)
Inductive Enrollment : Type :=
| Disabled
| PendingEnrollment (secret : string)
| Enabled (secret : option string).

Definition enrollment_state (u : User) : Enrollment :=
  if totp_enabled u then Enabled (totp_secret u)
  else match totp_secret u with
       | Some secret => PendingEnrollment secret
       | None => Disabled
       end.

(** The enrollment invariant of the data model: a secret only outside
    Disabled, and a secret whenever Enabled. *)
Definition enrollment_invariant (u : User) : Prop :=
  (is_Some (totp_secret u) → enrollment_state u ≠ Disabled)
  ∧ (totp_enabled u = true → is_Some (totp_secret u)).

(** ** The access evaluator of the specification *)
Module AccessEvaluator.

(** Modelled from the spec: the primitives of the Second-Factor Engine and
    the password hash, which the repository's server does not contain.
    [one_time_code secret n] is the code of a secret at time step [n];
    [time_step] is the length of a step. *)
Class Engine : Type := mkEngine {
  one_time_code : string → Z → string;
  time_step : Z;
  hash_password : string → string
}.

(** Modelled from the spec: code verification of the Second-Factor Engine
    (section 4.2), missing from the server: the presented code is compared
    with the codes of the current step, the one before and the one after. *)
Definition verify_code `{Engine} (secret code : string) (now : Z) : bool :=
  let n := now / time_step in
  existsb (fun d => String.eqb code (one_time_code secret (n + d))) [-1; 0; 1].

(** Modelled from the spec: the part of a share record (section 3) that the
    server's file metadata lacks: the password hash and the owner's
    second-factor secret.  Window, visibility and the second-factor flag are
    those of the stored [FileMeta]. *)
Record ShareRecord : Type := mkShareRecord {
  meta : FileMeta;
  password_hash : option string;
  owner_secret : option string
}.

(** Modelled from the spec: the credentials presented to [Evaluate]
    (section 4.3), together with the requester's identity when known. *)
Record Credentials : Type := mkCredentials {
  requester : option string;
  presented_password : option string;
  presented_code : option string
}.

Inductive DenyReason : Type :=
| NotFound | NotAvailable | NotInvited | WrongPassword | InvalidCode.

Inductive AccessDecision : Type :=
| Granted
| Denied (reason : DenyReason).

(** Modelled from the spec: the visibility gate (step 3): Public passes,
    Restricted requires a known requester in the invited set. *)
Definition invited (m : FileMeta) (c : Credentials) : bool :=
  isPublic m
  || match requester c with
     | Some who => bool_decide (who ∈ sharedWith m)
     | None => false
     end.

(** Modelled from the spec: the password gate (step 4). *)
Definition password_ok `{Engine} (r : ShareRecord) (c : Credentials) : bool :=
  match password_hash r with
  | None => true
  | Some h =>
      match presented_password c with
      | Some p => String.eqb (hash_password p) h
      | None => false
      end
  end.

(** Modelled from the spec: the second-factor gate (step 5), against the
    owner's secret; a missing secret or code fails closed. *)
Definition second_factor_ok `{Engine} (r : ShareRecord) (c : Credentials) (now : Z) : bool :=
  if totpEnabled (meta r)
  then match owner_secret r, presented_code c with
       | Some secret, Some code => verify_code secret code now
       | _, _ => false
       end
  else true.

(** Modelled from the spec: [Evaluate] (section 4.3), missing from the
    server.  The lifecycle status is the server's [get_file_status]; where
    that raises, there is no decision ([None]). *)
Definition Evaluate `{Engine} (registry : gmap string ShareRecord) (now : Z)
    (share_token : string) (c : Credentials) : option AccessDecision :=
  match registry !! share_token with
  | None => Some (Denied NotFound)
  | Some r =>
      lifecycle ← get_file_status now (meta r);
      Some match lifecycle with
           | pending | expired => Denied NotAvailable
           | active =>
               if negb (invited (meta r) c) then Denied NotInvited
               else if negb (password_ok r c) then Denied WrongPassword
               else if negb (second_factor_ok r c now) then Denied InvalidCode
               else Granted
           end
  end.

End AccessEvaluator.

(** ** Scenarios used by the examples *)

(** A request with nothing in it but the clock and the random source. *)
Definition empty_request (now : Z) (uuid4 : nat → UUID) : Request :=
  {| authorization := None; json_body := ∅; json_policy := ∅; form := [];
     file_part := None; now := now; uuid4 := uuid4 |}.

Definition with_json (fields : list (string * string)) (req : Request) : Request :=
  {| authorization := authorization req; json_body := list_to_map fields;
     json_policy := json_policy req; form := form req; file_part := file_part req;
     now := now req; uuid4 := uuid4 req |}.

Definition with_bearer (token : string) (req : Request) : Request :=
  {| authorization := Some ("Bearer " ++ token); json_body := json_body req;
     json_policy := json_policy req; form := form req; file_part := file_part req;
     now := now req; uuid4 := uuid4 req |}.

Definition with_now (t : Z) (req : Request) : Request :=
  {| authorization := authorization req; json_body := json_body req;
     json_policy := json_policy req; form := form req; file_part := file_part req;
     now := t; uuid4 := uuid4 req |}.

(** A fixed random source: the [n]-th draw is [u<n>]. *)
Definition draws (n : nat) : UUID :=
  {| uuid_str := "u" ++ pretty n; uuid_hex := "h" ++ pretty n |}.

(** The state at import. *)
Definition state0 : State := initial_state (draws 10) (draws 11) (draws 12).

(** A library instance for the examples: an instant is written as a decimal
    number, [10] being a naive datetime and [10Z] an aware one at UTC; file
    names are kept as they are. *)
Definition parse_digits (s : string) : option Z :=
  match s with
  | "10" => Some 10 | "20" => Some 20 | "30" => Some 30
  | _ => None
  end.

Definition parse_datetime (s : string) : option datetime :=
  match s with
  | "10" => Some (naive 10) | "20" => Some (naive 20) | "30" => Some (naive 30)
  | "10Z" => Some (utc 10) | "20Z" => Some (utc 20) | "30Z" => Some (utc 30)
  | _ => None
  end.

Definition example_library : Library :=
  {| fromisoformat := parse_datetime;
     isoformat := fun d => match d with
                           | aware t _ => pretty t ++ "Z"
                           | naive t => pretty t
                           end;
     utcnow_isoformat := fun t => pretty t;
     secure_filename := fun name => name;
     qr_code := "data:image/png;base64," |}.


(** One user, second factor enabled with the given secret, and a pending
    challenge for that user. *)
Definition challenged_state (secret : option string) : State :=
  {| users := {[ "u@x" := {| user_id := "1"; username := "u"; email := "u@x";
                             password := "pass-word"; role := "user";
                             totp_enabled := true; totp_secret := secret |} ]};
     sessions := ∅;
     totp_temp_sessions := {[ "u@x" := "u@x" ]};
     files := ∅;
     policy := initial_policy |}.

(** The decision of the second-factor login as a function of the user's
    secret, the presented code and the instant of the request. *)
Definition login_totp_accepts (secret code : string) (t : Z) : bool :=
  bool_decide
    (status (fst (login_totp
                    (with_json [("email", "u@x"); ("code", code)] (empty_request t draws))
                    (challenged_state (Some secret))))
     = 200).

(** Acceptance by time-step codes, as the specification words it: the codes
    accepted for a secret at an instant are those of the current step and
    its two neighbours, and no literal is accepted for every secret at every
    instant. *)
Definition time_step_verification (accepts : string → string → Z → bool) : Prop :=
  ∃ (code_at : string → Z → string) (step : Z),
    0 < step
    ∧ (∀ secret code t,
         accepts secret code t = true
         ↔ ∃ d, -1 ≤ d ≤ 1 ∧ code = code_at secret (t / step + d))
    ∧ ¬ ∃ literal, ∀ secret t, accepts secret literal t = true.

(** The keys of a user record that no handler assigns after registration. *)
Definition same_identity (u u' : User) : Prop :=
  user_id u' = user_id u ∧ username u' = username u
  ∧ email u' = email u ∧ role u' = role u.

(** The caller's e-mail, as the file routes read it: [user["email"]] of the
    user behind the bearer token, if there is one. *)
Definition caller_email (req : Request) (s : State) : option string :=
  (fun ku : string * User => email (snd ku)) <$> snd (fst (get_current_user req s)).

(** An upload of two bytes under the name [notes.txt], with a window. *)
Definition example_upload (authorization : option string) : Request :=
  {| authorization := authorization; json_body := ∅; json_policy := ∅;
     form := [("availableFrom", "10Z"); ("availableTo", "20Z"); ("isPublic", "true")];
     file_part := Some {| fs_filename := "notes.txt"; fs_data := [Byte.x68; Byte.x69] |};
     now := 15; uuid4 := draws |}.

(** The policy after [update_policy] has run over the body of a request. *)
Definition updated_policy (req : Request) (p : Policy) : Policy :=
  let data := json_policy req in
  {| policy_id := policy_id p;
     maxFileSizeMB := default (maxFileSizeMB p) (data !! "maxFileSizeMB");
     minValidityHours := default (minValidityHours p) (data !! "minValidityHours");
     maxValidityDays := default (maxValidityDays p) (data !! "maxValidityDays");
     defaultValidityDays :=
       default (defaultValidityDays p) (data !! "defaultValidityDays");
     requirePasswordMinLength :=
       default (requirePasswordMinLength p) (data !! "requirePasswordMinLength") |}.

(** ** The listing route

    [GET /api/files/my] reads the file store in the order of
    [files.values()], the order of insertion, which a finite map does not
    keep: the handler takes that order as a function [values_of] of the
    store.  It reads the clock once per listed file ([clock i] is the
    [i]-th reading) and parses two numbers of the query string with [int]
    ([int_of_text], [None] when [int] raises).  Where [get_file_status]
    raises on one of the caller's files, so does the listing. *)

(** [request.args] of the listing route. *)
Record ListingArgs : Type := mkListingArgs {
  arg_status : option string;
  arg_page : option string;
  arg_limit : option string;
  arg_sortBy : option string;
  arg_order : option string
}.

#[global] Instance FileStatus_eq_dec : EqDecision FileStatus.
Proof. solve_decision. Defined.

(** The status as the string [get_file_status] returns. *)
Definition status_name (st : FileStatus) : string :=
  match st with
  | pending => "pending"
  | expired => "expired"
  | active => "active"
  end.

(** [l[start:stop]] on a list, with Python's treatment of negative and
    out-of-range bounds. *)
Definition py_slice {A} (l : list A) (start stop : Z) : list A :=
  let n := Z.of_nat (length l) in
  let clamp i := if i <? 0 then Z.max (i + n) 0 else Z.min i n in
  let a := clamp start in
  let b := clamp stop in
  take (Z.to_nat (b - a)) (drop (Z.to_nat a) l).

(** [list.sort] is stable, which fixes its result: the model is the stable
    insertion sort.  [le x y] says that [x] may stand before [y]. *)
Fixpoint insert_by {A} (le : A → A → bool) (x : A) (l : list A) : list A :=
  match l with
  | [] => [x]
  | y :: l' => if le x y then x :: l else y :: insert_by le x l'
  end.

Definition stable_sort {A} (le : A → A → bool) (l : list A) : list A :=
  foldr (insert_by le) [] l.

(** The order of two rows under [sort(key=..., reverse=...)].  The key
    [createdAt] is the text [upload_file] wrote, the [isoformat] of a UTC
    instant: such texts are ordered as their instants are, which is how the
    model compares them. *)
Definition row_le (sort_by : string) (reverse_order : bool)
    (x y : FileMeta * FileStatus) : bool :=
  let le (a b : FileMeta * FileStatus) :=
    if String.eqb sort_by "fileName"
    then String.leb (PyStr.lower (filename (fst a))) (PyStr.lower (filename (fst b)))
    else createdAt (fst a) <=? createdAt (fst b) in
  if reverse_order then le y x else le x y.

(** Each file with the status computed at its own reading of the clock, the
    [i]-th for the first of them; [None] as soon as one computation raises. *)
Fixpoint with_status (clock : nat → Z) (i : nat) (l : list FileMeta)
    : option (list (FileMeta * FileStatus)) :=
  match l with
  | [] => Some []
  | file_meta :: l' =>
      st ← get_file_status (clock i) file_meta;
      rows ← with_status clock (S i) l';
      Some ((file_meta, st) :: rows)
  end.

(** The comprehension over [files.values()]: the caller's files, each with
    its status. *)
Definition owned_with_status (values : list FileMeta) (clock : nat → Z)
    (user_email : string) : option (list (FileMeta * FileStatus)) :=
  with_status clock 0
    (filter (fun file_meta => ownerEmail file_meta = Some user_email) values).

(** [user_files_with_status] once filtered by status and sorted. *)
Definition listed_rows (user_files_with_status : list (FileMeta * FileStatus))
    (status_filter sort_by order : string) : list (FileMeta * FileStatus) :=
  let user_files_with_status :=
    if negb (String.eqb status_filter "all")
    then filter (fun row => status_name (snd row) = status_filter) user_files_with_status
    else user_files_with_status in
  let reverse_order := String.eqb order "desc" in
  stable_sort (row_le sort_by reverse_order) user_files_with_status.

(** The page cut out of the rows. *)
Definition page_rows (rows : list (FileMeta * FileStatus)) (page limit : Z)
    : list (FileMeta * FileStatus) :=
  let start_index := (page - 1) * limit in
  let end_index := start_index + limit in
  py_slice rows start_index end_index.

Definition count_status (st : FileStatus) (rows : list (FileMeta * FileStatus)) : Z :=
  Z.of_nat (length (filter (fun row => snd row = st) rows)).

Section Listing.
Context `{Library}.
Variable values_of : gmap string FileMeta → list FileMeta.
Variable int_of_text : string → option Z.

Definition serialized_row (row : FileMeta * FileStatus) : json :=
  let '(file_meta, st) := row in
  JObj [("id", JStr (file_id file_meta));
        ("fileName", JStr (filename file_meta));
        ("status", JStr (status_name st));
        ("createdAt", JStr (isoformat (utc (createdAt file_meta))));
        ("shareToken", JStr (shareToken file_meta))].

(** [int(request.args.get(k, d))]. *)
Definition int_arg (arg : option string) (d : Z) : option Z :=
  match arg with
  | Some text => int_of_text text
  | None => Some d
  end.

(** [GET /api/files/my].  [int] raises on a text that is no number,
    [get_file_status] on a file with an offset-naive date, and the division
    when [limit] is 0: all three are answered 500. *)
Definition get_user_files (clock : nat → Z) (args : ListingArgs) (req : Request)
    : M Response :=
  let* '(token, user) := get_current_user req in
  match user with
  | None => ret {| body := message "Unauthorized"; status := 401 |}
  | Some (_, user) =>
      let user_email := user_email user in
      let status_filter := default "all" (arg_status args) in
      match int_arg (arg_page args) 1 with
      | None => ret internal_server_error
      | Some page =>
      match int_arg (arg_limit args) 20 with
      | None => ret internal_server_error
      | Some limit =>
      let sort_by := default "createdAt" (arg_sortBy args) in
      let order := default "desc" (arg_order args) in
      let* values := gets (fun s => values_of (files s)) in
      match owned_with_status values clock user_email with
      | None => ret internal_server_error
      | Some user_files_with_status =>
      let user_files_with_status :=
        listed_rows user_files_with_status status_filter sort_by order in
      let total_files := Z.of_nat (length user_files_with_status) in
      let paginated_files_with_status := page_rows user_files_with_status page limit in
      let summary :=
        JObj [("activeFiles", JNum (count_status active user_files_with_status));
              ("pendingFiles", JNum (count_status pending user_files_with_status));
              ("expiredFiles", JNum (count_status expired user_files_with_status));
              ("deletedFiles", JNum 0)] in
      let serialized_files := serialized_row <$> paginated_files_with_status in
      if limit =? 0 then ret internal_server_error
      else
        let total_pages := (total_files + limit - 1) / limit in
        let pagination :=
          JObj [("currentPage", JNum page);
                ("totalPages", JNum total_pages);
                ("totalFiles", JNum total_files);
                ("limit", JNum limit)] in
        ret {| body := JObj [("files", JArr serialized_files);
                             ("pagination", pagination);
                             ("summary", summary)];
               status := 200 |}
      end end end
  end.
End Listing.

(** The rows behind a listing, [None] when a status computation raises. *)
Definition rows_of (values_of : gmap string FileMeta → list FileMeta)
    (clock : nat → Z) (args : ListingArgs) (u : User) (s : State)
    : option (list (FileMeta * FileStatus)) :=
  user_files_with_status ← owned_with_status (values_of (files s)) clock (email u);
  Some (listed_rows user_files_with_status
          (default "all" (arg_status args))
          (default "createdAt" (arg_sortBy args))
          (default "desc" (arg_order args))).

(** What the listing answers for the rows [rows], a page number and a limit
    other than 0. *)
Definition listing_answer `{Library} (rows : list (FileMeta * FileStatus))
    (page limit : Z) : Response :=
  {| body :=
       JObj [("files", JArr (serialized_row <$> page_rows rows page limit));
             ("pagination",
              JObj [("currentPage", JNum page);
                    ("totalPages", JNum ((Z.of_nat (length rows) + limit - 1) / limit));
                    ("totalFiles", JNum (Z.of_nat (length rows)));
                    ("limit", JNum limit)]);
             ("summary",
              JObj [("activeFiles", JNum (count_status active rows));
                    ("pendingFiles", JNum (count_status pending rows));
                    ("expiredFiles", JNum (count_status expired rows));
                    ("deletedFiles", JNum 0)])];
     status := 200 |}.

(** The records of a store in the order of the map's own enumeration, for
    the examples. *)
Definition example_values (m : gmap string FileMeta) : list FileMeta :=
  snd <$> map_to_list m.


(** * Properties *)

(** ** The bearer-token check *)

Ltac run_monad :=
  unfold update_user in *; unfold bind, ret, gets, modify in *; cbn [fst snd] in *.

(** Reduce the option and boolean plumbing, leaving map operations folded. *)
Ltac norm_opt :=
  cbn [truthy_opt negb orb andb default from_option id fst snd
       users sessions totp_temp_sessions files policy
       set_users set_sessions set_totp_temp_sessions set_files set_policy
       status body].

(** [get_current_user] answers either nothing at all or a token of the
    session store with the user stored under the e-mail it maps to. *)
Lemma get_current_user_cases (req : Request) (s : State) :
  get_current_user req s = (None, None, s)
  ∨ ∃ rest key u,
      PyStr.split_space_1 (default "" (authorization req)) = Some rest
      ∧ sessions s !! PyStr.strip rest = Some key
      ∧ users s !! key = Some u
      ∧ get_current_user req s = (Some (PyStr.strip rest), Some (key, u), s).
Proof.
  unfold get_current_user.
  destruct (PyStr.startswith _ _); cbn [negb]; [| by left].
  destruct (PyStr.split_space_1 _) as [rest|] eqn:Hsplit; [| by left].
  run_monad.
  destruct (sessions s !! PyStr.strip rest) as [key|] eqn:Hsess; cbn; [| by left].
  destruct (PyStr.truthy key); cbn [negb]; [| by left].
  destruct (users s !! key) as [u|] eqn:Husr; [| by left].
  right. by exists rest, key, u.
Qed.

Lemma get_current_user_state (req : Request) (s : State) :
  snd (get_current_user req s) = s.
Proof.
  destruct (get_current_user_cases req s) as [-> | (? & ? & ? & _ & _ & _ & ->)]; done.
Qed.

(** A header [Bearer <rest>] is split right after the scheme. *)
Lemma split_bearer (rest : string) :
  PyStr.split_space_1 ("Bearer " ++ rest) = Some rest.
Proof. reflexivity. Qed.

Lemma get_current_user_absent (req : Request) (s : State) (rest : string) :
  authorization req = Some ("Bearer " ++ rest) →
  sessions s !! PyStr.strip rest = None →
  get_current_user req s = (None, None, s).
Proof.
  intros Hauth Habs.
  destruct (get_current_user_cases req s) as [-> | (r & k & u & Hs & Hk & _)]; [done |].
  rewrite Hauth in Hs. change (Some rest = Some r) in Hs. congruence.
Qed.

(** The answer depends on the header and on two stores only. *)
Lemma get_current_user_ext (req req' : Request) (s s' : State) :
  authorization req = authorization req' →
  sessions s = sessions s' →
  users s = users s' →
  fst (get_current_user req s) = fst (get_current_user req' s').
Proof.
  intros Ha Hs Hu. unfold get_current_user. rewrite Ha.
  destruct (PyStr.startswith _ _); cbn [negb]; [| done].
  destruct (PyStr.split_space_1 _); [| done].
  run_monad. rewrite Hs.
  destruct (sessions s' !! _) as [key|]; cbn; [| done].
  destruct (PyStr.truthy key); cbn [negb]; [| done].
  rewrite Hu. by destruct (users s' !! key).
Qed.

(** When and only when [get_current_user] accepts. *)
Lemma get_current_user_accepts (req : Request) (s : State) (tok k : string) (v : User) :
  fst (get_current_user req s) = (Some tok, Some (k, v))
  ↔ ∃ rest,
      PyStr.startswith "Bearer " (default "" (authorization req)) = true
      ∧ PyStr.split_space_1 (default "" (authorization req)) = Some rest
      ∧ tok = PyStr.strip rest
      ∧ sessions s !! tok = Some k
      ∧ PyStr.truthy k = true
      ∧ users s !! k = Some v.
Proof.
  unfold get_current_user.
  destruct (PyStr.startswith _ _); cbn [negb].
  2:{ split; [done | by intros (? & ? & _)]. }
  destruct (PyStr.split_space_1 _) as [rest|].
  2:{ split; [done | by intros (? & _ & ? & _)]. }
  run_monad.
  destruct (sessions s !! PyStr.strip rest) as [key|] eqn:Hsess; cbn.
  2:{ split; [done |]. intros (r & _ & [= <-] & -> & Hk & _). congruence. }
  destruct (PyStr.truthy key) eqn:Htr; cbn [negb].
  2:{ split; [done |]. intros (r & _ & [= <-] & -> & Hk & Ht & _). congruence. }
  destruct (users s !! key) as [u|] eqn:Husr; cbn.
  2:{ split; [done |]. intros (r & _ & [= <-] & -> & Hk & Ht & Hu). congruence. }
  split.
  - intros [= <- <- <-]. by exists rest.
  - intros (r & _ & [= <-] & -> & Hk & Ht & Hu). congruence.
Qed.

(** ** Validate: [get_current_user] *)

(** After a successful logout the same header is refused. *)
Lemma logout_revokes (req : Request) (s : State) :
  status (fst (logout req s)) = 200 →
  get_current_user req (snd (logout req s)) = (None, None, snd (logout req s)).
Proof.
  unfold logout. run_monad.
  destruct (get_current_user_cases req s)
    as [-> | (rest & key & u & Hsplit & Hsess & Husr & ->)]; [done |].
  intros _. rewrite bool_decide_true by eauto. cbn.
  set (s' := set_sessions _ s).
  destruct (get_current_user_cases req s')
    as [-> | (rest' & key' & u' & Hsplit' & Hsess' & _)]; [done |].
  exfalso. rewrite Hsplit in Hsplit'. injection Hsplit' as <-.
  subst s'. cbn in Hsess'. by rewrite lookup_delete_eq in Hsess'.
Qed.

(** C6 (as amended): [get_current_user] refuses every token that is not a
    key of the session store: one never issued, one revoked by a logout,
    and any pending second-factor challenge, since those are kept in a store
    of their own that the check never reads.  Its answer is a function of
    the header, the session store and the user store alone, so it cannot
    change with the clock: a session has no expiry.  And it leaves every
    store as it found it. *)
Theorem validate_refuses_absent_and_writes_nothing (req : Request) (s : State) :
  snd (get_current_user req s) = s
  ∧ (PyStr.startswith "Bearer " (default "" (authorization req)) = false →
     fst (get_current_user req s) = (None, None))
  ∧ (∀ rest, authorization req = Some ("Bearer " ++ rest) →
       sessions s !! PyStr.strip rest = None →
       fst (get_current_user req s) = (None, None))
  ∧ (status (fst (logout req s)) = 200 →
     fst (get_current_user req (snd (logout req s))) = (None, None))
  ∧ (∀ req' s', authorization req' = authorization req →
       sessions s' = sessions s → users s' = users s →
       fst (get_current_user req' s') = fst (get_current_user req s)).
Proof.
  split; [apply get_current_user_state |].
  split.
  { intros Hpre. unfold get_current_user. by rewrite Hpre. }
  split.
  { intros rest Hauth Habs. by rewrite (get_current_user_absent req s rest). }
  split.
  { intros Hok. by rewrite logout_revokes. }
  intros req' s' Ha Hs Hu. by apply get_current_user_ext.
Qed.

(** At import, the token [token-h0] is in no store: it is refused and the
    stores are left as they were. *)
Lemma validate_refuses_absent_and_writes_nothing_witness :
  let req := with_bearer "token-h0" (empty_request 0 draws) in
  sessions state0 !! PyStr.strip "token-h0" = None
  ∧ fst (get_current_user req state0) = (None, None)
  ∧ snd (get_current_user req state0) = state0.
Proof.
  cbv zeta.
  assert (Habs : sessions state0 !! PyStr.strip "token-h0" = None)
    by (vm_compute; reflexivity).
  destruct (validate_refuses_absent_and_writes_nothing
              (with_bearer "token-h0" (empty_request 0 draws)) state0)
    as (Hsame & _ & Hrefuse & _).
  split; [exact Habs |]. split; [| exact Hsame].
  exact (Hrefuse "token-h0" eq_refl Habs).
Defined.

(** C6 (counterexample): the claim lets a session lapse at its expiry time.
    The session that a login at instant 0 creates is accepted at every later
    instant: no expiry time exists for it. *)
Lemma session_has_no_expiry :
  let login_request :=
    with_json [("email", "jitensha@hcmut.edu.vn"); ("password", "jitensha@123")]
      (empty_request 0 draws) in
  let s1 := snd (login login_request state0) in
  sessions s1 !! "token-h0" = Some "jitensha@hcmut.edu.vn"
  ∧ ¬ ∃ expiry : Z, ∀ t : Z, expiry < t →
        fst (get_current_user (with_bearer "token-h0" (empty_request t draws)) s1)
        = (None, None).
Proof.
  split; [by vm_compute |].
  intros [expiry Hexp]. specialize (Hexp (expiry + 1) ltac:(lia)).
  vm_compute in Hexp. discriminate.
Qed.

(** ** Revoke: [logout] *)

(** C2 (as amended): a logout whose token is not in the session store is
    answered 401 and changes nothing; one whose token is there, for a stored
    user (as every session of a well-formed store is), is answered 200 and
    removes the token and nothing else.  Repeating a logout leaves the
    stores as the first one left them, and the repeated call is answered
    401. *)
Theorem logout_twice_same_state (req : Request) (s : State) :
  let r1 := logout req s in
  let r2 := logout req (snd r1) in
  snd r2 = snd r1
  ∧ status (fst r2) = 401
  ∧ (status (fst r1) = 200 ∨ status (fst r1) = 401 ∧ snd r1 = s)
  ∧ (∀ rest, authorization req = Some ("Bearer " ++ rest) →
       sessions s !! PyStr.strip rest = None →
       status (fst r1) = 401 ∧ snd r1 = s)
  ∧ (∀ rest e, authorization req = Some ("Bearer " ++ rest) →
       sessions s !! PyStr.strip rest = Some e →
       e ≠ "" → is_Some (users s !! e) →
       status (fst r1) = 200
       ∧ snd r1 = set_sessions (delete (PyStr.strip rest)) s
       ∧ sessions (snd r1) !! PyStr.strip rest = None)
  ∧ (wf_state s →
     ∀ rest, authorization req = Some ("Bearer " ++ rest) →
       is_Some (sessions s !! PyStr.strip rest) →
       status (fst r1) = 200
       ∧ snd r1 = set_sessions (delete (PyStr.strip rest)) s
       ∧ sessions (snd r1) !! PyStr.strip rest = None)
  ∧ (∀ rest, authorization req = Some ("Bearer " ++ rest) →
       status (fst r1) = 200 →
       snd r1 = set_sessions (delete (PyStr.strip rest)) s).
Proof.
  cbv zeta.
  assert (Hpresent : ∀ rest e, authorization req = Some ("Bearer " ++ rest) →
            sessions s !! PyStr.strip rest = Some e →
            e ≠ "" → is_Some (users s !! e) →
            status (fst (logout req s)) = 200
            ∧ snd (logout req s) = set_sessions (delete (PyStr.strip rest)) s
            ∧ sessions (snd (logout req s)) !! PyStr.strip rest = None).
  { intros rest e Hauth Hsess Hne [u Hu].
    assert (Hcur : fst (get_current_user req s) = (Some (PyStr.strip rest), Some (e, u))).
    { apply get_current_user_accepts. exists rest. rewrite Hauth.
      do 4 (split; [done |]). split; [by destruct e | done]. }
    assert (Hrun : get_current_user req s = (Some (PyStr.strip rest), Some (e, u), s)).
    { destruct (get_current_user_cases req s) as [E | (? & ? & ? & _ & _ & _ & E)];
        rewrite E in Hcur |- *; cbn in Hcur; congruence. }
    unfold logout. run_monad. rewrite Hrun.
    rewrite bool_decide_true by eauto. cbn.
    split; [done |]. split; [done |]. apply lookup_delete_eq. }
  assert (Hfail : ∀ s0, get_current_user req s0 = (None, None, s0) →
                        status (fst (logout req s0)) = 401 ∧ snd (logout req s0) = s0).
  { intros s0 E. unfold logout. run_monad. by rewrite E. }
  assert (Hsecond : status (fst (logout req (snd (logout req s)))) = 401
                    ∧ snd (logout req (snd (logout req s))) = snd (logout req s)).
  { destruct (get_current_user_cases req s)
      as [E | (rest & key & u & Hsplit & Hsess & Husr & E)].
    - destruct (Hfail s E) as [_ ->]. by apply Hfail.
    - apply Hfail, logout_revokes. unfold logout. run_monad. rewrite E.
      by rewrite bool_decide_true by eauto. }
  destruct Hsecond as [H401 Hsame].
  split; [done |]. split; [done |].
  split.
  { destruct (get_current_user_cases req s)
      as [E | (rest & key & u & Hsplit & Hsess & Husr & E)].
    - right. by apply Hfail.
    - left. unfold logout. run_monad. rewrite E.
      by rewrite bool_decide_true by eauto. }
  split.
  { intros rest Hauth Habs. by apply Hfail, (get_current_user_absent req s rest). }
  split; [exact Hpresent |].
  split.
  { intros (Husers & Hsess & _) rest Hauth [e He].
    destruct (Hsess _ _ He) as [u Hu].
    apply (Hpresent rest e); [done | done | | by eauto].
    by destruct (Husers _ _ Hu). }
  intros rest Hauth. unfold logout. run_monad.
  destruct (get_current_user_cases req s)
    as [-> | (rest' & key & u & Hsplit & Hsess & Husr & ->)]; [done |].
  intros _. rewrite bool_decide_true by eauto. cbn.
  rewrite Hauth in Hsplit. change (Some rest = Some rest') in Hsplit.
  by injection Hsplit as <-.
Qed.

(** Once [token-h0] has been issued, the first logout is answered 200 and
    removes it; a second logout changes nothing more and is answered 401. *)
Lemma logout_twice_same_state_witness :
  let login_request :=
    with_json [("email", "jitensha@hcmut.edu.vn"); ("password", "jitensha@123")]
      (empty_request 0 draws) in
  let req := with_bearer "token-h0" (empty_request 0 draws) in
  let s1 := snd (login login_request state0) in
  sessions s1 !! PyStr.strip "token-h0" = Some "jitensha@hcmut.edu.vn"
  ∧ status (fst (logout req s1)) = 200
  ∧ sessions (snd (logout req s1)) !! PyStr.strip "token-h0" = None
  ∧ snd (logout req (snd (logout req s1))) = snd (logout req s1)
  ∧ status (fst (logout req (snd (logout req s1)))) = 401.
Proof.
  cbv zeta.
  set (s1 := snd (login _ state0)).
  assert (Hsess : sessions s1 !! PyStr.strip "token-h0" = Some "jitensha@hcmut.edu.vn")
    by (vm_compute; reflexivity).
  assert (Huser : is_Some (users s1 !! "jitensha@hcmut.edu.vn"))
    by (vm_compute; eauto).
  destruct (logout_twice_same_state (with_bearer "token-h0" (empty_request 0 draws)) s1)
    as (Hsame & H401 & _ & _ & Hpresent & _).
  destruct (Hpresent "token-h0" "jitensha@hcmut.edu.vn" eq_refl Hsess
              ltac:(discriminate) Huser) as (H200 & _ & Hgone).
  split; [exact Hsess |]. split; [exact H200 |]. split; [exact Hgone |].
  split; [exact Hsame | exact H401].
Defined.

(** C2 (counterexample): at import no session exists; a logout with the
    token [token-h0] is refused with 401.  And once that token has been
    issued, the first logout is answered 200 and the second 401: the two
    calls do not have the same outcome. *)
Lemma logout_of_absent_token_is_refused :
  let login_request :=
    with_json [("email", "jitensha@hcmut.edu.vn"); ("password", "jitensha@123")]
      (empty_request 0 draws) in
  let logout_request := with_bearer "token-h0" (empty_request 0 draws) in
  let s1 := snd (login login_request state0) in
  sessions state0 !! "token-h0" = None
  ∧ status (fst (logout logout_request state0)) = 401
  ∧ status (fst (logout logout_request s1)) = 200
  ∧ status (fst (logout logout_request (snd (logout logout_request s1)))) = 401.
Proof. by vm_compute. Qed.

(** ** Registration *)

(** C10: a registration whose e-mail is already a key of the user store is
    answered with an error (400) and leaves every store, the user store in
    particular, exactly as it was. *)
Theorem register_existing_email_rejected (req : Request) (s : State) (e : string) :
  json_body req !! "email" = Some e →
  is_Some (users s !! e) →
  status (fst (register req s)) = 400
  ∧ (∃ msg, body (fst (register req s)) = error msg)
  ∧ snd (register req s) = s.
Proof.
  intros Hemail Hin. unfold register. rewrite Hemail.
  destruct (negb (truthy_opt (Some e)) || negb (truthy_opt (json_body req !! "password")));
    [by eauto |].
  run_monad. cbn [default]. rewrite bool_decide_true by done. by eauto.
Qed.

Lemma register_existing_email_rejected_witness :
  let req := with_json [("email", "eenose@hcmut.edu.vn"); ("password", "another")]
               (empty_request 0 draws) in
  json_body req !! "email" = Some "eenose@hcmut.edu.vn"
  ∧ is_Some (users state0 !! "eenose@hcmut.edu.vn")
  ∧ status (fst (register req state0)) = 400
  ∧ (∃ msg, body (fst (register req state0)) = error msg)
  ∧ snd (register req state0) = state0.
Proof.
  cbv zeta.
  assert (Hemail : json_body
                     (with_json [("email", "eenose@hcmut.edu.vn"); ("password", "another")]
                        (empty_request 0 draws)) !! "email"
                   = Some "eenose@hcmut.edu.vn") by (vm_compute; reflexivity).
  assert (Hin : is_Some (users state0 !! "eenose@hcmut.edu.vn"))
    by (vm_compute; eauto).
  split; [exact Hemail |]. split; [exact Hin |].
  exact (register_existing_email_rejected _ state0 "eenose@hcmut.edu.vn" Hemail Hin).
Defined.

(** ** Password change *)

(** What a successful [change_password] writes: the password of the caller's
    record, under the key the session maps to. *)
Lemma change_password_success (req : Request) (s : State) :
  status (fst (change_password req s)) = 200 →
  ∃ tok key u new_password,
    get_current_user req s = (Some tok, Some (key, u), s)
    ∧ users s !! key = Some u
    ∧ json_body req !! "newPassword" = Some new_password
    ∧ snd (change_password req s)
      = set_users (insert key (set_password new_password u)) s.
Proof.
  unfold change_password. run_monad.
  destruct (get_current_user_cases req s)
    as [-> | (rest & key & u & Hsplit & Hsess & Husr & ->)]; [done |].
  destruct (json_body req !! "newPassword") as [new_password|] eqn:Hnew;
    cbn [truthy_opt negb orb default]; [| done].
  destruct (negb (PyStr.truthy new_password) || _); [done |].
  assert (Hupd : ∀ r, snd (let '(_, s') := (tt, set_users
              (fun us => match us !! key with
                         | Some u0 => <[key:=set_password new_password u0]> us
                         | None => us
                         end) s) in (r : Response, s'))
            = set_users (insert key (set_password new_password u)) s).
  { intros r. cbn. unfold set_users. by rewrite Husr. }
  intros Hok. exists (PyStr.strip rest), key, u, new_password.
  repeat split; [done|].
  revert Hok.
  destruct (truthy_opt (json_body req !! "oldPassword")).
  - destruct (negb (bool_decide _)); [done |]. intros _. apply Hupd.
  - destruct (truthy_opt (json_body req !! "totpCode")); [| done].
    destruct (negb (totp_enabled u)); [done |].
    destruct (negb (bool_decide _)); [done |]. intros _. apply Hupd.
Qed.

(** C8: a successful [change_password] replaces the password of the
    caller's record and nothing else.  The session store, the pending
    challenges, the files and the policy are unchanged; every other user
    record is unchanged; the caller's record keeps all its other fields; and
    every bearer token accepted before the call is accepted after it, for
    the same user key. *)
Theorem change_password_changes_only_the_password (req : Request) (s : State) :
  status (fst (change_password req s)) = 200 →
  let s' := snd (change_password req s) in
  ∃ key u new_password,
    fst (get_current_user req s) = (Some (default "" (fst (fst (get_current_user req s)))),
                                    Some (key, u))
    ∧ json_body req !! "newPassword" = Some new_password
    ∧ users s' !! key = Some (set_password new_password u)
    ∧ (user_id (set_password new_password u) = user_id u
       ∧ username (set_password new_password u) = username u
       ∧ email (set_password new_password u) = email u
       ∧ role (set_password new_password u) = role u
       ∧ totp_enabled (set_password new_password u) = totp_enabled u
       ∧ totp_secret (set_password new_password u) = totp_secret u)
    ∧ (∀ k, k ≠ key → users s' !! k = users s !! k)
    ∧ sessions s' = sessions s
    ∧ totp_temp_sessions s' = totp_temp_sessions s
    ∧ files s' = files s
    ∧ policy s' = policy s
    ∧ (∀ req' tok k v,
         fst (get_current_user req' s) = (Some tok, Some (k, v)) →
         ∃ v', fst (get_current_user req' s') = (Some tok, Some (k, v'))
               ∧ v' = if decide (k = key) then set_password new_password v else v).
Proof.
  intros Hok. cbv zeta.
  destruct (change_password_success req s Hok)
    as (tok & key & u & new_password & Hcur & Husr & Hnew & ->).
  exists key, u, new_password. rewrite Hcur. cbn [fst snd default].
  split; [done |]. split; [done |].
  split; [cbn; apply lookup_insert_eq |].
  split; [done |].
  split; [intros k Hk; cbn; by apply lookup_insert_ne |].
  do 4 (split; [done |]).
  intros req' tok' k v Hv.
  apply get_current_user_accepts in Hv
    as (rest & Hpre & Hsplit & -> & Hsess & Htr & Hv).
  exists (if decide (k = key) then set_password new_password v else v).
  split; [| done].
  apply get_current_user_accepts. exists rest.
  do 5 (split; [done |]). cbn.
  destruct (decide (k = key)) as [-> | Hne].
  - rewrite lookup_insert_eq. congruence.
  - by rewrite lookup_insert_ne.
Qed.

Lemma change_password_changes_only_the_password_witness :
  let login_request :=
    with_json [("email", "jitensha@hcmut.edu.vn"); ("password", "jitensha@123")]
      (empty_request 0 draws) in
  let s1 := snd (login login_request state0) in
  let req := with_bearer "token-h0"
               (with_json [("oldPassword", "jitensha@123"); ("newPassword", "s3cret!")]
                  (empty_request 5 draws)) in
  status (fst (change_password req s1)) = 200
  ∧ sessions (snd (change_password req s1)) = sessions s1
  ∧ password <$> users (snd (change_password req s1)) !! "jitensha@hcmut.edu.vn"
    = Some "s3cret!".
Proof.
  cbv zeta.
  set (s1 := snd (login _ state0)). set (req := with_bearer _ _).
  assert (Hok : status (fst (change_password req s1)) = 200) by by vm_compute.
  destruct (change_password_changes_only_the_password req s1 Hok)
    as (key & u & pw & _ & _ & _ & _ & _ & Hsess & _).
  split; [exact Hok |]. split; [exact Hsess |]. by vm_compute.
Defined.

(** ** Who writes the session store *)

Ltac handler_cases req s :=
  run_monad;
  destruct (get_current_user_cases req s)
    as [-> | (?rest & ?key & ?u & ?Hsplit & ?Hsess & ?Husr & ->)];
  cbn; repeat case_match; cbn; try done.

Section Transitions.
Context `{Library}.

(** Every route but login, second-factor login and logout leaves the
    session store alone. *)
Lemma sessions_frame (r : Route) (req : Request) (s : State) :
  r ≠ POST_auth_login → r ≠ POST_auth_login_totp → r ≠ POST_auth_logout →
  sessions (snd (handle r req s)) = sessions s.
Proof.
  intros Hl Ht Ho. destruct r; try done; cbn [handle].
  - unfold register. run_monad. repeat case_match; by cbn.
  - unfold totp_setup. handler_cases req s.
  - unfold totp_verify. handler_cases req s.
  - unfold totp_disable. handler_cases req s.
  - unfold change_password. handler_cases req s.
  - unfold get_user_profile. handler_cases req s.
  - unfold upload_file. handler_cases req s.
  - unfold delete_file. handler_cases req s.
Qed.

(** A logout only removes. *)
Lemma logout_sessions (req : Request) (s : State) (tok e : string) :
  sessions (snd (logout req s)) !! tok = Some e → sessions s !! tok = Some e.
Proof.
  unfold logout. run_monad.
  destruct (get_current_user_cases req s)
    as [-> | (rest & key & u & Hsplit & Hsess & Husr & ->)]; [done |].
  rewrite bool_decide_true by eauto. cbn [snd sessions set_sessions].
  intros Hl. destruct (decide (tok = PyStr.strip rest)) as [-> | Hne].
  - by rewrite lookup_delete_eq in Hl.
  - by rewrite lookup_delete_ne in Hl.
Qed.

(** A login writes a session only for a user without second factor. *)
Lemma login_sessions (req : Request) (s : State) (tok e : string) :
  sessions (snd (login req s)) !! tok = Some e →
  sessions s !! tok ≠ Some e →
  ∃ u, json_body req !! "email" = Some e ∧ users s !! e = Some u
       ∧ totp_enabled u = false.
Proof.
  unfold login. run_monad.
  destruct (json_body req !! "email") as [e0|] eqn:He0; cbn; [| done].
  destruct (users s !! e0) as [u|] eqn:Hu; cbn; [| done].
  destruct (negb (bool_decide _)); cbn; [done |].
  destruct (totp_enabled u) eqn:Hen; cbn; [done |].
  intros Hl Hne.
  destruct (decide (tok = create_token "token" (uuid4 req 0%nat))) as [-> | Htok].
  - rewrite lookup_insert_eq in Hl. injection Hl as <-. eauto.
  - by rewrite lookup_insert_ne in Hl.
Qed.

(** A second-factor login writes a session only for the e-mail held by the
    pending challenge it was asked for, and only on the accepted code. *)
Lemma login_totp_sessions (req : Request) (s : State) (tok e : string) :
  sessions (snd (login_totp req s)) !! tok = Some e →
  sessions s !! tok ≠ Some e →
  json_body req !! "code" = Some MOCK_TOTP_CODE
  ∧ ∃ k, json_body req !! "email" = Some k ∧ totp_temp_sessions s !! k = Some e.
Proof.
  unfold login_totp.
  destruct (json_body req !! "email") as [k|] eqn:Hk; norm_opt; [| done].
  destruct (json_body req !! "code") as [code|] eqn:Hcode; norm_opt;
    [| by rewrite orb_true_r].
  destruct (negb (PyStr.truthy k) || negb (PyStr.truthy code)); [done |].
  run_monad. norm_opt.
  destruct (totp_temp_sessions s !! k) as [e0|] eqn:He0; norm_opt; [| done].
  destruct (negb (PyStr.truthy e0)); [done |].
  destruct (String.eqb code MOCK_TOTP_CODE) eqn:Heq; norm_opt; [| done].
  apply String.eqb_eq in Heq as ->.
  intros Hl Hne.
  assert (Hins : <[create_token "token" (uuid4 req 0%nat) := e0]> (sessions s) !! tok
                 = Some e).
  { revert Hl. repeat case_match; by norm_opt. }
  destruct (decide (tok = create_token "token" (uuid4 req 0%nat))) as [-> | Htok].
  - rewrite lookup_insert_eq in Hins. injection Hins as <-. eauto.
  - by rewrite lookup_insert_ne in Hins.
Qed.

(** C5: for a user whose second factor is enabled, a login with the right
    password is answered with [requireTOTP: true] and no access token; it
    writes no session and stores the user's pending challenge under the
    user's e-mail, replacing the one that was there.  Whatever the request,
    a session for such a user enters the session store only through the
    second-factor login, called with the accepted code for a pending
    challenge that holds the user's e-mail. *)
Theorem second_factor_user_gets_token_only_from_login_totp :
  (∀ req s e u,
     json_body req !! "email" = Some e →
     users s !! e = Some u →
     totp_enabled u = true →
     json_body req !! "password" = Some (password u) →
     let r := login req s in
     status (fst r) = 200
     ∧ json_get "requireTOTP" (body (fst r)) = Some (JBool true)
     ∧ json_get "accessToken" (body (fst r)) = None
     ∧ sessions (snd r) = sessions s
     ∧ totp_temp_sessions (snd r) = <[e := e]> (totp_temp_sessions s)
     ∧ users (snd r) = users s)
  ∧ (∀ route req s tok e u,
       users s !! e = Some u →
       totp_enabled u = true →
       sessions (snd (handle route req s)) !! tok = Some e →
       sessions s !! tok ≠ Some e →
       route = POST_auth_login_totp
       ∧ json_body req !! "code" = Some MOCK_TOTP_CODE
       ∧ ∃ k, json_body req !! "email" = Some k
              ∧ totp_temp_sessions s !! k = Some e).
Proof.
  split.
  - intros req s e u He Hu Hen Hpw. cbv zeta. unfold login. run_monad.
    rewrite He. cbn. rewrite Hu, Hpw. rewrite bool_decide_true by done.
    cbn. rewrite Hen. by cbn.
  - intros route req s tok e u Hu Hen Hl Hne.
    destruct (decide (route = POST_auth_login)) as [-> | Hnl].
    { destruct (login_sessions req s tok e Hl Hne) as (u' & _ & Hu' & Hdis).
      congruence. }
    destruct (decide (route = POST_auth_login_totp)) as [-> | Hnt].
    { split; [done |]. by apply (login_totp_sessions req s tok e). }
    destruct (decide (route = POST_auth_logout)) as [-> | Hno].
    { by apply logout_sessions in Hl. }
    by rewrite sessions_frame in Hl.
Qed.
End Transitions.

(** The user [eenose] of the initial store has the second factor enabled:
    the login is answered with the challenge and no token, and no session
    is written. *)
Lemma second_factor_user_gets_token_only_from_login_totp_witness :
  let req := with_json [("email", "eenose@hcmut.edu.vn"); ("password", "eenose@123")]
               (empty_request 0 draws) in
  json_get "requireTOTP" (body (fst (login req state0))) = Some (JBool true)
  ∧ json_get "accessToken" (body (fst (login req state0))) = None
  ∧ sessions (snd (login req state0)) = sessions state0
  ∧ totp_temp_sessions (snd (login req state0)) !! "eenose@hcmut.edu.vn"
    = Some "eenose@hcmut.edu.vn".
Proof.
  cbv zeta.
  destruct (@second_factor_user_gets_token_only_from_login_totp example_library)
    as [Hlogin _].
  set (req := with_json _ _).
  destruct (Hlogin req state0 "eenose@hcmut.edu.vn"
              {| user_id := "u11"; username := "eenose";
                 email := "eenose@hcmut.edu.vn"; password := "eenose@123";
                 role := "user"; totp_enabled := true; totp_secret := None |})
    as (_ & Hreq & Htok & Hsess & Htemp & _).
  - vm_compute. reflexivity.
  - vm_compute. reflexivity.
  - reflexivity.
  - vm_compute. reflexivity.
  - split; [exact Hreq |]. split; [exact Htok |]. split; [exact Hsess |].
    rewrite Htemp. apply lookup_insert_eq.
Defined.

(** ** The second-factor code *)

(** C1 (as amended): a presented code is accepted if and only if it is the
    literal [MOCK_TOTP_CODE], the same for every user.  For the
    second-factor login of a user with a pending challenge, for the
    confirmation of an enrollment and for disabling an enabled second
    factor, the request succeeds exactly when the code is that literal,
    whatever the user's secret and whatever the clock reads. *)
Theorem code_accepted_iff_mock_literal :
  (∀ req s e u code,
     json_body req !! "email" = Some e →
     json_body req !! "code" = Some code →
     e ≠ "" →
     totp_temp_sessions s !! e = Some e →
     users s !! e = Some u →
     status (fst (login_totp req s)) = 200 ↔ code = MOCK_TOTP_CODE)
  ∧ (∀ req s tok key u code,
       fst (get_current_user req s) = (Some tok, Some (key, u)) →
       json_body req !! "code" = Some code →
       status (fst (totp_verify req s)) = 200 ↔ code = MOCK_TOTP_CODE)
  ∧ (∀ req s tok key u code,
       fst (get_current_user req s) = (Some tok, Some (key, u)) →
       totp_enabled u = true →
       json_body req !! "code" = Some code →
       status (fst (totp_disable req s)) = 200 ↔ code = MOCK_TOTP_CODE).
Proof.
  assert (Hauth : ∀ req s tok key u,
            fst (get_current_user req s) = (Some tok, Some (key, u)) →
            get_current_user req s = (Some tok, Some (key, u), s)).
  { intros req s tok key u E.
    destruct (get_current_user_cases req s) as [E' | (? & ? & ? & _ & _ & _ & E')];
      rewrite E' in E |- *; cbn in E; congruence. }
  split; [| split].
  - intros req s e u code He Hcode Hne Hch Hu. unfold login_totp.
    rewrite He, Hcode. norm_opt.
    destruct e as [|c e']; [done |]. cbn [PyStr.truthy negb orb].
    destruct code as [|c0 code']; cbn [PyStr.truthy negb orb]; [done |].
    run_monad. rewrite Hch. norm_opt. cbn [PyStr.truthy negb].
    destruct (String.eqb (String c0 code') MOCK_TOTP_CODE) eqn:Heq; norm_opt.
    + rewrite Hch. norm_opt. rewrite Hu. apply String.eqb_eq in Heq. by norm_opt.
    + apply String.eqb_neq in Heq. done.
  - intros req s tok key u code E Hcode. unfold totp_verify. run_monad.
    rewrite (Hauth _ _ _ _ _ E), Hcode. norm_opt.
    destruct code as [|c0 code']; cbn [PyStr.truthy negb]; [done |].
    destruct (String.eqb (String c0 code') MOCK_TOTP_CODE) eqn:Heq; norm_opt.
    + apply String.eqb_eq in Heq. by destruct (users s !! key).
    + apply String.eqb_neq in Heq. done.
  - intros req s tok key u code E Hen Hcode. unfold totp_disable. run_monad.
    rewrite (Hauth _ _ _ _ _ E), Hcode, Hen. norm_opt.
    destruct code as [|c0 code']; cbn [PyStr.truthy negb]; [done |].
    destruct (String.eqb (String c0 code') MOCK_TOTP_CODE) eqn:Heq; norm_opt.
    + apply String.eqb_eq in Heq. by repeat case_match.
    + apply String.eqb_neq in Heq. done.
Qed.

Lemma code_accepted_iff_mock_literal_witness :
  let req code := with_json [("email", "u@x"); ("code", code)] (empty_request 7 draws) in
  status (fst (login_totp (req "123456") (challenged_state (Some "SECRET-A")))) = 200
  ∧ status (fst (login_totp (req "654321") (challenged_state (Some "SECRET-A")))) ≠ 200.
Proof.
  cbv zeta.
  destruct code_accepted_iff_mock_literal as [Hlogin _].
  set (u := {| user_id := "1"; username := "u"; email := "u@x";
               password := "pass-word"; role := "user";
               totp_enabled := true; totp_secret := Some "SECRET-A" |}).
  split.
  - apply (Hlogin _ (challenged_state (Some "SECRET-A")) "u@x" u "123456");
      first [discriminate | vm_compute; reflexivity].
  - intros Hok.
    apply (Hlogin _ (challenged_state (Some "SECRET-A")) "u@x" u "654321") in Hok;
      first [discriminate | vm_compute; reflexivity].
Defined.

(** C1 (counterexample): the second-factor login is not a time-step
    verification.  The literal 123456 is accepted for the secret [SECRET-A]
    at instant 0 and for [SECRET-B] a billion microseconds later, and indeed
    for every secret at every instant. *)
Lemma login_totp_is_not_time_step_verification :
  login_totp_accepts "SECRET-A" "123456" 0 = true
  ∧ login_totp_accepts "SECRET-B" "123456" 1000000000 = true
  ∧ ¬ time_step_verification login_totp_accepts.
Proof.
  split; [by vm_compute |]. split; [by vm_compute |].
  intros (code_at & step & _ & _ & Hno). apply Hno.
  exists "123456". intros secret t. by vm_compute.
Qed.

(** ** The enrollment state machine *)

(** What a successful [totp_disable] writes. *)
Lemma totp_disable_success (req : Request) (s : State) :
  status (fst (totp_disable req s)) = 200 →
  ∃ tok key u,
    get_current_user req s = (Some tok, Some (key, u), s)
    ∧ users s !! key = Some u
    ∧ totp_enabled u = true
    ∧ snd (totp_disable req s)
      = set_users (insert key (set_totp_secret None (set_totp_enabled false u))) s.
Proof.
  unfold totp_disable. run_monad.
  destruct (get_current_user_cases req s)
    as [-> | (rest & key & u & Hsplit & Hsess & Husr & ->)]; [done |].
  destruct (negb (truthy_opt (json_body req !! "code"))); [done |].
  destruct (totp_enabled u) eqn:Hen; norm_opt; [| done].
  destruct (negb (String.eqb _ _)); [done |].
  intros _. exists (PyStr.strip rest), key, u. do 3 (split; [done |]).
  unfold set_users. norm_opt. rewrite Husr, lookup_insert_eq.
  by rewrite insert_insert_eq.
Qed.

(** C7 (as amended): in every user record a secret is present only when
    the enrollment state is not Disabled; and a successful
    [totp_disable] leaves its caller Disabled with the secret cleared,
    every other field of the caller and every other user unchanged.  (That
    Enabled implies a secret is no invariant of the server.) *)
Theorem disable_clears_the_secret (req : Request) (s : State) :
  (∀ u : User, is_Some (totp_secret u) → enrollment_state u ≠ Disabled)
  ∧ (status (fst (totp_disable req s)) = 200 →
     ∃ key u u',
       snd (fst (get_current_user req s)) = Some (key, u)
       ∧ users (snd (totp_disable req s)) !! key = Some u'
       ∧ totp_enabled u' = false
       ∧ totp_secret u' = None
       ∧ enrollment_state u' = Disabled
       ∧ (user_id u' = user_id u ∧ username u' = username u ∧ email u' = email u
          ∧ password u' = password u ∧ role u' = role u)
       ∧ ∀ k, k ≠ key →
           users (snd (totp_disable req s)) !! k = users s !! k).
Proof.
  split.
  - intros u [secret Hs]. unfold enrollment_state. rewrite Hs.
    by destruct (totp_enabled u).
  - intros Hok.
    destruct (totp_disable_success req s Hok) as (tok & key & u & -> & Hu & Hen & ->).
    exists key, u, (set_totp_secret None (set_totp_enabled false u)).
    split; [done |]. split; [apply lookup_insert_eq |].
    do 4 (split; [done |]).
    intros k Hk. cbn. by apply lookup_insert_ne.
Qed.

(** The user [eenose] logs in with the second factor and disables it. *)
Lemma disable_clears_the_secret_witness :
  let login_request :=
    with_json [("email", "eenose@hcmut.edu.vn"); ("password", "eenose@123")]
      (empty_request 0 draws) in
  let totp_request :=
    with_json [("email", "eenose@hcmut.edu.vn"); ("code", "123456")]
      (empty_request 1 draws) in
  let req := with_bearer "token-h0" (with_json [("code", "123456")] (empty_request 2 draws)) in
  let s2 := snd (login_totp totp_request (snd (login login_request state0))) in
  status (fst (totp_disable req s2)) = 200
  ∧ ∃ u', users (snd (totp_disable req s2)) !! "eenose@hcmut.edu.vn" = Some u'
          ∧ totp_enabled u' = false ∧ totp_secret u' = None.
Proof.
  cbv zeta.
  set (s2 := snd (login_totp _ _)). set (req := with_bearer _ _).
  assert (Hok : status (fst (totp_disable req s2)) = 200) by (vm_compute; reflexivity).
  split; [exact Hok |].
  destruct (disable_clears_the_secret req s2) as [_ Hdis].
  destruct (Hdis Hok) as (key & u & u' & Hcur & Hu' & Hen & Hsec & _).
  assert (Hkey : key = "eenose@hcmut.edu.vn").
  { vm_compute in Hcur. by injection Hcur as <- _. }
  subst key. exists u'. by repeat split.
Defined.

(** C7 (counterexample): the user store at import holds a user whose second
    factor is enabled and who has no secret; and the confirmation route
    enables the second factor of a user who never enrolled a secret, so
    the invariant is lost by a request made in a state where the caller
    satisfied it. *)
Lemma enabled_without_secret :
  let login_request :=
    with_json [("email", "jitensha@hcmut.edu.vn"); ("password", "jitensha@123")]
      (empty_request 0 draws) in
  let verify_request :=
    with_bearer "token-h0" (with_json [("code", "123456")] (empty_request 1 draws)) in
  let s1 := snd (login login_request state0) in
  let s2 := snd (totp_verify verify_request s1) in
  (∃ u, users state0 !! "eenose@hcmut.edu.vn" = Some u ∧ ¬ enrollment_invariant u)
  ∧ (∃ u, users s1 !! "jitensha@hcmut.edu.vn" = Some u ∧ enrollment_invariant u)
  ∧ status (fst (totp_verify verify_request s1)) = 200
  ∧ (∃ u, users s2 !! "jitensha@hcmut.edu.vn" = Some u ∧ ¬ enrollment_invariant u).
Proof.
  cbv zeta. split; [| split; [| split]].
  - eexists. split; [by vm_compute |].
    intros [_ Hen]. by destruct (Hen eq_refl).
  - eexists. split; [by vm_compute |].
    split; [by intros [? ?] | done].
  - by vm_compute.
  - eexists. split; [by vm_compute |].
    intros [_ Hen]. by destruct (Hen eq_refl).
Qed.

(** ** Lifecycle status *)

(** X22: on a file whose window ends, where they are set, carry a UTC
    offset, [get_file_status] answers [pending] strictly before the start of
    the window, [expired] strictly after its end (for a window whose start
    is not after its end), and [active] otherwise: from the start instant
    to the end instant, both included.  A window bound that is absent never
    excludes; with neither bound the file is always [active]. *)
Theorem file_status_follows_window (now : Z) (m : FileMeta) :
  (∀ f o, availableFrom m = Some (aware f o) → now < f →
     get_file_status now m = Some pending)
  ∧ (∀ t o, availableTo m = Some (aware t o) → t < now →
       (∀ d, availableFrom m = Some d → ∃ f o', d = aware f o' ∧ f ≤ t) →
       get_file_status now m = Some expired)
  ∧ ((∀ d, availableFrom m = Some d → ∃ f o, d = aware f o ∧ f ≤ now) →
     (∀ d, availableTo m = Some d → ∃ t o, d = aware t o ∧ now ≤ t) →
     get_file_status now m = Some active)
  ∧ (∀ f t o o', availableFrom m = Some (aware f o) →
       availableTo m = Some (aware t o') → f ≤ t →
       get_file_status f m = Some active ∧ get_file_status t m = Some active)
  ∧ (availableFrom m = None → availableTo m = None →
     get_file_status now m = Some active).
Proof.
  unfold get_file_status, utc.
  destruct (availableFrom m) as [[f o|w]|], (availableTo m) as [[t o'|w']|];
    repeat split; intros;
    repeat match goal with
      | H : Some _ = Some _ |- _ => injection H as ?; subst
      | H : ∀ d, Some ?a = Some d → _ |- _ =>
          destruct (H a eq_refl) as (? & ? & ? & ?); clear H
      | H : None = Some _ |- _ => discriminate H
      | H : Some _ = None |- _ => discriminate H
      | H : naive _ = aware _ _ |- _ => discriminate H
      | H : aware _ _ = aware _ _ |- _ => injection H as ?; subst
      end;
    cbn [datetime_lt mbind option_bind];
    repeat match goal with
      | |- context [(?a <? ?b)] => destruct (Z.ltb_spec a b)
      end; cbn [mbind option_bind]; try done; lia.
Qed.

(** Where [get_file_status] raises: exactly on a window whose start is
    offset-naive, and on one whose end is, unless the file is [pending]. *)
Lemma file_status_raises (now : Z) (m : FileMeta) :
  get_file_status now m = None
  ↔ (∃ w, availableFrom m = Some (naive w))
    ∨ ((∃ w, availableTo m = Some (naive w))
       ∧ ∀ f o, availableFrom m = Some (aware f o) → f ≤ now).
Proof.
  unfold get_file_status, utc.
  destruct (availableFrom m) as [[f o|w]|], (availableTo m) as [[t o'|w']|];
    cbn [datetime_lt mbind option_bind];
    repeat match goal with
      | |- context [(?a <? ?b)] => destruct (Z.ltb_spec a b)
      end; cbn [mbind option_bind];
    (split; [try done; intros _ | try (intros [[? [=]] | [[? [=]] ?]]; fail)]);
    eauto.
  - intros [[? [=]] | [_ Hle]]. specialize (Hle f o eq_refl). lia.
  - right. split; [by eauto |]. intros ? ? [= -> ->]. lia.
  - right. split; [by eauto |]. by intros ? ? [=].
Qed.

(** A file available from instant 10 to instant 20. *)
Lemma file_status_follows_window_witness :
  let m := {| file_id := "f1"; filename := "a.txt"; size := 1; shareToken := "f1";
              ownerEmail := None; isPublic := true; passwordProtected := false;
              availableFrom := Some (utc 10); availableTo := Some (utc 20);
              sharedWith := [];
              shareLink := "http://localhost:3000/f/f1"; createdAt := 5;
              totpEnabled := false |} in
  get_file_status 9 m = Some pending
  ∧ get_file_status 10 m = Some active
  ∧ get_file_status 20 m = Some active
  ∧ get_file_status 21 m = Some expired.
Proof.
  cbv zeta. set (m := mkFileMeta _ _ _ _ _ _ _ _ _ _ _ _ _).
  destruct (file_status_follows_window 9 m) as (Hpending & _).
  destruct (file_status_follows_window 21 m) as (_ & Hexpired & _).
  destruct (file_status_follows_window 0 m) as (_ & _ & _ & Hbounds & _).
  destruct (Hbounds 10 20 0 0 eq_refl eq_refl ltac:(lia)) as [Hstart Hend].
  split; [apply (Hpending 10 0 eq_refl); lia |].
  split; [exact Hstart |]. split; [exact Hend |].
  apply (Hexpired 20 0 eq_refl); [lia |]. intros d [= <-]. exists 10, 0. split; [done | lia].
Defined.

(** ** Anonymous upload *)

(** C9 (as amended): an upload that carries no valid bearer token is never
    answered 401.  When it passes the checks every upload goes through (a
    file part with a name, a size within the policy's limit, a password, if
    any, of the policy's minimum length, dates that parse, compare and are
    in order) it is answered
    200, and a share record is stored under the fresh id with [ownerEmail]
    set to [None]; no other store changes. *)
Theorem upload_without_token_is_anonymous `{Library} (req : Request) (s : State) :
  fst (get_current_user req s) = (None, None) →
  status (fst (upload_file req s)) ≠ 401
  ∧ (∀ f from to,
       file_part req = Some f →
       fs_filename f ≠ "" →
       (∃ n, maxFileSizeMB (policy s) = JNum n
             ∧ Z.of_nat (length (fs_data f)) ≤ n * 1024 * 1024) →
       (∀ p, form_get "password" req = Some p → p ≠ "" →
             ∃ k, requirePasswordMinLength (policy s) = JNum k ∧ k ≤ PyStr.len p) →
       parse_date (form_get "availableFrom" req) = Some from →
       parse_date (form_get "availableTo" req) = Some to →
       (∀ a b, from = Some a → to = Some b → datetime_lt a b = Some true) →
       status (fst (upload_file req s)) = 200
       ∧ json_get "success" (body (fst (upload_file req s))) = Some (JBool true)
       ∧ ∃ m, files (snd (upload_file req s))
              = <[uuid_str (uuid4 req 0%nat) := m]> (files s)
              ∧ file_id m = uuid_str (uuid4 req 0%nat)
              ∧ ownerEmail m = None
              ∧ users (snd (upload_file req s)) = users s
              ∧ sessions (snd (upload_file req s)) = sessions s
              ∧ totp_temp_sessions (snd (upload_file req s)) = totp_temp_sessions s
              ∧ policy (snd (upload_file req s)) = policy s).
Proof.
  intros Hanon.
  assert (Hcur : get_current_user req s = (None, None, s)).
  { destruct (get_current_user_cases req s) as [E | (? & ? & ? & _ & _ & _ & E)];
      rewrite E in Hanon |- *; cbn in Hanon; congruence. }
  split.
  - unfold upload_file. run_monad. rewrite Hcur.
    repeat case_match; by norm_opt.
  - intros f from to Hfile Hname (n & Hmax & Hsize) Hpw Hfrom Hto Hord.
    unfold upload_file. run_monad. rewrite Hcur, Hfile.
    destruct (fs_filename f) as [|c name] eqn:Hfn; [done |].
    cbn [PyStr.truthy negb]. norm_opt.
    rewrite Hmax. cbn [number_of fmap option_fmap option_map times_1024 Z_gt_number].
    destruct (Z.ltb_spec (n * 1024 * 1024)
                (Z.of_nat (length (fs_data f)))) as [Hlt | _]; [lia |].
    assert (Hpwok : (if truthy_opt (if truthy_opt (form_get "password" req)
                                    then form_get "password" req else None)
                     then Z_lt_number
                            (PyStr.len (default "" (if truthy_opt (form_get "password" req)
                                                    then form_get "password" req
                                                    else None)))
                          <$> number_of (requirePasswordMinLength (policy s))
                     else Some false) = Some false).
    { destruct (form_get "password" req) as [p|] eqn:Hp; [| done].
      destruct p as [|c0 p']; [done |]. norm_opt. cbn [PyStr.truthy]. norm_opt.
      destruct (Hpw _ eq_refl ltac:(done)) as (k & -> & Hk).
      cbn [number_of fmap option_fmap option_map Z_lt_number]. f_equal.
      destruct (Z.ltb_spec (PyStr.len (String c0 p')) k); [lia | done]. }
    rewrite Hpwok, Hfrom, Hto.
    assert (Hordb : match from, to with
                    | Some a, Some b => datetime_ge a b
                    | _, _ => Some false
                    end = Some false).
    { destruct from as [a|], to as [b|]; try done.
      unfold datetime_ge. by rewrite (Hord a b eq_refl eq_refl). }
    rewrite Hordb. norm_opt.
    split; [done |]. split; [done |].
    eexists. split; [reflexivity |]. done.
Qed.

Lemma upload_without_token_is_anonymous_witness :
  let req :=
    {| authorization := None; json_body := ∅; json_policy := ∅;
       form := [("availableFrom", "10Z"); ("availableTo", "20Z"); ("isPublic", "true")];
       file_part := Some {| fs_filename := "notes.txt"; fs_data := [Byte.x68; Byte.x69] |};
       now := 15; uuid4 := draws |} in
  fst (get_current_user req state0) = (None, None)
  ∧ status (fst (@upload_file example_library req state0)) = 200
  ∧ (ownerEmail <$> files (snd (@upload_file example_library req state0)) !! "u0")
    = Some None.
Proof.
  cbv zeta. set (req := {| authorization := None |}).
  assert (Hanon : fst (get_current_user req state0) = (None, None)) by by vm_compute.
  destruct (@upload_without_token_is_anonymous example_library req state0 Hanon)
    as [_ Hstore].
  destruct (Hstore {| fs_filename := "notes.txt"; fs_data := [Byte.x68; Byte.x69] |}
              (Some (utc 10)) (Some (utc 20)))
    as (Hok & _ & m & Hfiles & _ & Hown & _).
  - reflexivity.
  - discriminate.
  - exists 50. split; [reflexivity | vm_compute; discriminate].
  - intros p Hp. vm_compute in Hp. discriminate.
  - reflexivity.
  - reflexivity.
  - intros a b [= <-] [= <-]. reflexivity.
  - split; [exact Hanon |]. split; [exact Hok |].
    rewrite Hfiles. change (uuid_str (uuid4 req 0%nat)) with "u0".
    rewrite lookup_insert_eq. cbn. by rewrite Hown.
Defined.

(** C9 (counterexample): an upload with no bearer token and no file part
    is answered 400 and stores nothing. *)
Lemma upload_without_file_is_rejected :
  let req := empty_request 0 draws in
  fst (get_current_user req state0) = (None, None)
  ∧ status (fst (@upload_file example_library req state0)) = 400
  ∧ files (snd (@upload_file example_library req state0)) = files state0.
Proof. by vm_compute. Qed.

(** ** The access evaluator *)

Section EvaluateProperties.
Import AccessEvaluator.
Context `{Engine}.

(** C4: for a share whose status is [pending] or [expired], [Evaluate]
    answers [Denied NotAvailable] whatever the credentials.  (It answers
    whenever the status can be computed.)  The gates are
    tried in the order lifecycle, visibility, password, second factor, and
    the first that fails names the reason.  Hence, while a share is not
    active or the requester is not invited, the decision is the same for
    any two records that agree on window and visibility and for any two
    credentials of the same requester: it does not show whether a password
    or a second factor is set. *)
Theorem evaluate_lifecycle_gate_comes_first
    (registry : gmap string ShareRecord) (now : Z) (share_token : string)
    (r : ShareRecord) :
  registry !! share_token = Some r →
  (∀ lifecycle, get_file_status now (meta r) = Some lifecycle →
     lifecycle ≠ active →
     ∀ c, Evaluate registry now share_token c = Some (Denied NotAvailable))
  ∧ (∀ c, get_file_status now (meta r) = Some active →
       invited (meta r) c = false →
       Evaluate registry now share_token c = Some (Denied NotInvited))
  ∧ (∀ c, get_file_status now (meta r) = Some active →
       invited (meta r) c = true →
       password_ok r c = false →
       Evaluate registry now share_token c = Some (Denied WrongPassword))
  ∧ (∀ c, get_file_status now (meta r) = Some active →
       invited (meta r) c = true →
       password_ok r c = true →
       second_factor_ok r c now = false →
       Evaluate registry now share_token c = Some (Denied InvalidCode))
  ∧ (∀ c, get_file_status now (meta r) = Some active →
       invited (meta r) c = true →
       password_ok r c = true →
       second_factor_ok r c now = true →
       Evaluate registry now share_token c = Some Granted)
  ∧ (∀ c, is_Some (Evaluate registry now share_token c)
          ↔ is_Some (get_file_status now (meta r)))
  ∧ (∀ registry' r' c c',
       registry' !! share_token = Some r' →
       availableFrom (meta r') = availableFrom (meta r) →
       availableTo (meta r') = availableTo (meta r) →
       isPublic (meta r') = isPublic (meta r) →
       sharedWith (meta r') = sharedWith (meta r) →
       requester c' = requester c →
       get_file_status now (meta r) ≠ Some active ∨ invited (meta r) c = false →
       Evaluate registry' now share_token c' = Evaluate registry now share_token c
       ∧ ∀ d, Evaluate registry now share_token c = Some d →
              d = Denied NotAvailable ∨ d = Denied NotInvited).
Proof.
  intros Hr. unfold Evaluate. rewrite Hr.
  split; [| split; [| split; [| split; [| split; [| split]]]]].
  - intros lifecycle -> Hna c. by destruct lifecycle.
  - intros c -> Hinv. cbn. by rewrite Hinv.
  - intros c -> Hinv Hpw. cbn. by rewrite Hinv, Hpw.
  - intros c -> Hinv Hpw Hsf. cbn. by rewrite Hinv, Hpw, Hsf.
  - intros c -> Hinv Hpw Hsf. cbn. by rewrite Hinv, Hpw, Hsf.
  - intros c. destruct (get_file_status now (meta r)); cbn; split; by eauto.
  - intros registry' r' c c' Hr' Hfrom Hto Hpub Hshared Hreq Hgate.
    rewrite Hr'.
    assert (Hst : get_file_status now (meta r') = get_file_status now (meta r)).
    { unfold get_file_status. by rewrite Hfrom, Hto. }
    assert (Hinv : invited (meta r') c' = invited (meta r) c).
    { unfold invited. by rewrite Hpub, Hshared, Hreq. }
    rewrite Hst, Hinv.
    destruct (get_file_status now (meta r)) as [[| |]|]; cbn.
    + split; [done |]. intros d [= <-]. by left.
    + split; [done |]. intros d [= <-]. by left.
    + destruct Hgate as [Hna | ->]; [done |]. cbn.
      split; [done |]. intros d [= <-]. by right.
    + done.
Qed.
End EvaluateProperties.

(** A share whose window ended at instant 20, asked for at instant 30 with
    the right password and a code. *)
Lemma evaluate_lifecycle_gate_comes_first_witness :
  let engine := {| AccessEvaluator.one_time_code := fun secret n => secret ++ pretty n;
                   AccessEvaluator.time_step := 30;
                   AccessEvaluator.hash_password := fun p => "h:" ++ p |} in
  let m := {| file_id := "f1"; filename := "a.txt"; size := 1; shareToken := "f1";
              ownerEmail := Some "o@x"; isPublic := true; passwordProtected := true;
              availableFrom := Some (utc 10); availableTo := Some (utc 20);
              sharedWith := [];
              shareLink := "http://localhost:3000/f/f1"; createdAt := 5;
              totpEnabled := true |} in
  let r := {| AccessEvaluator.meta := m;
              AccessEvaluator.password_hash := Some "h:pw";
              AccessEvaluator.owner_secret := Some "s" |} in
  let c := {| AccessEvaluator.requester := Some "o@x";
              AccessEvaluator.presented_password := Some "pw";
              AccessEvaluator.presented_code := Some "s1" |} in
  ({[ "f1" := r ]} : gmap string AccessEvaluator.ShareRecord) !! "f1" = Some r
  ∧ get_file_status 30 m = Some expired
  ∧ @AccessEvaluator.Evaluate engine {[ "f1" := r ]} 30 "f1" c
    = Some (AccessEvaluator.Denied AccessEvaluator.NotAvailable).
Proof.
  cbv zeta.
  set (engine := AccessEvaluator.mkEngine _ _ _).
  set (m := mkFileMeta _ _ _ _ _ _ _ _ _ _ _ _ _).
  set (r := AccessEvaluator.mkShareRecord _ _ _).
  assert (Hr : ({[ "f1" := r ]} : gmap string AccessEvaluator.ShareRecord) !! "f1"
               = Some r) by apply lookup_singleton_eq.
  split; [exact Hr |]. split; [reflexivity |].
  destruct (@evaluate_lifecycle_gate_comes_first engine {[ "f1" := r ]} 30 "f1" r Hr)
    as [Hna _].
  apply (Hna expired); [reflexivity | discriminate].
Defined.

(** ** What an upload does *)

Section Upload.
Context `{Library}.

Lemma datetime_ge_false (a b : datetime) :
  datetime_ge a b = Some false → datetime_lt a b = Some true.
Proof. unfold datetime_ge. by destruct (datetime_lt a b) as [[|]|]. Qed.

(** What an accepted upload stores. *)
Lemma upload_file_accepted (req : Request) (s : State) :
  status (fst (upload_file req s)) = 200 →
  ∃ f m,
    file_part req = Some f
    ∧ snd (upload_file req s) = set_files (insert (uuid_str (uuid4 req 0%nat)) m) s
    ∧ file_id m = uuid_str (uuid4 req 0%nat)
    ∧ shareToken m = uuid_str (uuid4 req 0%nat)
    ∧ ownerEmail m = caller_email req s
    ∧ filename m = secure_filename (fs_filename f)
    ∧ size m = Z.of_nat (length (fs_data f))
    ∧ (∃ limit, number_of (maxFileSizeMB (policy s)) = Some limit
                ∧ Z_gt_number (size m) (times_1024 (times_1024 limit)) = false)
    ∧ window_ordered m
    ∧ createdAt m = now req
    ∧ parse_date (form_get "availableFrom" req) = Some (availableFrom m)
    ∧ parse_date (form_get "availableTo" req) = Some (availableTo m)
    ∧ (passwordProtected m = true →
       ∃ p min_length,
         form_get "password" req = Some p
         ∧ number_of (requirePasswordMinLength (policy s)) = Some min_length
         ∧ Z_lt_number (PyStr.len p) min_length = false).
Proof.
  unfold upload_file, caller_email. run_monad.
  destruct (get_current_user req s) as [[tok usr] s0] eqn:Hcur.
  assert (s0 = s) as -> by (by rewrite <- (get_current_user_state req s), Hcur).
  cbn [fst snd].
  destruct (file_part req) as [f|]; [| done].
  destruct (fs_filename f) as [|c name] eqn:Hfn; [done |].
  cbn [PyStr.truthy negb]. norm_opt.
  destruct (number_of (maxFileSizeMB (policy s))) as [limit|] eqn:Hlimit;
    cbn [fmap option_fmap option_map]; [| done].
  destruct (Z_gt_number _ _) eqn:Hsize; [done |].
  set (password := if truthy_opt (form_get "password" req)
                   then form_get "password" req else None).
  destruct (if truthy_opt password
            then Z_lt_number (PyStr.len (default "" password))
                   <$> number_of (requirePasswordMinLength (policy s))
            else Some false) as [[|]|] eqn:Hpw; [done | | done].
  destruct (parse_date (form_get "availableFrom" req)) as [from|]; [| done].
  destruct (parse_date (form_get "availableTo" req)) as [to|]; [| done].
  destruct (match from, to with
            | Some a, Some b => datetime_ge a b
            | _, _ => Some false
            end) as [[|]|] eqn:Hord; [done | | done].
  intros _. norm_opt. eexists f, _. split; [done |]. split; [reflexivity |].
  cbn [file_id shareToken ownerEmail filename size availableFrom availableTo
       createdAt passwordProtected].
  rewrite Hfn. repeat split; try done.
  - by exists limit.
  - unfold window_ordered. cbn [availableFrom availableTo].
    intros a b -> ->. by apply datetime_ge_false.
  - intros Hprot. rewrite Hprot in Hpw.
    subst password. destruct (form_get "password" req) as [p|]; [| done].
    destruct (truthy_opt (Some p)); [| done]. cbn [default from_option id] in Hpw.
    destruct (number_of (requirePasswordMinLength (policy s))) as [min_length|];
      [| done].
    exists p, min_length. cbn in Hpw. by injection Hpw as ->.
Qed.

(** What a refused upload does: nothing. *)
Lemma upload_file_refused (req : Request) (s : State) :
  status (fst (upload_file req s)) ≠ 200 →
  snd (upload_file req s) = s
  ∧ (status (fst (upload_file req s)) = 400 ∨ status (fst (upload_file req s)) = 413
     ∨ status (fst (upload_file req s)) = 500).
Proof.
  unfold upload_file. run_monad.
  destruct (get_current_user req s) as [[tok usr] s0] eqn:Hcur.
  assert (s0 = s) as -> by (by rewrite <- (get_current_user_state req s), Hcur).
  repeat case_match; norm_opt; try done; auto.
Qed.

(** When an upload raises: on a value of the policy that is no number, read
    for the size check of a named file part or, once that check has passed,
    for the length check of a password. *)
Lemma upload_file_raises (req : Request) (s : State) :
  status (fst (upload_file req s)) = 500
  ↔ ∃ f, file_part req = Some f ∧ fs_filename f ≠ ""
         ∧ (number_of (maxFileSizeMB (policy s)) = None
            ∨ (∃ limit p,
                 number_of (maxFileSizeMB (policy s)) = Some limit
                 ∧ Z_gt_number (Z.of_nat (length (fs_data f)))
                     (times_1024 (times_1024 limit)) = false
                 ∧ form_get "password" req = Some p ∧ p ≠ ""
                 ∧ number_of (requirePasswordMinLength (policy s)) = None)).
Proof.
  unfold upload_file. run_monad.
  destruct (get_current_user req s) as [[tok usr] s0] eqn:Hcur.
  assert (s0 = s) as -> by (by rewrite <- (get_current_user_state req s), Hcur).
  cbn [fst snd].
  destruct (file_part req) as [f|]; [| split; [done | by intros (? & ? & _)]].
  destruct (fs_filename f) as [|c name] eqn:Hfn.
  { split; [done |]. intros (f' & [= <-] & Hne & _). by rewrite Hfn in Hne. }
  cbn [PyStr.truthy negb]. norm_opt.
  destruct (number_of (maxFileSizeMB (policy s))) as [limit|] eqn:Hlimit;
    cbn [fmap option_fmap option_map].
  2:{ split; [| done]. intros _. exists f. rewrite Hfn. by eauto. }
  destruct (Z_gt_number _ _) eqn:Hsize.
  { split; [done |]. intros (f' & [= <-] & _ & [? | (l & p & [= <-] & Hs & _)]);
      congruence. }
  destruct (form_get "password" req) as [p|] eqn:Hp.
  2:{ cbn [truthy_opt]. split; [repeat case_match; by norm_opt |].
      intros (f' & _ & _ & [? | (l & p & _ & _ & ? & _)]); congruence. }
  destruct p as [|c0 p'].
  { cbn [truthy_opt PyStr.truthy]. split; [repeat case_match; by norm_opt |].
    intros (f' & _ & _ & [? | (l & p & _ & _ & [= <-] & ? & _)]); congruence. }
  cbn [truthy_opt PyStr.truthy default from_option id].
  destruct (number_of (requirePasswordMinLength (policy s))) as [min_length|] eqn:Hmin;
    cbn [fmap option_fmap option_map].
  - split; [repeat case_match; by norm_opt |].
    intros (f' & _ & _ & [? | (l & p & _ & _ & _ & _ & ?)]); congruence.
  - split; [| done]. intros _. exists f. rewrite Hfn. split; [done |].
    split; [done |]. right. exists limit, (String c0 p'). by eauto.
Qed.
End Upload.

(** ** The lifecycle status of an uploaded file *)

(** C3 (a defect of the code): [upload_file] accepts a start date without
    UTC offset, an ISO text as its docstring asks for, and stores it; on
    the stored record [get_file_status] answers no status at any instant:
    the comparison of its offset-aware clock with the offset-naive date
    raises [TypeError].  The claim has it answer [pending], [active] or
    [expired] for every record and every instant, as it does on a record
    whose dates carry an offset. *)
Theorem file_status_raises_on_uploaded_naive_date `{Library} (req : Request)
    (s : State) (text : string) (w : Z) :
  form_get "availableFrom" req = Some text →
  text ≠ "" →
  fromisoformat text = Some (naive w) →
  status (fst (upload_file req s)) = 200 →
  ∃ m, files (snd (upload_file req s)) !! uuid_str (uuid4 req 0%nat) = Some m
       ∧ availableFrom m = Some (naive w)
       ∧ ∀ now, get_file_status now m = None.
Proof.
  intros Hform Htext Hparse Hok.
  destruct (upload_file_accepted req s Hok)
    as (f & m & _ & -> & _ & _ & _ & _ & _ & _ & _ & _ & Hfrom & _).
  exists m. split; [apply lookup_insert_eq |].
  assert (Hm : availableFrom m = Some (naive w)).
  { unfold parse_date in Hfrom. rewrite Hform in Hfrom.
    destruct text as [|c text']; [done |].
    cbn [truthy_opt PyStr.truthy default from_option id] in Hfrom.
    rewrite Hparse in Hfrom. by injection Hfrom as <-. }
  split; [done |]. intros now. apply file_status_raises. left. by exists w.
Qed.

(** The user [jitensha] logs in and uploads a file available from [10], a
    date without offset: the upload is answered 200, the status of the
    stored record cannot be computed, and the listing of that user's files
    is answered 500 from then on. *)
Lemma file_status_raises_on_uploaded_naive_date_witness :
  let login_request :=
    with_json [("email", "jitensha@hcmut.edu.vn"); ("password", "jitensha@123")]
      (empty_request 0 draws) in
  let s1 := snd (login login_request state0) in
  let upload :=
    {| authorization := Some "Bearer token-h0"; json_body := ∅; json_policy := ∅;
       form := [("availableFrom", "10")];
       file_part := Some {| fs_filename := "notes.txt"; fs_data := [Byte.x68; Byte.x69] |};
       now := 5; uuid4 := draws |} in
  let s2 := snd (@upload_file example_library upload s1) in
  let listing :=
    @get_user_files example_library example_values parse_digits (fun _ => 6)
      {| arg_status := None; arg_page := None; arg_limit := None;
         arg_sortBy := None; arg_order := None |}
      (with_bearer "token-h0" (empty_request 6 draws)) in
  status (fst (@upload_file example_library upload s1)) = 200
  ∧ (∃ m, files s2 !! "u0" = Some m
          ∧ availableFrom m = Some (naive 10)
          ∧ ∀ now, get_file_status now m = None)
  ∧ status (fst (listing s2)) = 500.
Proof.
  cbv zeta.
  set (s1 := snd (login _ state0)). set (upload := mkRequest _ _ _ _ _ _ _).
  assert (Hok : status (fst (@upload_file example_library upload s1)) = 200)
    by (vm_compute; reflexivity).
  split; [exact Hok |]. split.
  - exact (@file_status_raises_on_uploaded_naive_date example_library upload s1
             "10" 10 eq_refl ltac:(discriminate) eq_refl Hok).
  - vm_compute. reflexivity.
Defined.

(** ** Reachable states *)

Section Invariant.
Context `{Library}.

Lemma register_writes (req : Request) (s : State) :
  writes s (snd (register req s)).
Proof.
  unfold register.
  destruct (json_body req !! "email") as [e|] eqn:He; norm_opt;
    [| by constructor].
  destruct e as [|c e']; [by constructor |]. cbn [PyStr.truthy negb orb].
  destruct (negb (truthy_opt (json_body req !! "password"))); [by constructor |].
  run_monad. case_bool_decide as Hin; norm_opt; [by constructor |].
  apply writes_new_user; [done | | done].
  by apply eq_None_not_Some.
Qed.

Lemma login_writes (req : Request) (s : State) :
  writes s (snd (login req s)).
Proof.
  unfold login. run_monad.
  destruct (json_body req !! "email") as [e|] eqn:He; cbn [mbind option_bind];
    [| by constructor].
  destruct (users s !! e) as [u|] eqn:Hu; [| by constructor].
  destruct (negb (bool_decide _)); [by constructor |]. norm_opt.
  destruct (totp_enabled u); norm_opt.
  - apply writes_challenge. by rewrite Hu.
  - apply writes_session. by rewrite Hu.
Qed.

Lemma login_totp_writes (req : Request) (s : State) :
  writes s (snd (login_totp req s)).
Proof.
  unfold login_totp.
  destruct (negb (truthy_opt (json_body req !! "email")) || _); [by constructor |].
  run_monad.
  destruct (totp_temp_sessions s !! default "" (json_body req !! "email"))
    as [e|] eqn:He; norm_opt; [| by constructor].
  destruct (negb (PyStr.truthy e)); [by constructor |].
  destruct (negb (String.eqb _ _)); [by constructor |]. norm_opt.
  destruct (totp_temp_sessions s !! e); norm_opt.
  - destruct (users s !! e); by eapply writes_session_for_challenge.
  - by eapply writes_session_of_challenge.
Qed.

(** The four handlers that assign to a key of the caller's record. *)
Lemma user_field_writes (req : Request) (s : State) :
  writes s (snd (totp_setup req s))
  ∧ writes s (snd (totp_verify req s))
  ∧ writes s (snd (totp_disable req s))
  ∧ writes s (snd (change_password req s)).
Proof.
  assert (Hone : ∀ key u f,
            users s !! key = Some u → email (f u) = email u →
            writes s (set_users (fun us =>
                        match us !! key with
                        | Some u0 => <[key := f u0]> us
                        | None => us
                        end) s)).
  { intros key u f Hu Hf. unfold set_users at 1. rewrite Hu.
    by apply (writes_user_field s key u). }
  repeat split.
  - unfold totp_setup. run_monad.
    destruct (get_current_user_cases req s)
      as [-> | (rest & key & u & _ & _ & Husr & ->)]; [by constructor |].
    cbn [snd]. by apply (Hone key u).
  - unfold totp_verify. run_monad.
    destruct (get_current_user_cases req s)
      as [-> | (rest & key & u & _ & _ & Husr & ->)]; [by constructor |].
    repeat case_match; cbn [snd]; first [by constructor | by apply (Hone key u)].
  - destruct (Z.eq_dec (status (fst (totp_disable req s))) 200) as [Hok | Hno].
    + destruct (totp_disable_success req s Hok) as (tok & key & u & _ & Hu & _ & ->).
      by apply (writes_user_field s key u).
    + revert Hno. unfold totp_disable. run_monad.
      destruct (get_current_user_cases req s)
        as [-> | (rest & key & u & _ & _ & Husr & ->)]; [by constructor |].
      repeat case_match; norm_opt; first [by constructor | done].
  - destruct (Z.eq_dec (status (fst (change_password req s))) 200) as [Hok | Hno].
    + destruct (change_password_success req s Hok)
        as (tok & key & u & pw & _ & Hu & _ & ->).
      by apply (writes_user_field s key u).
    + revert Hno. unfold change_password. run_monad.
      destruct (get_current_user_cases req s)
        as [-> | (rest & key & u & _ & _ & Husr & ->)]; [by constructor |].
      repeat case_match; norm_opt; first [by constructor | done].
Qed.

Lemma upload_file_writes (req : Request) (s : State) :
  writes s (snd (upload_file req s)).
Proof.
  destruct (Z.eq_dec (status (fst (upload_file req s))) 200) as [Hok | Hno].
  2:{ destruct (upload_file_refused req s Hno) as [-> _]. by constructor. }
  destruct (upload_file_accepted req s Hok)
    as (f & m & _ & -> & Hid & _ & Hown & _ & _ & _ & Hord & _).
  apply writes_file; [done | done |].
  intros o Ho. rewrite Hown in Ho. unfold caller_email in Ho.
  destruct (get_current_user_cases req s)
    as [E | (rest & key & u & _ & _ & Husr & E)]; rewrite E in Ho; [done |].
  injection Ho as <-. by eauto.
Qed.

(** Every handler stays within [writes]. *)
Lemma handle_writes (r : Route) (req : Request) (s : State) :
  writes s (snd (handle r req s)).
Proof.
  destruct r; cbn [handle].
  - apply register_writes.
  - apply login_writes.
  - apply login_totp_writes.
  - apply user_field_writes.
  - apply user_field_writes.
  - apply user_field_writes.
  - unfold logout. run_monad.
    destruct (get_current_user_cases req s)
      as [-> | (rest & key & u & _ & _ & _ & ->)]; [by constructor |].
    case_bool_decide; by constructor.
  - apply user_field_writes.
  - unfold get_user_profile. run_monad.
    destruct (get_current_user_cases req s)
      as [-> | (rest & key & u & _ & _ & _ & ->)]; by constructor.
  - by constructor.
  - unfold update_policy. run_monad. norm_opt. by apply writes_policy.
  - by constructor.
  - apply upload_file_writes.
  - unfold delete_file. run_monad.
    destruct (get_current_user_cases req s)
      as [-> | (rest & key & u & _ & _ & _ & ->)]; [by constructor |].
    repeat case_match; by constructor.
Qed.
End Invariant.

(** Split a lookup in an updated map by cases on the key. *)
Ltac lookup_cases :=
  repeat match goal with
    | H : <[_ := _]> _ !! _ = Some _ |- _ =>
        apply lookup_insert_Some in H as [[<- <-] | [? H]]
    | H : delete _ _ !! _ = Some _ |- _ =>
        apply lookup_delete_Some in H as [? H]
    end.

(** [writes] keeps the stores well formed. *)
Lemma writes_wf (s s' : State) : writes s s' → wf_state s → wf_state s'.
Proof.
  intros Hw (Husers & Hsess & Htemp & Hfiles).
  assert (Hgrow : ∀ (k e : string) (u : User),
            is_Some (users s !! e) → is_Some (<[k := u]> (users s) !! e)).
  { intros k e u He. destruct (decide (k = e)) as [-> | Hne].
    - rewrite lookup_insert_eq. eauto.
    - by rewrite lookup_insert_ne. }
  assert (Hs : ∀ tok e, sessions s !! tok = Some e → is_Some (users s !! e)) by done.
  assert (Ht1 : ∀ k e, totp_temp_sessions s !! k = Some e → e = k)
    by (intros k e Hk; by apply Htemp in Hk as [? ?]).
  assert (Ht2 : ∀ k e, totp_temp_sessions s !! k = Some e → is_Some (users s !! e))
    by (intros k e Hk; by apply Htemp in Hk as [? ?]).
  assert (Hf1 : ∀ id m, files s !! id = Some m → window_ordered m)
    by (intros id m Hm; by apply Hfiles in Hm as (? & ? & ?)).
  assert (Hf2 : ∀ id m, files s !! id = Some m → file_id m = id)
    by (intros id m Hm; by apply Hfiles in Hm as (? & ? & ?)).
  assert (Hf3 : ∀ id m o, files s !! id = Some m → ownerEmail m = Some o →
                          is_Some (users s !! o))
    by (intros id m o Hm; apply Hfiles in Hm as (? & ? & Ho); apply Ho).
  assert (Hu1 : ∀ k u, users s !! k = Some u → email u = k)
    by (intros k u Hk; by apply Husers in Hk as [? ?]).
  assert (Hu2 : ∀ k u, users s !! k = Some u → k ≠ "")
    by (intros k u Hk; by apply Husers in Hk as [? ?]).
  clear Husers Hsess Htemp Hfiles.
  destruct Hw as [ | e u Hne Hfresh Hmail | key u u' Hu Hmail | e He | tok e He
                 | tok k e Hk | tok k e Hk | tok | f | id m Hord Hid Hown | id ];
    (split; [intros k0 u0 Hk0
            | split; [intros tok0 e0 Hk0
                     | split; [intros k0 e0 Hk0 | intros id0 m0 Hk0]]]);
    cbn [users sessions totp_temp_sessions files policy
         set_users set_sessions set_totp_temp_sessions set_files set_policy] in *;
    lookup_cases;
    try (repeat split; eauto; fail).
  all: try (repeat split; try intros o Ho; eauto; congruence).
  - split; [rewrite Hmail; eauto | eauto].
  - split; [done |]. split; [done |]. intros o Ho.
    destruct (Hown o Ho) as (key & u & Hu & Hm).
    rewrite <- Hm, (Hu1 key u Hu), Hu. eauto.
Qed.

(** The stores at import are well formed. *)
Lemma initial_state_wf (u0 u1 u2 : UUID) : wf_state (initial_state u0 u1 u2).
Proof.
  repeat split; cbn [initial_state users sessions totp_temp_sessions files] in *;
    try (by rewrite lookup_empty in *).
  all: unfold initial_users in *;
    repeat match goal with
      | Hk : <[_ := _]> _ !! _ = Some _ |- _ =>
          apply lookup_insert_Some in Hk as [[<- <-] | [? Hk]]
      | Hk : {[_ := _]} !! _ = Some _ |- _ =>
          apply lookup_singleton_Some in Hk as [<- <-]
      end; done.
Qed.

Section Reachable.
Context `{Library}.

(** Hence every reachable state is. *)
Lemma reachable_wf (s0 s : State) : wf_state s0 → reachable s0 s → wf_state s.
Proof.
  intros Hwf Hreach. induction Hreach as [| s r req _ IH]; [done |].
  eapply writes_wf; [apply handle_writes | done].
Qed.

(** In a well-formed state no handler but the upload raises: the two
    failures of the second-factor login need a challenge that holds another
    e-mail than its key, or the e-mail of no user. *)
Lemma no_internal_error (r : Route) (req : Request) (s : State) :
  wf_state s → r ≠ POST_files_upload → status (fst (handle r req s)) ≠ 500.
Proof.
  intros (Husers & _ & Htemp & _) Hroute.
  destruct r; cbn [handle]; try done.
  3:{ unfold login_totp.
      destruct (negb (truthy_opt (json_body req !! "email")) || _); [done |].
      run_monad.
      destruct (totp_temp_sessions s !! default "" (json_body req !! "email"))
        as [e|] eqn:He; norm_opt; [| done].
      destruct (negb (PyStr.truthy e)); [done |].
      destruct (negb (String.eqb _ _)); [done |]. norm_opt.
      destruct (Htemp _ _ He) as [-> [u Hu]].
      rewrite He. norm_opt. by rewrite Hu. }
  - unfold register. run_monad. repeat case_match; by norm_opt.
  - unfold login. run_monad. repeat case_match; by norm_opt.
  - unfold totp_setup. handler_cases req s.
  - unfold totp_verify. handler_cases req s.
  - unfold totp_disable. handler_cases req s.
  - unfold logout. handler_cases req s.
  - unfold change_password. handler_cases req s.
  - unfold get_user_profile. handler_cases req s.
  - unfold delete_file. handler_cases req s.
Qed.

(** A stored file is [expired] at every instant after an offset-aware end
    of its window: [upload_file] only stores ordered windows. *)
Lemma stored_file_expired_after_end (s0 s : State) (id : string) (m : FileMeta)
    (t o now : Z) :
  wf_state s0 → reachable s0 s →
  files s !! id = Some m →
  availableTo m = Some (aware t o) → t < now →
  get_file_status now m = Some expired.
Proof.
  intros Hwf Hreach Hm Hto Hlt.
  destruct (reachable_wf s0 s Hwf Hreach) as (_ & _ & _ & Hfiles).
  destruct (Hfiles id m Hm) as (Hord & _).
  unfold get_file_status, utc. rewrite Hto.
  destruct (availableFrom m) as [[f o'|w]|] eqn:Hf;
    cbn [datetime_lt mbind option_bind].
  - specialize (Hord (aware f o') (aware t o) Hf Hto). cbn in Hord.
    injection Hord as Hord. apply Z.ltb_lt in Hord.
    destruct (Z.ltb_spec now f); [lia |]. cbn.
    by destruct (Z.ltb_spec t now); [| lia].
  - by specialize (Hord (naive w) (aware t o) Hf Hto).
  - by destruct (Z.ltb_spec t now); [| lia].
Qed.
End Reachable.

(** * Further properties of the handlers *)

(** ** Further properties of the routes *)

Section Server.
Context `{Library}.

(** X1: every state the server reaches from its state at import is well
    formed: a user is stored under its own, non-empty e-mail; every session
    and every pending challenge points at a stored user, a challenge under
    the e-mail it holds; every file is stored under its own id, the two
    ends of its window, when both are set, compare and the start is before
    the end, and its owner, if any, is a stored user. *)
Theorem reachable_state_is_well_formed (u0 u1 u2 : UUID) (s : State) :
  reachable (initial_state u0 u1 u2) s → wf_state s.
Proof. apply reachable_wf, initial_state_wf. Qed.

(** X2: in a reachable state, a request whose JSON body is of the
    documented type (an object whose e-mail, password, username and code
    fields are strings) is answered 500 by one route only, the upload, and
    only when a value that it reads from the policy is no number; and a
    request that is answered 500 has written nothing.  No dictionary
    deletion and no lookup of a handler raises.  (The listing route is
    treated apart, see X21.) *)
Theorem reachable_state_raises_only_on_policy_value (u0 u1 u2 : UUID) (s : State)
    (r : Route) (req : Request) :
  reachable (initial_state u0 u1 u2) s →
  status (fst (handle r req s)) = 500 →
  r = POST_files_upload
  ∧ (number_of (maxFileSizeMB (policy s)) = None
     ∨ number_of (requirePasswordMinLength (policy s)) = None)
  ∧ snd (handle r req s) = s.
Proof.
  intros Hreach H500.
  assert (Hwf : wf_state s)
    by (by apply (reachable_wf (initial_state u0 u1 u2)), Hreach; apply initial_state_wf).
  destruct (decide (r = POST_files_upload)) as [-> | Hroute].
  2:{ by destruct (no_internal_error r req s Hwf Hroute). }
  cbn [handle] in *. split; [done |]. split.
  - apply upload_file_raises in H500
      as (f & _ & _ & [Hmax | (limit & p & _ & _ & _ & _ & Hmin)]); by auto.
  - apply upload_file_refused. by rewrite H500.
Qed.
End Server.

Lemma reachable_state_is_well_formed_witness :
  let req := with_json [("email", "eenose@hcmut.edu.vn"); ("password", "eenose@123")]
               (empty_request 0 draws) in
  let s1 := snd (@handle example_library POST_auth_login req state0) in
  @reachable example_library state0 s1 ∧ wf_state s1.
Proof.
  cbv zeta.
  assert (Hr : @reachable example_library state0
                 (snd (@handle example_library POST_auth_login
                         (with_json [("email", "eenose@hcmut.edu.vn");
                                     ("password", "eenose@123")]
                            (empty_request 0 draws)) state0)))
    by (apply reachable_step, reachable_init).
  split; [exact Hr |].
  exact (@reachable_state_is_well_formed example_library _ _ _ _ Hr).
Defined.

Lemma reachable_state_raises_only_on_policy_value_witness :
  let patch :=
    {| authorization := None; json_body := ∅;
       json_policy := {[ "maxFileSizeMB" := JStr "5" ]}; form := [];
       file_part := None; now := 0; uuid4 := draws |} in
  let s1 := snd (@handle example_library PATCH_admin_policy patch state0) in
  let r := fst (@handle example_library POST_files_upload (example_upload None) s1) in
  @reachable example_library state0 s1
  ∧ maxFileSizeMB (policy s1) = JStr "5"
  ∧ status r = 500
  ∧ snd (@handle example_library POST_files_upload (example_upload None) s1) = s1.
Proof.
  cbv zeta. set (patch := mkRequest _ _ _ _ _ _ _).
  set (s1 := snd (@handle example_library PATCH_admin_policy patch state0)).
  assert (Hr : @reachable example_library state0 s1)
    by (apply reachable_step, reachable_init).
  assert (H500 : status (fst (@handle example_library POST_files_upload
                                (example_upload None) s1)) = 500)
    by (vm_compute; reflexivity).
  destruct (@reachable_state_raises_only_on_policy_value example_library _ _ _ _ _ _
              Hr H500) as (_ & _ & Hsame).
  split; [exact Hr |]. split; [vm_compute; reflexivity |].
  split; [exact H500 | exact Hsame].
Defined.

Section UserStore.
Context `{Library}.

(** How one request changes the user store: not at all, by a new record
    under a free key, or by assigning to one of the password and
    second-factor keys of a stored record. *)
Lemma handle_users (r : Route) (req : Request) (s : State) :
  users (snd (handle r req s)) = users s
  ∨ (∃ e u, users s !! e = None ∧ users (snd (handle r req s)) = <[e := u]> (users s))
  ∨ (∃ key u u', users s !! key = Some u ∧ same_identity u u'
                 ∧ users (snd (handle r req s)) = <[key := u']> (users s)).
Proof.
  assert (Hupd : ∀ key u (f : User → User),
            users s !! key = Some u → same_identity u (f u) →
            ∃ key0 u0 u', users s !! key0 = Some u0 ∧ same_identity u0 u'
              ∧ users (set_users (fun us => match us !! key with
                                            | Some u1 => <[key := f u1]> us
                                            | None => us
                                            end) s) = <[key0 := u']> (users s)).
  { intros key u f Hu Hf. exists key, u, (f u). cbn. by rewrite Hu. }
  destruct r; cbn [handle].
  - unfold register. run_monad.
    destruct (negb (truthy_opt (json_body req !! "email")) || _); [by left |].
    case_bool_decide as Hin; norm_opt; [by left |].
    right; left. eexists _, _. split; [by apply eq_None_not_Some | done].
  - left. unfold login. run_monad. repeat case_match; by norm_opt.
  - left. unfold login_totp. run_monad. repeat case_match; by norm_opt.
  - unfold totp_setup. run_monad.
    destruct (get_current_user_cases req s)
      as [-> | (rest & key & u & _ & _ & Husr & ->)]; [by left |].
    right; right. cbn [snd]. by apply (Hupd key u).
  - unfold totp_verify. run_monad.
    destruct (get_current_user_cases req s)
      as [-> | (rest & key & u & _ & _ & Husr & ->)]; [by left |].
    repeat case_match; cbn [snd]; first [by left | right; right; by apply (Hupd key u)].
  - destruct (Z.eq_dec (status (fst (totp_disable req s))) 200) as [Hok | Hno].
    + destruct (totp_disable_success req s Hok) as (tok & key & u & _ & Hu & _ & ->).
      right; right. by exists key, u, (set_totp_secret None (set_totp_enabled false u)).
    + left. revert Hno. unfold totp_disable. run_monad.
      destruct (get_current_user_cases req s)
        as [-> | (rest & key & u & _ & _ & Husr & ->)]; [done |].
      repeat case_match; by norm_opt.
  - left. unfold logout. run_monad.
    destruct (get_current_user_cases req s)
      as [-> | (rest & key & u & _ & _ & _ & ->)]; [done |].
    by case_bool_decide.
  - destruct (Z.eq_dec (status (fst (change_password req s))) 200) as [Hok | Hno].
    + destruct (change_password_success req s Hok)
        as (tok & key & u & pw & _ & Hu & _ & ->).
      right; right. by exists key, u, (set_password pw u).
    + left. revert Hno. unfold change_password. run_monad.
      destruct (get_current_user_cases req s)
        as [-> | (rest & key & u & _ & _ & Husr & ->)]; [done |].
      repeat case_match; by norm_opt.
  - left. unfold get_user_profile. run_monad.
    destruct (get_current_user_cases req s)
      as [-> | (rest & key & u & _ & _ & _ & ->)]; done.
  - by left.
  - by left.
  - by left.
  - left. unfold upload_file. run_monad.
    destruct (get_current_user_cases req s)
      as [-> | (rest & key & u & _ & _ & _ & ->)]; repeat case_match; by norm_opt.
  - left. unfold delete_file. run_monad.
    destruct (get_current_user_cases req s)
      as [-> | (rest & key & u & _ & _ & _ & ->)]; repeat case_match; by norm_opt.
Qed.

(** X3: no request removes a user or changes who a user is: a record
    stored under a key is still stored under it after any request, with the
    same id, username, e-mail and role. *)
Theorem users_are_never_removed (r : Route) (req : Request) (s : State)
    (k : string) (u : User) :
  users s !! k = Some u →
  ∃ u', users (snd (handle r req s)) !! k = Some u' ∧ same_identity u u'.
Proof.
  intros Hu.
  destruct (handle_users r req s)
    as [-> | [(e & u1 & Hfree & ->) | (key & u1 & u' & Hkey & Hsame & ->)]].
  - by exists u.
  - exists u. split; [| done]. rewrite lookup_insert_ne; [done | congruence].
  - destruct (decide (key = k)) as [-> | Hne].
    + exists u'. rewrite lookup_insert_eq. split; [done | congruence].
    + exists u. by rewrite lookup_insert_ne.
Qed.
End UserStore.

Lemma users_are_never_removed_witness :
  let req := with_json [("email", "eenose@hcmut.edu.vn"); ("password", "another")]
               (empty_request 0 draws) in
  ∃ u u', users state0 !! "eenose@hcmut.edu.vn" = Some u
          ∧ users (snd (@handle example_library POST_auth_register req state0))
              !! "eenose@hcmut.edu.vn" = Some u'
          ∧ same_identity u u'.
Proof.
  cbv zeta.
  set (u := {| user_id := "u11"; username := "eenose";
               email := "eenose@hcmut.edu.vn"; password := "eenose@123";
               role := "user"; totp_enabled := true; totp_secret := None |}).
  assert (Hu : users state0 !! "eenose@hcmut.edu.vn" = Some u)
    by (vm_compute; reflexivity).
  destruct (@users_are_never_removed example_library POST_auth_register
              (with_json [("email", "eenose@hcmut.edu.vn"); ("password", "another")]
                 (empty_request 0 draws)) state0 _ u Hu) as (u' & Hu' & Hsame).
  by exists u, u'.
Defined.

(** ** Registration and login *)

(** What a login with the right password of a user without second factor
    does. *)
Lemma login_direct (req : Request) (s : State) (e : string) (u : User) :
  json_body req !! "email" = Some e →
  json_body req !! "password" = Some (password u) →
  users s !! e = Some u →
  totp_enabled u = false →
  login req s
  = ({| body := JObj [("accessToken", JStr (create_token "token" (uuid4 req 0%nat)));
                      ("user", serialize_user u);
                      ("message", JStr "Login successful (mock)")];
        status := 200 |},
     set_sessions (insert (create_token "token" (uuid4 req 0%nat)) e) s).
Proof.
  intros He Hp Hu Hdis. unfold login. run_monad.
  rewrite He. cbn [mbind option_bind]. rewrite Hu, Hp.
  rewrite bool_decide_true by done. norm_opt. by rewrite Hdis.
Qed.

(** X4: a registration under a free e-mail, with non-empty e-mail and
    password, is answered 201 and stores a user with role [user] and the
    second factor off, touching no other store; the same credentials then
    log in at once: the login is answered 200 with an access token and
    stores the session for that e-mail. *)
Theorem registered_user_can_log_in (req req' : Request) (s : State) (e p : string) :
  json_body req !! "email" = Some e → e ≠ "" →
  json_body req !! "password" = Some p → p ≠ "" →
  users s !! e = None →
  json_body req' !! "email" = Some e →
  json_body req' !! "password" = Some p →
  let s1 := snd (register req s) in
  let token := create_token "token" (uuid4 req' 0%nat) in
  status (fst (register req s)) = 201
  ∧ (∃ u, users s1 = <[e := u]> (users s)
          ∧ email u = e ∧ password u = p ∧ role u = "user"
          ∧ totp_enabled u = false ∧ totp_secret u = None)
  ∧ sessions s1 = sessions s
  ∧ totp_temp_sessions s1 = totp_temp_sessions s
  ∧ files s1 = files s
  ∧ status (fst (login req' s1)) = 200
  ∧ json_get "accessToken" (body (fst (login req' s1))) = Some (JStr token)
  ∧ sessions (snd (login req' s1)) = <[token := e]> (sessions s).
Proof.
  intros He Hne Hp Hpne Hfree He' Hp'. cbv zeta.
  assert (Hreg : register req s
                 = ({| body := JObj [("message", JStr "Registered successfully (mock)");
                                     ("email", JStr e)];
                       status := 201 |},
                    set_users (insert e
                      {| user_id := uuid_str (uuid4 req 0%nat); email := e;
                         username := default "" (json_body req !! "username");
                         password := p; role := "user";
                         totp_enabled := false; totp_secret := None |}) s)).
  { unfold register. rewrite He, Hp. norm_opt.
    destruct e as [|c e0]; [done |]. destruct p as [|c' p0]; [done |].
    cbn [PyStr.truthy negb orb]. run_monad.
    rewrite bool_decide_false; [| rewrite Hfree; by intros [? ?]]. reflexivity. }
  rewrite Hreg. cbn [fst snd].
  set (u := {| user_id := uuid_str (uuid4 req 0%nat); email := e;
               username := default "" (json_body req !! "username");
               password := p; role := "user";
               totp_enabled := false; totp_secret := None |}).
  split; [done |]. split; [by exists u |]. do 3 (split; [done |]).
  rewrite (login_direct req' (set_users (insert e u) s) e u);
    [done | done | done | apply lookup_insert_eq | done].
Qed.

Lemma registered_user_can_log_in_witness :
  let req := with_json [("email", "new@x"); ("password", "pass-word"); ("username", "n")]
               (empty_request 0 draws) in
  let s1 := snd (register req state0) in
  users state0 !! "new@x" = None
  ∧ status (fst (register req state0)) = 201
  ∧ status (fst (login req s1)) = 200
  ∧ sessions (snd (login req s1)) !! "token-h0" = Some "new@x".
Proof.
  cbv zeta.
  set (req := with_json _ _).
  assert (Hfree : users state0 !! "new@x" = None) by (vm_compute; reflexivity).
  destruct (registered_user_can_log_in req req state0 "new@x" "pass-word")
    as (Hreg & _ & _ & _ & _ & Hlogin & _ & Hsess);
    try first [exact Hfree | discriminate | vm_compute; reflexivity].
  split; [exact Hfree |]. split; [exact Hreg |]. split; [exact Hlogin |].
  rewrite Hsess. apply lookup_insert_eq.
Defined.

(** X5: the token a login hands out is a valid bearer token: presented in
    the [Authorization] header of a later request, [get_current_user]
    returns it with the user that logged in.  (The token must have no blank
    at either end, as the hexadecimal text of a UUID has none: the header is
    stripped.) *)
Theorem issued_token_is_accepted (req req' : Request) (s : State) (e : string) (u : User) :
  json_body req !! "email" = Some e → e ≠ "" →
  json_body req !! "password" = Some (password u) →
  users s !! e = Some u →
  totp_enabled u = false →
  let token := create_token "token" (uuid4 req 0%nat) in
  PyStr.strip token = token →
  authorization req' = Some ("Bearer " ++ token) →
  fst (get_current_user req' (snd (login req s))) = (Some token, Some (e, u)).
Proof.
  intros He Hne Hp Hu Hdis token Hstrip Hauth.
  rewrite (login_direct req s e u) by done. cbn [snd].
  apply get_current_user_accepts. exists token.
  rewrite Hauth.
  split; [reflexivity |]. split; [reflexivity |]. split; [done |].
  split; [apply lookup_insert_eq |]. split; [by destruct e | done].
Qed.

Lemma issued_token_is_accepted_witness :
  let req := with_json [("email", "jitensha@hcmut.edu.vn"); ("password", "jitensha@123")]
               (empty_request 0 draws) in
  let req' := with_bearer "token-h0" (empty_request 1 draws) in
  fst (fst (get_current_user req' (snd (login req state0)))) = Some "token-h0".
Proof.
  cbv zeta.
  set (u := {| user_id := "u10"; username := "jitensha";
               email := "jitensha@hcmut.edu.vn"; password := "jitensha@123";
               role := "admin"; totp_enabled := false; totp_secret := None |}).
  rewrite (issued_token_is_accepted _ (with_bearer "token-h0" (empty_request 1 draws))
             state0 "jitensha@hcmut.edu.vn" u);
    first [reflexivity | discriminate | vm_compute; reflexivity].
Defined.

(** X6: a login is answered 401 exactly when no user is stored under the
    given e-mail or the stored password differs from the given one; it is
    otherwise answered 200.  A refused login changes no store. *)
Theorem failed_login_changes_nothing (req : Request) (s : State) :
  (status (fst (login req s)) = 401
   ↔ ∀ e u, json_body req !! "email" = Some e → users s !! e = Some u →
            json_body req !! "password" ≠ Some (password u))
  ∧ (status (fst (login req s)) = 401 → snd (login req s) = s)
  ∧ (status (fst (login req s)) = 200 ∨ status (fst (login req s)) = 401).
Proof.
  unfold login. run_monad.
  destruct (json_body req !! "email") as [e|] eqn:He; cbn [mbind option_bind].
  2:{ repeat split; try done. by right. }
  destruct (users s !! e) as [u|] eqn:Hu.
  2:{ repeat split; try done.
      - intros _ e0 u0 [= <-]. congruence.
      - by right. }
  case_bool_decide as Hpw; norm_opt.
  - destruct (totp_enabled u); norm_opt; (split; [| split; [done | by left]]);
      (split; [done |]); intros Hall; by destruct (Hall e u).
  - repeat split; try done.
    + intros _ e0 u0 [= <-] Hu0. rewrite Hu in Hu0. injection Hu0 as <-. congruence.
    + by right.
Qed.

(** ** The pending challenge *)

(** A second-factor login with a code other than the literal, or without a
    challenge, writes nothing. *)
Lemma login_totp_refused (req : Request) (s : State) :
  status (fst (login_totp req s)) ≠ 200 →
  status (fst (login_totp req s)) ≠ 500 →
  snd (login_totp req s) = s.
Proof.
  unfold login_totp.
  destruct (negb (truthy_opt (json_body req !! "email")) || _); [done |].
  run_monad.
  destruct (totp_temp_sessions s !! default "" (json_body req !! "email"))
    as [e|]; norm_opt; [| done].
  destruct (negb (PyStr.truthy e)); [done |].
  destruct (negb (String.eqb _ _)); [done |]. norm_opt.
  destruct (totp_temp_sessions s !! e); norm_opt; [| done].
  by destruct (users s !! e).
Qed.

(** X7: a pending challenge is used up by the login it allows.  In a
    well-formed state, a second-factor login answered 200 stores the
    session, deletes the challenge and touches no user; a second-factor
    login for the same e-mail made right after it is refused and writes
    nothing, whatever code it carries. *)
Theorem challenge_is_consumed_once (req req' : Request) (s : State) (e : string) :
  wf_state s →
  json_body req !! "email" = Some e →
  json_body req' !! "email" = Some e →
  status (fst (login_totp req s)) = 200 →
  let s1 := snd (login_totp req s) in
  sessions s1 = <[create_token "token" (uuid4 req 0%nat) := e]> (sessions s)
  ∧ totp_temp_sessions s1 = delete e (totp_temp_sessions s)
  ∧ users s1 = users s
  ∧ (status (fst (login_totp req' s1)) = 400 ∨ status (fst (login_totp req' s1)) = 401)
  ∧ snd (login_totp req' s1) = s1.
Proof.
  intros (_ & _ & Htemp & _) He He' Hok. cbv zeta.
  assert (Hrun : snd (login_totp req s)
                 = set_totp_temp_sessions (delete e)
                     (set_sessions (insert (create_token "token" (uuid4 req 0%nat)) e) s)).
  { revert Hok. unfold login_totp. rewrite He. norm_opt.
    destruct (negb (PyStr.truthy e) || _); [done |]. run_monad.
    destruct (totp_temp_sessions s !! e) as [e0|] eqn:He0; norm_opt; [| done].
    destruct (Htemp e e0 He0) as [-> _].
    destruct (negb (PyStr.truthy e)); [done |].
    destruct (negb (String.eqb _ _)); [done |]. norm_opt.
    rewrite He0. norm_opt. by destruct (users s !! e). }
  rewrite Hrun. do 3 (split; [done |]).
  unfold login_totp. rewrite He'. norm_opt.
  destruct (negb (PyStr.truthy e) || _); [by split; [left |] |].
  run_monad. norm_opt. rewrite lookup_delete_eq. norm_opt. split; [by right | done].
Qed.

Lemma challenge_is_consumed_once_witness :
  let login_request :=
    with_json [("email", "eenose@hcmut.edu.vn"); ("password", "eenose@123")]
      (empty_request 0 draws) in
  let req := with_json [("email", "eenose@hcmut.edu.vn"); ("code", "123456")]
               (empty_request 1 draws) in
  let s1 := snd (login login_request state0) in
  wf_state s1
  ∧ status (fst (login_totp req s1)) = 200
  ∧ status (fst (login_totp req (snd (login_totp req s1)))) = 401.
Proof.
  cbv zeta.
  set (s1 := snd (login _ state0)). set (req := with_json _ _).
  assert (Hwf : wf_state s1).
  { apply (writes_wf state0); [apply login_writes | apply initial_state_wf]. }
  assert (Hok : status (fst (login_totp req s1)) = 200) by (vm_compute; reflexivity).
  destruct (challenge_is_consumed_once req req s1 "eenose@hcmut.edu.vn" Hwf
              eq_refl eq_refl Hok) as (_ & _ & _ & _ & Hsame).
  split; [exact Hwf |]. split; [exact Hok |].
  vm_compute. reflexivity.
Defined.

(** X8: a second-factor login that is not answered 200 leaves every store
    as it was, in a well-formed state: a wrong code does not use up the
    challenge, which stays for the next attempt, and no count of failed
    attempts is kept. *)
Theorem refused_code_keeps_the_challenge (req : Request) (s : State) :
  wf_state s →
  (json_body req !! "code" ≠ Some MOCK_TOTP_CODE →
   status (fst (login_totp req s)) ≠ 200)
  ∧ (status (fst (login_totp req s)) ≠ 200 → snd (login_totp req s) = s).
Proof.
  intros Hwf. split.
  - intros Hcode. unfold login_totp.
    destruct (json_body req !! "code") as [code|] eqn:Hc; norm_opt.
    2:{ by rewrite orb_true_r. }
    destruct (negb (truthy_opt (json_body req !! "email")) || _); [done |].
    run_monad.
    destruct (totp_temp_sessions s !! _); norm_opt; [| done].
    destruct (negb (PyStr.truthy _)); [done |].
    destruct (String.eqb code MOCK_TOTP_CODE) eqn:Heq; norm_opt; [| done].
    apply String.eqb_eq in Heq. congruence.
  - intros Hno. apply login_totp_refused; [done |].
    by apply (no_internal_error (H := example_library) POST_auth_login_totp req s Hwf).
Qed.

Lemma refused_code_keeps_the_challenge_witness :
  let login_request :=
    with_json [("email", "eenose@hcmut.edu.vn"); ("password", "eenose@123")]
      (empty_request 0 draws) in
  let req := with_json [("email", "eenose@hcmut.edu.vn"); ("code", "000000")]
               (empty_request 1 draws) in
  let s1 := snd (login login_request state0) in
  wf_state s1
  ∧ status (fst (login_totp req s1)) = 401
  ∧ snd (login_totp req s1) = s1.
Proof.
  cbv zeta.
  set (s1 := snd (login _ state0)). set (req := with_json _ _).
  assert (Hwf : wf_state s1).
  { apply (writes_wf state0); [apply login_writes | apply initial_state_wf]. }
  destruct (refused_code_keeps_the_challenge req s1 Hwf) as [_ Hkeep].
  split; [exact Hwf |]. split; [vm_compute; reflexivity |].
  apply Hkeep. vm_compute. discriminate.
Defined.

(** ** Upload and deletion *)

Section Files.
Context `{Library}.

(** X9: an upload is answered 200, 400, 413 or 500, and 500 exactly when a
    value that it reads from the policy is no number: the size limit, read
    for every named file part, or the minimum password length, read once
    the size check has passed and a password is given.  Unless it is
    answered 200 it changes no store.  Answered 200, it changes the file
    store alone, by one record stored under the fresh id, which is also its
    share token: the record is owned by the caller (by nobody without a
    valid token), its size is the length of the uploaded data and not above
    the policy's limit, the ends of its window compare and the start is
    before the end, and it is password protected only if a password not
    shorter than the policy's minimum length was given. *)
Theorem upload_stores_one_valid_record_or_nothing (req : Request) (s : State) :
  let r := upload_file req s in
  (status (fst r) = 200 ∨ status (fst r) = 400 ∨ status (fst r) = 413
   ∨ status (fst r) = 500)
  ∧ (status (fst r) = 500
     ↔ ∃ f, file_part req = Some f ∧ fs_filename f ≠ ""
            ∧ (number_of (maxFileSizeMB (policy s)) = None
               ∨ (∃ limit p,
                    number_of (maxFileSizeMB (policy s)) = Some limit
                    ∧ Z_gt_number (Z.of_nat (length (fs_data f)))
                        (times_1024 (times_1024 limit)) = false
                    ∧ form_get "password" req = Some p ∧ p ≠ ""
                    ∧ number_of (requirePasswordMinLength (policy s)) = None)))
  ∧ (status (fst r) ≠ 200 → snd r = s)
  ∧ (status (fst r) = 200 →
     ∃ f m,
       file_part req = Some f
       ∧ snd r = set_files (insert (uuid_str (uuid4 req 0%nat)) m) s
       ∧ file_id m = uuid_str (uuid4 req 0%nat)
       ∧ shareToken m = uuid_str (uuid4 req 0%nat)
       ∧ ownerEmail m = caller_email req s
       ∧ size m = Z.of_nat (length (fs_data f))
       ∧ (∃ limit, number_of (maxFileSizeMB (policy s)) = Some limit
                   ∧ Z_gt_number (size m) (times_1024 (times_1024 limit)) = false)
       ∧ (∀ n, maxFileSizeMB (policy s) = JNum n → size m ≤ n * 1024 * 1024)
       ∧ window_ordered m
       ∧ (passwordProtected m = true →
          ∃ p, form_get "password" req = Some p
               ∧ (∃ min_length,
                    number_of (requirePasswordMinLength (policy s)) = Some min_length
                    ∧ Z_lt_number (PyStr.len p) min_length = false)
               ∧ ∀ k, requirePasswordMinLength (policy s) = JNum k → k ≤ PyStr.len p)).
Proof.
  cbv zeta. split; [| split; [| split]].
  - destruct (Z.eq_dec (status (fst (upload_file req s))) 200) as [| Hno]; [by left |].
    right. by apply upload_file_refused.
  - apply upload_file_raises.
  - intros Hno. by apply upload_file_refused.
  - intros Hok.
    destruct (upload_file_accepted req s Hok)
      as (f & m & Hf & Hs & Hid & Htok & Hown & _ & Hsize & Hmax & Hord & _ & _ & _ & Hpw).
    exists f, m. do 7 (split; [done |]).
    split.
    { intros n Hn. destruct Hmax as (limit & Hlimit & Hle).
      rewrite Hn in Hlimit. injection Hlimit as <-.
      cbn [times_1024 Z_gt_number] in Hle. apply Z.ltb_ge in Hle. lia. }
    split; [done |].
    intros Hprot. destruct (Hpw Hprot) as (p & min_length & Hp & Hmin & Hle).
    exists p. split; [done |]. split; [by eauto |].
    intros k Hk. rewrite Hk in Hmin. injection Hmin as <-.
    cbn [Z_lt_number] in Hle. by apply Z.ltb_ge in Hle.
Qed.

(** What [delete_file] does, by cases. *)
Lemma delete_file_cases (id : string) (req : Request) (s : State) :
  (status (fst (delete_file id req s)) = 200
   ∧ snd (delete_file id req s) = set_files (delete id) s
   ∧ ∃ m, files s !! id = Some m ∧ is_Some (ownerEmail m)
          ∧ ownerEmail m = caller_email req s)
  ∨ (snd (delete_file id req s) = s
     ∧ ((status (fst (delete_file id req s)) = 401 ∧ caller_email req s = None)
        ∨ (status (fst (delete_file id req s)) = 404 ∧ files s !! id = None)
        ∨ (status (fst (delete_file id req s)) = 403
           ∧ ∃ m, files s !! id = Some m ∧ ownerEmail m ≠ caller_email req s))).
Proof.
  unfold delete_file, caller_email. run_monad.
  destruct (get_current_user_cases req s)
    as [-> | (rest & key & u & _ & _ & _ & ->)]; cbn [fst snd].
  { right. split; [done |]. by left. }
  destruct (files s !! id) as [m|] eqn:Hm.
  2:{ right. split; [done |]. right; left. done. }
  case_bool_decide as Hown; norm_opt.
  - left. split; [done |]. split; [done |]. exists m. rewrite Hown. by eauto.
  - right. split; [done |]. right; right. split; [done |]. by exists m.
Qed.

(** X10: a file is deleted only at the request of its owner.  [delete_file]
    is answered 200 exactly when the caller holds a valid token and the
    file exists and is owned by the caller's e-mail; it then removes that
    file and nothing else.  In every other case (401, 404, 403) no store
    changes. *)
Theorem delete_file_only_by_owner (id : string) (req : Request) (s : State) :
  let r := delete_file id req s in
  (status (fst r) = 200
   ↔ ∃ m owner, files s !! id = Some m ∧ ownerEmail m = Some owner
                ∧ caller_email req s = Some owner)
  ∧ (status (fst r) = 200 → snd r = set_files (delete id) s)
  ∧ (status (fst r) ≠ 200 → snd r = s).
Proof.
  cbv zeta.
  destruct (delete_file_cases id req s)
    as [(Hok & Hs & m & Hm & [owner Ho] & Hc)
       | (Hs & [[Hst Hc] | [[Hst Hm] | (Hst & m & Hm & Hne)]])].
  - split; [| split; [done | congruence]].
    split; [| done]. intros _. exists m, owner. by rewrite <- Hc.
  - split; [| split; [congruence | done]].
    split; [congruence |]. intros (m & owner & _ & _ & Hc'). congruence.
  - split; [| split; [congruence | done]].
    split; [congruence |]. intros (m & owner & Hm' & _). congruence.
  - split; [| split; [congruence | done]].
    split; [congruence |]. intros (m' & owner & Hm' & Ho & Hc'). congruence.
Qed.

(** X11: nobody can delete a file that was uploaded without a valid token:
    the record has no owner, so a deletion asked right after the upload,
    with whatever token, is answered 401 or 403 and leaves it stored. *)
Theorem anonymous_upload_cannot_be_deleted (req req' : Request) (s : State) :
  caller_email req s = None →
  status (fst (upload_file req s)) = 200 →
  let id := uuid_str (uuid4 req 0%nat) in
  let s1 := snd (upload_file req s) in
  is_Some (files s1 !! id)
  ∧ (status (fst (delete_file id req' s1)) = 401
     ∨ status (fst (delete_file id req' s1)) = 403)
  ∧ snd (delete_file id req' s1) = s1.
Proof.
  intros Hanon Hok. cbv zeta.
  destruct (upload_file_accepted req s Hok)
    as (f & m & _ & -> & _ & _ & Hown & _).
  rewrite Hanon in Hown.
  assert (Hm : files (set_files (insert (uuid_str (uuid4 req 0%nat)) m) s)
                 !! uuid_str (uuid4 req 0%nat) = Some m) by apply lookup_insert_eq.
  split; [by rewrite Hm |].
  destruct (delete_file_cases (uuid_str (uuid4 req 0%nat)) req'
              (set_files (insert (uuid_str (uuid4 req 0%nat)) m) s))
    as [(_ & _ & m' & Hm' & [owner Ho] & _)
       | (Hs & [[Hst _] | [[Hst Hnone] | (Hst & _)]])].
  - rewrite Hm in Hm'. injection Hm' as <-. congruence.
  - by split; [left |].
  - congruence.
  - by split; [right |].
Qed.

(** X12: upload and deletion compose to nothing.  When a caller with a
    valid token uploads a file under an id that was free, a deletion of that
    id asked with the same header is answered 200 and the file store is
    again what it was before the upload. *)
Theorem owner_can_delete_own_upload (req req' : Request) (s : State) :
  is_Some (caller_email req s) →
  status (fst (upload_file req s)) = 200 →
  files s !! uuid_str (uuid4 req 0%nat) = None →
  authorization req' = authorization req →
  let id := uuid_str (uuid4 req 0%nat) in
  let s1 := snd (upload_file req s) in
  status (fst (delete_file id req' s1)) = 200
  ∧ snd (delete_file id req' s1) = s.
Proof.
  intros [owner Hcaller] Hok Hfree Hauth. cbv zeta.
  destruct (upload_file_accepted req s Hok)
    as (f & m & _ & -> & _ & _ & Hown & _).
  set (id := uuid_str (uuid4 req 0%nat)) in *.
  set (s1 := set_files (insert id m) s).
  assert (Hcaller1 : caller_email req' s1 = Some owner).
  { rewrite <- Hcaller. unfold caller_email. f_equal. f_equal.
    by apply get_current_user_ext. }
  assert (Hm : files s1 !! id = Some m) by apply lookup_insert_eq.
  destruct (delete_file_cases id req' s1)
    as [(Hst & -> & _) | (_ & [[_ Hc] | [[_ Hnone] | (_ & m' & Hm' & Hne)]])].
  - split; [done |]. subst s1. unfold set_files. cbn.
    rewrite delete_insert_id by done. by destruct s.
  - congruence.
  - congruence.
  - rewrite Hm in Hm'. injection Hm' as <-. congruence.
Qed.
End Files.

Lemma anonymous_upload_cannot_be_deleted_witness :
  let req := example_upload None in
  let req' := with_bearer "token-h0" (empty_request 16 draws) in
  let s1 := snd (@upload_file example_library req state0) in
  caller_email req state0 = None
  ∧ status (fst (@upload_file example_library req state0)) = 200
  ∧ is_Some (files s1 !! "u0")
  ∧ snd (delete_file "u0" req' s1) = s1.
Proof.
  cbv zeta.
  assert (Hanon : caller_email (example_upload None) state0 = None)
    by (vm_compute; reflexivity).
  assert (Hok : status (fst (@upload_file example_library (example_upload None) state0))
                = 200) by (vm_compute; reflexivity).
  destruct (@anonymous_upload_cannot_be_deleted example_library (example_upload None)
              (with_bearer "token-h0" (empty_request 16 draws)) state0 Hanon Hok)
    as (Hin & _ & Hsame).
  split; [exact Hanon |]. split; [exact Hok |]. split; [exact Hin | exact Hsame].
Defined.

Lemma owner_can_delete_own_upload_witness :
  let login_request :=
    with_json [("email", "jitensha@hcmut.edu.vn"); ("password", "jitensha@123")]
      (empty_request 0 draws) in
  let s1 := snd (login login_request state0) in
  let req := example_upload (Some "Bearer token-h0") in
  let s2 := snd (@upload_file example_library req s1) in
  is_Some (caller_email req s1)
  ∧ status (fst (@upload_file example_library req s1)) = 200
  ∧ status (fst (delete_file "u0" req s2)) = 200
  ∧ snd (delete_file "u0" req s2) = s1.
Proof.
  cbv zeta.
  set (s1 := snd (login _ state0)). set (req := example_upload _).
  assert (Hcaller : is_Some (caller_email req s1)) by (vm_compute; eauto).
  assert (Hok : status (fst (@upload_file example_library req s1)) = 200)
    by (vm_compute; reflexivity).
  assert (Hfree : files s1 !! uuid_str (uuid4 req 0%nat) = None)
    by (vm_compute; reflexivity).
  destruct (@owner_can_delete_own_upload example_library req req s1 Hcaller Hok Hfree
              eq_refl) as [Hdel Hback].
  split; [exact Hcaller |]. split; [exact Hok |]. split; [exact Hdel | exact Hback].
Defined.

(** ** Policy *)

Lemma update_policy_run (req : Request) (s : State) :
  update_policy req s
  = ({| body := JObj [("message", JStr "Cập nhật thành công (mock)");
                      ("policy", policy_json (updated_policy req (policy s)))];
        status := 200 |},
     set_policy (updated_policy req) s).
Proof. reflexivity. Qed.

Lemma updated_policy_twice (req : Request) (p : Policy) :
  updated_policy req (updated_policy req p) = updated_policy req p.
Proof.
  unfold updated_policy. cbn.
  f_equal; by destruct (json_policy req !! _).
Qed.

Section PolicyAndUpload.
Context `{Library}.

(** X13: a policy update needs no token, is answered 200, changes nothing
    but the policy, keeps the policy's id, and doing it twice is doing it
    once; the policy it answers with is the one a later [get_policy] reads.
    It stores the value given for the size limit whatever its type, and
    that value governs the next upload of a named file: after an integer
    limit a larger file is answered 413 and not stored; after a value that
    is no number (a string, [null], a list, an object) the upload is
    answered 500 and nothing is stored. *)
Theorem policy_update_governs_next_upload (req req' : Request) (s : State)
    (v : json) (f : FileStorage) :
  json_policy req !! "maxFileSizeMB" = Some v →
  file_part req' = Some f →
  fs_filename f ≠ "" →
  let s1 := snd (update_policy req s) in
  status (fst (update_policy req s)) = 200
  ∧ maxFileSizeMB (policy s1) = v
  ∧ policy_id (policy s1) = policy_id (policy s)
  ∧ users s1 = users s ∧ sessions s1 = sessions s
  ∧ totp_temp_sessions s1 = totp_temp_sessions s ∧ files s1 = files s
  ∧ snd (update_policy req s1) = s1
  ∧ json_get "policy" (body (fst (update_policy req s)))
    = Some (body (fst (get_policy req' s1)))
  ∧ (∀ n, v = JNum n →
       n * 1024 * 1024 < Z.of_nat (length (fs_data f)) →
       status (fst (upload_file req' s1)) = 413
       ∧ snd (upload_file req' s1) = s1)
  ∧ (number_of v = None →
     status (fst (upload_file req' s1)) = 500
     ∧ snd (upload_file req' s1) = s1).
Proof.
  intros Hv Hf Hname. cbv zeta. rewrite !update_policy_run. cbn [fst snd].
  split; [done |].
  split; [cbn; by rewrite Hv |].
  do 5 (split; [done |]).
  split; [unfold set_policy; cbn; by rewrite updated_policy_twice |].
  split; [done |].
  set (s1 := set_policy (updated_policy req) s).
  assert (Hmax : maxFileSizeMB (policy s1) = v) by (cbn; by rewrite Hv).
  split.
  - intros n -> Hbig.
    unfold upload_file. run_monad.
    destruct (get_current_user_cases req' s1)
      as [-> | (rest & key & u & _ & _ & _ & ->)];
      rewrite Hf; destruct (fs_filename f) as [|c name]; try done;
      cbn [PyStr.truthy negb]; rewrite Hmax;
      cbn [number_of fmap option_fmap option_map times_1024 Z_gt_number];
      by destruct (Z.ltb_spec (n * 1024 * 1024) (Z.of_nat (length (fs_data f))));
        [| lia].
  - intros Hno.
    assert (H500 : status (fst (upload_file req' s1)) = 500).
    { apply upload_file_raises. exists f. rewrite Hmax. by auto. }
    split; [done |]. apply upload_file_refused. by rewrite H500.
Qed.
End PolicyAndUpload.

Lemma policy_update_governs_next_upload_witness :
  let req := {| authorization := None; json_body := ∅;
                json_policy := {[ "maxFileSizeMB" := JNum 0 ]}; form := [];
                file_part := None; now := 0; uuid4 := draws |} in
  let req' := {| authorization := None; json_body := ∅; json_policy := ∅; form := [];
                 file_part := Some {| fs_filename := "notes.txt";
                                      fs_data := [Byte.x68; Byte.x69] |};
                 now := 15; uuid4 := draws |} in
  let s1 := snd (update_policy req state0) in
  maxFileSizeMB (policy s1) = JNum 0
  ∧ status (fst (@upload_file example_library req' s1)) = 413
  ∧ files (snd (@upload_file example_library req' s1)) = files state0.
Proof.
  cbv zeta.
  set (req := {| authorization := None;
                 json_policy := {[ "maxFileSizeMB" := JNum 0 ]} |}).
  set (req' := {| authorization := None; json_policy := ∅ |}).
  destruct (@policy_update_governs_next_upload example_library req req' state0 (JNum 0)
              {| fs_filename := "notes.txt"; fs_data := [Byte.x68; Byte.x69] |})
    as (_ & Hmax & _ & _ & _ & _ & Hfiles & _ & _ & Hint & _).
  - vm_compute. reflexivity.
  - reflexivity.
  - discriminate.
  - destruct (Hint 0 eq_refl) as [H413 Hsame]; [vm_compute; reflexivity |].
    split; [exact Hmax |]. split; [exact H413 |]. by rewrite Hsame.
Defined.

(** ** Lifecycle status over time *)

(** X14: the status of a file only moves forward as time passes, from
    [pending] to [active] to [expired]: once a file is no longer pending it
    is never pending again, and once it is expired it stays expired. *)
Theorem file_status_only_moves_forward (m : FileMeta) (t1 t2 : Z) :
  t1 ≤ t2 →
  (get_file_status t2 m = Some pending → get_file_status t1 m = Some pending)
  ∧ (get_file_status t1 m = Some expired → get_file_status t2 m = Some expired).
Proof.
  intros Hle. unfold get_file_status, utc.
  destruct (availableFrom m) as [[f o|w]|], (availableTo m) as [[t o'|w']|];
    cbn [datetime_lt mbind option_bind];
    repeat match goal with
      | |- context [(?a <? ?b)] => destruct (Z.ltb_spec a b)
      end; cbn [mbind option_bind]; split; intros; try done; lia.
Qed.

Lemma file_status_only_moves_forward_witness :
  let m := {| file_id := "f1"; filename := "a.txt"; size := 1; shareToken := "f1";
              ownerEmail := None; isPublic := true; passwordProtected := false;
              availableFrom := Some (utc 10); availableTo := Some (utc 20);
              sharedWith := [];
              shareLink := "http://localhost:3000/f/f1"; createdAt := 5;
              totpEnabled := false |} in
  get_file_status 25 m = Some expired ∧ get_file_status 30 m = Some expired.
Proof.
  cbv zeta. set (m := mkFileMeta _ _ _ _ _ _ _ _ _ _ _ _ _).
  destruct (file_status_only_moves_forward m 25 30 ltac:(lia)) as [_ Hstay].
  split; [reflexivity | apply Hstay; reflexivity].
Defined.

(** ** Password change and enrollment, followed by a login *)

(** [get_current_user] accepted: its full result. *)
Lemma get_current_user_accepted (req : Request) (s : State) (tok key : string) (u : User) :
  fst (get_current_user req s) = (Some tok, Some (key, u)) →
  get_current_user req s = (Some tok, Some (key, u), s) ∧ users s !! key = Some u.
Proof.
  intros E. split.
  - destruct (get_current_user req s) as [res s0] eqn:Hcur.
    assert (s0 = s) as -> by (by rewrite <- (get_current_user_state req s), Hcur).
    cbn in E. by rewrite E.
  - by apply get_current_user_accepts in E as (? & _ & _ & _ & _ & _ & ?).
Qed.

(** X15: after a successful password change the new password is the only
    one that logs the user in: a login under the user's key is answered 200
    with the new password and 401, changing nothing, with any other, the
    old one included. *)
Theorem changed_password_replaces_old_one (req req' : Request) (s : State)
    (tok key : string) (u : User) (pw p : string) :
  fst (get_current_user req s) = (Some tok, Some (key, u)) →
  status (fst (change_password req s)) = 200 →
  json_body req !! "newPassword" = Some pw →
  json_body req' !! "email" = Some key →
  json_body req' !! "password" = Some p →
  let s1 := snd (change_password req s) in
  (p = pw → status (fst (login req' s1)) = 200)
  ∧ (p ≠ pw → status (fst (login req' s1)) = 401 ∧ snd (login req' s1) = s1).
Proof.
  intros Hcur Hok Hnew He Hp. cbv zeta.
  destruct (change_password_success req s Hok)
    as (tok' & key' & u' & pw' & Hcur' & Hu & Hnew' & ->).
  apply get_current_user_accepted in Hcur as [Hcur _].
  rewrite Hcur in Hcur'. injection Hcur' as <- <- <-.
  rewrite Hnew in Hnew'. injection Hnew' as <-.
  unfold login. run_monad. rewrite He, Hp. cbn [mbind option_bind].
  cbn [users set_users]. rewrite lookup_insert_eq. cbn [password set_password].
  split.
  - intros ->. rewrite bool_decide_true by done. norm_opt.
    by destruct (totp_enabled (set_password pw u)).
  - intros Hne. rewrite bool_decide_false by congruence. by norm_opt.
Qed.

Lemma changed_password_replaces_old_one_witness :
  let login_request :=
    with_json [("email", "jitensha@hcmut.edu.vn"); ("password", "jitensha@123")]
      (empty_request 0 draws) in
  let s1 := snd (login login_request state0) in
  let req := with_bearer "token-h0"
               (with_json [("oldPassword", "jitensha@123"); ("newPassword", "s3cret!")]
                  (empty_request 5 draws)) in
  status (fst (change_password req s1)) = 200
  ∧ status (fst (login login_request (snd (change_password req s1)))) = 401.
Proof.
  cbv zeta.
  set (login_request := with_json _ (empty_request 0 draws)).
  set (s1 := snd (login login_request state0)). set (req := with_bearer _ _).
  assert (Hok : status (fst (change_password req s1)) = 200) by (vm_compute; reflexivity).
  split; [exact Hok |].
  set (u := {| user_id := "u10"; username := "jitensha";
               email := "jitensha@hcmut.edu.vn"; password := "jitensha@123";
               role := "admin"; totp_enabled := false; totp_secret := None |}).
  assert (Hcur : fst (get_current_user req s1)
                 = (Some "token-h0", Some ("jitensha@hcmut.edu.vn", u)))
    by (vm_compute; reflexivity).
  assert (Hnew : json_body req !! "newPassword" = Some "s3cret!")
    by (vm_compute; reflexivity).
  assert (He : json_body login_request !! "email" = Some "jitensha@hcmut.edu.vn")
    by (vm_compute; reflexivity).
  assert (Hp : json_body login_request !! "password" = Some "jitensha@123")
    by (vm_compute; reflexivity).
  destruct (changed_password_replaces_old_one req login_request s1 "token-h0"
              "jitensha@hcmut.edu.vn" u "s3cret!" "jitensha@123" Hcur Hok Hnew He Hp)
    as [_ Hold].
  apply Hold. discriminate.
Defined.

Section Enrollment.
Context `{Library}.

(** X16: generating a secret does not turn the second factor on; the
    confirmation does.  For a caller whose second factor is off,
    [totp_setup] is answered 200 and stores the secret, and a login with the
    caller's password still hands out an access token; after [totp_verify]
    with the accepted code the flag is on, the secret is still stored, and
    the same login is answered with [requireTOTP] and no token. *)
Theorem second_factor_gates_login_once_confirmed
    (req verify_request login_request : Request) (s : State)
    (tok key : string) (u : User) :
  fst (get_current_user req s) = (Some tok, Some (key, u)) →
  totp_enabled u = false →
  authorization verify_request = authorization req →
  json_body verify_request !! "code" = Some MOCK_TOTP_CODE →
  json_body login_request !! "email" = Some key →
  json_body login_request !! "password" = Some (password u) →
  let s1 := snd (totp_setup req s) in
  let s2 := snd (totp_verify verify_request s1) in
  let pending_user := set_totp_secret (Some "MOCK-SECRET-SECRET") u in
  status (fst (totp_setup req s)) = 200
  ∧ users s1 = <[key := pending_user]> (users s)
  ∧ is_Some (json_get "accessToken" (body (fst (login login_request s1))))
  ∧ status (fst (totp_verify verify_request s1)) = 200
  ∧ users s2 = <[key := set_totp_enabled true pending_user]> (users s)
  ∧ json_get "requireTOTP" (body (fst (login login_request s2))) = Some (JBool true)
  ∧ json_get "accessToken" (body (fst (login login_request s2))) = None.
Proof.
  intros Hcur Hdis Hauth Hcode He Hp. cbv zeta.
  destruct (get_current_user_accepted req s tok key u Hcur) as [Hrun Hu].
  set (pu := set_totp_secret (Some "MOCK-SECRET-SECRET") u).
  assert (Hsetup : totp_setup req s
                   = (fst (totp_setup req s), set_users (insert key pu) s)
                     ∧ status (fst (totp_setup req s)) = 200).
  { unfold totp_setup. run_monad. rewrite Hrun. cbn [fst snd].
    unfold set_users at 1 2. by rewrite Hu. }
  destruct Hsetup as [Hsetup Hst]. rewrite Hsetup. cbn [snd].
  set (s1 := set_users (insert key pu) s).
  assert (Hcur1 : get_current_user verify_request s1 = (Some tok, Some (key, pu), s1)).
  { apply get_current_user_accepts in Hcur
      as (rest & Hpre & Hsplit & -> & Hsess & Htr & _).
    assert (E : fst (get_current_user verify_request s1)
                = (Some (PyStr.strip rest), Some (key, pu))).
    { apply get_current_user_accepts. exists rest. rewrite Hauth.
      do 5 (split; [done |]). apply lookup_insert_eq. }
    by apply get_current_user_accepted in E as [E _]. }
  assert (Hverify : totp_verify verify_request s1
                    = (fst (totp_verify verify_request s1),
                       set_users (insert key (set_totp_enabled true pu)) s)
                      ∧ status (fst (totp_verify verify_request s1)) = 200).
  { unfold totp_verify. run_monad. rewrite Hcur1, Hcode. norm_opt.
    change (PyStr.truthy MOCK_TOTP_CODE) with true. rewrite String.eqb_refl.
    subst s1. unfold set_users. norm_opt. rewrite lookup_insert_eq.
    by rewrite insert_insert_eq. }
  destruct Hverify as [Hverify Hvst]. rewrite Hverify. cbn [snd].
  split; [done |]. split; [done |].
  split.
  { unfold login. run_monad. rewrite He, Hp. cbn [mbind option_bind].
    subst s1. cbn [users set_users]. rewrite lookup_insert_eq.
    rewrite bool_decide_true by done. norm_opt.
    cbn [totp_enabled pu set_totp_secret]. rewrite Hdis. by norm_opt. }
  split; [done |]. split; [done |].
  unfold login. run_monad. rewrite He, Hp. cbn [mbind option_bind].
  cbn [users set_users]. rewrite lookup_insert_eq.
  rewrite bool_decide_true by done. by norm_opt.
Qed.
End Enrollment.

Lemma second_factor_gates_login_once_confirmed_witness :
  let login_request :=
    with_json [("email", "jitensha@hcmut.edu.vn"); ("password", "jitensha@123")]
      (empty_request 0 draws) in
  let s0 := snd (login login_request state0) in
  let req := with_bearer "token-h0" (empty_request 1 draws) in
  let verify_request := with_bearer "token-h0" (with_json [("code", "123456")]
                                                  (empty_request 2 draws)) in
  let s1 := snd (@totp_setup example_library req s0) in
  let s2 := snd (totp_verify verify_request s1) in
  is_Some (json_get "accessToken" (body (fst (login login_request s1))))
  ∧ json_get "requireTOTP" (body (fst (login login_request s2))) = Some (JBool true).
Proof.
  cbv zeta.
  set (login_request := with_json _ (empty_request 0 draws)).
  set (s0 := snd (login login_request state0)).
  set (u := {| user_id := "u10"; username := "jitensha";
               email := "jitensha@hcmut.edu.vn"; password := "jitensha@123";
               role := "admin"; totp_enabled := false; totp_secret := None |}).
  destruct (@second_factor_gates_login_once_confirmed example_library
              (with_bearer "token-h0" (empty_request 1 draws))
              (with_bearer "token-h0" (with_json [("code", "123456")]
                                         (empty_request 2 draws)))
              login_request s0 "token-h0" "jitensha@hcmut.edu.vn" u)
    as (_ & _ & Htok & _ & _ & Hreq & _);
    try first [reflexivity | vm_compute; reflexivity].
  split; [exact Htok | exact Hreq].
Defined.

(** ** Listing *)

Lemma py_slice_window {A} (l : list A) (start stop : Z) :
  0 ≤ start → start ≤ stop →
  py_slice l start stop
  = take (Z.to_nat (stop - start)) (drop (Z.to_nat start) l).
Proof.
  intros H0 Hle. unfold py_slice.
  destruct (Z.ltb_spec start 0); [lia |]. destruct (Z.ltb_spec stop 0); [lia |].
  set (n := Z.of_nat (length l)).
  destruct (Z.le_gt_cases stop n) as [Hs | Hs].
  - rewrite !Z.min_l by lia. done.
  - rewrite (Z.min_r stop n) by lia.
    destruct (Z.le_gt_cases start n) as [Ha | Ha].
    + rewrite Z.min_l by lia.
      rewrite !take_ge; [done | |]; rewrite length_drop; lia.
    + rewrite Z.min_r by lia.
      rewrite (drop_ge l (Z.to_nat start)) by lia.
      rewrite (drop_ge l (Z.to_nat n)) by lia. by rewrite !take_nil.
Qed.

Lemma insert_by_perm {A} (le : A → A → bool) (x : A) (l : list A) :
  insert_by le x l ≡ₚ x :: l.
Proof.
  induction l as [|y l IH]; [done |]. cbn.
  destruct (le x y); [done |]. rewrite IH. apply Permutation_swap.
Qed.

Lemma stable_sort_perm {A} (le : A → A → bool) (l : list A) :
  stable_sort le l ≡ₚ l.
Proof.
  induction l as [|x l IH]; [done |]. cbn.
  rewrite insert_by_perm. by rewrite IH.
Qed.

Lemma insert_by_sorted {A} (le : A → A → bool) (x : A) (l : list A) :
  (∀ a b, le a b = false → le b a = true) →
  Sorted (fun a b => le a b = true) l →
  Sorted (fun a b => le a b = true) (insert_by le x l).
Proof.
  intros Htotal Hs. induction Hs as [|y l Hs IH Hhd]; cbn.
  - by repeat constructor.
  - destruct (le x y) eqn:Hxy.
    + constructor; [by constructor | by constructor].
    + constructor; [done |].
      destruct l as [|z l']; cbn.
      * constructor. by apply Htotal.
      * destruct (le x z); constructor; [by apply Htotal | by inversion Hhd].
Qed.

Lemma stable_sort_sorted {A} (le : A → A → bool) (l : list A) :
  (∀ a b, le a b = false → le b a = true) →
  Sorted (fun a b => le a b = true) (stable_sort le l).
Proof.
  intros Htotal. induction l as [|x l IH]; cbn; [constructor |].
  by apply insert_by_sorted.
Qed.

Lemma string_leb_total (a b : string) : String.leb a b = false → String.leb b a = true.
Proof.
  unfold String.leb. rewrite (String.compare_antisym a b).
  by destruct (String.compare b a).
Qed.

Lemma row_le_total (sort_by : string) (reverse_order : bool) (a b : FileMeta * FileStatus) :
  row_le sort_by reverse_order a b = false → row_le sort_by reverse_order b a = true.
Proof.
  unfold row_le. destruct reverse_order, (String.eqb sort_by "fileName");
    first [apply string_leb_total | intros Hf; apply Z.leb_gt in Hf; apply Z.leb_le; lia].
Qed.

Lemma with_status_elem (clock : nat → Z) (l : list FileMeta) (i : nat)
    (rows : list (FileMeta * FileStatus)) (row : FileMeta * FileStatus) :
  with_status clock i l = Some rows → row ∈ rows →
  fst row ∈ l ∧ ∃ j, get_file_status (clock j) (fst row) = Some (snd row).
Proof.
  revert i rows. induction l as [|fm l IH]; intros i rows; cbn [with_status].
  - intros [= <-] Hin. by apply elem_of_nil in Hin.
  - destruct (get_file_status (clock i) fm) as [st|] eqn:Hst; [| done]. cbn.
    destruct (with_status clock (S i) l) as [rows'|] eqn:Hrows; [| done]. cbn.
    intros [= <-] Hin. apply elem_of_cons in Hin as [-> | Hin].
    + split; [by left | by exists i].
    + destruct (IH _ _ Hrows Hin) as [Hl Hj]. split; [by right | done].
Qed.

(** The rows are the files, in their order. *)
Lemma with_status_files (clock : nat → Z) (l : list FileMeta) (i : nat)
    (rows : list (FileMeta * FileStatus)) :
  with_status clock i l = Some rows → fst <$> rows = l.
Proof.
  revert i rows. induction l as [|fm l IH]; intros i rows; cbn [with_status].
  - by intros [= <-].
  - destruct (get_file_status (clock i) fm) as [st|]; [| done]. cbn.
    destruct (with_status clock (S i) l) as [rows'|] eqn:Hrows; [| done]. cbn.
    intros [= <-]. cbn. by rewrite (IH _ _ Hrows).
Qed.

(** The comprehension raises exactly when the status of one of the files
    cannot be computed at its reading of the clock. *)
Lemma with_status_raises (clock : nat → Z) (l : list FileMeta) (i : nat) :
  with_status clock i l = None
  ↔ ∃ j file_meta,
      l !! j = Some file_meta
      ∧ get_file_status (clock (i + j)%nat) file_meta = None
      ∧ ∀ k file_meta', (k < j)%nat → l !! k = Some file_meta' →
          is_Some (get_file_status (clock (i + k)%nat) file_meta').
Proof.
  revert i. induction l as [|fm l IH]; intros i; cbn [with_status].
  - split; [done | by intros (j & ? & ? & _)].
  - destruct (get_file_status (clock i) fm) as [st|] eqn:Hst; cbn.
    + destruct (with_status clock (S i) l) as [rows|] eqn:Hrows; cbn.
      * split; [done |]. intros (j & fm' & Hj & Hnone & Hbefore).
        destruct j as [|j]; cbn in Hj.
        { injection Hj as <-. rewrite Nat.add_0_r in Hnone. congruence. }
        assert (Hno : with_status clock (S i) l = None); [| congruence].
        apply IH. exists j, fm'. split; [done |].
        split; [by replace (S i + j)%nat with (i + S j)%nat by lia |].
        intros k fm'' Hk Hfm''.
        replace (S i + k)%nat with (i + S k)%nat by lia.
        apply (Hbefore (S k) fm''); [lia | done].
      * split; [intros _ | done].
        apply IH in Hrows as (j & fm' & Hj & Hnone & Hbefore).
        exists (S j), fm'. split; [done |].
        split; [by replace (i + S j)%nat with (S i + j)%nat by lia |].
        intros [|k] fm'' Hk Hfm''; cbn in Hfm''.
        { injection Hfm'' as <-. rewrite Nat.add_0_r, Hst. by eauto. }
        replace (i + S k)%nat with (S i + k)%nat by lia.
        apply (Hbefore k fm''); [lia | done].
    + split; [intros _ | done]. exists 0%nat, fm. split; [done |].
      split; [by rewrite Nat.add_0_r |]. intros k ? Hk. lia.
Qed.

Lemma owned_with_status_elem (values : list FileMeta) (clock : nat → Z)
    (user_email : string) (rows : list (FileMeta * FileStatus))
    (row : FileMeta * FileStatus) :
  owned_with_status values clock user_email = Some rows →
  row ∈ rows →
  fst row ∈ values ∧ ownerEmail (fst row) = Some user_email
  ∧ ∃ i, get_file_status (clock i) (fst row) = Some (snd row).
Proof.
  unfold owned_with_status. intros Hrows Hin.
  destruct (with_status_elem _ _ _ _ _ Hrows Hin) as [Hfm Hst].
  apply list_elem_of_filter in Hfm as [Ho Hv]. done.
Qed.

Lemma listed_rows_elem (user_files_with_status : list (FileMeta * FileStatus))
    (status_filter sort_by order : string) (row : FileMeta * FileStatus) :
  row ∈ listed_rows user_files_with_status status_filter sort_by order →
  row ∈ user_files_with_status
  ∧ (status_filter ≠ "all" → status_name (snd row) = status_filter).
Proof.
  unfold listed_rows. rewrite stable_sort_perm.
  destruct (String.eqb_spec status_filter "all") as [-> | Hne]; cbn [negb].
  - done.
  - intros Hin. apply list_elem_of_filter in Hin as [Hst Hin]. done.
Qed.

Lemma page_rows_sublist (rows : list (FileMeta * FileStatus)) (page limit : Z)
    (row : FileMeta * FileStatus) :
  row ∈ page_rows rows page limit → row ∈ rows.
Proof.
  unfold page_rows, py_slice. intros Hin.
  by apply subseteq_take, subseteq_drop in Hin.
Qed.

Lemma insert_by_filter {A} (le : A → A → bool) (P : A → bool) (x : A) (l : list A) :
  (∀ a b, P a = true → P b = true → le a b = true) →
  filter (fun a => P a = true) (insert_by le x l)
  = filter (fun a => P a = true) (x :: l).
Proof.
  intros Hclass. induction l as [|y l IH]; [done |]. cbn [insert_by].
  destruct (le x y) eqn:Hxy; [done |].
  rewrite filter_cons, IH, !filter_cons.
  destruct (decide (P y = true)) as [Hy | Hy], (decide (P x = true)) as [Hx | Hx];
    try done.
  rewrite (Hclass x y Hx Hy) in Hxy. done.
Qed.

(** Rows that may stand in either order keep the order they came in. *)
Lemma stable_sort_stable {A} (le : A → A → bool) (P : A → bool) (l : list A) :
  (∀ a b, P a = true → P b = true → le a b = true) →
  filter (fun a => P a = true) (stable_sort le l) = filter (fun a => P a = true) l.
Proof.
  intros Hclass. induction l as [|x l IH]; [done |]. cbn [stable_sort foldr].
  rewrite insert_by_filter by done. rewrite !filter_cons.
  fold (stable_sort le l). by rewrite IH.
Qed.

Lemma Sorted_weaken {A} (R R' : A → A → Prop) (l : list A) :
  (∀ a b, R a b → R' a b) → Sorted R l → Sorted R' l.
Proof.
  intros Himpl Hs. induction Hs as [|x l Hs IH Hhd]; constructor; [done |].
  destruct Hhd; constructor. by apply Himpl.
Qed.

Lemma filter_none {A} (P : A → Prop) `{!∀ x, Decision (P x)} (l : list A) :
  (∀ x, x ∈ l → ¬ P x) → filter P l = [].
Proof.
  induction l as [|x l IH]; [done |]. intros Hl.
  rewrite filter_cons_False by (apply Hl; by left).
  apply IH. intros y Hy. apply Hl. by right.
Qed.

(** X17: the rows of the listing are the caller's files, each once, in the
    order asked for.  Whatever the caller's files with their statuses are,
    the rows are a permutation of those that pass the status filter;
    consecutive rows are in the order of the sort key (creation instant
    unless [sortBy] is [fileName], then the lowercased file name),
    descending if [order] is [desc], ascending otherwise; and rows with the
    same creation instant keep the order in which the store yields them.
    The files with their statuses are, in the order of the store, the files
    whose owner is the caller. *)
Theorem listing_is_sorted_stably (user_files_with_status : list (FileMeta * FileStatus))
    (status_filter sort_by order : string) :
  let rows := listed_rows user_files_with_status status_filter sort_by order in
  let unsorted :=
    filter (fun row => status_filter = "all" ∨ status_name (snd row) = status_filter)
      user_files_with_status in
  rows ≡ₚ unsorted
  ∧ Sorted (fun a b => row_le sort_by (String.eqb order "desc") a b = true) rows
  ∧ (sort_by ≠ "fileName" →
     Sorted (fun a b => if String.eqb order "desc"
                        then createdAt (fst b) ≤ createdAt (fst a)
                        else createdAt (fst a) ≤ createdAt (fst b)) rows
     ∧ ∀ t, filter (fun row => createdAt (fst row) = t) rows
            = filter (fun row => createdAt (fst row) = t) unsorted)
  ∧ (∀ values clock user_email,
       owned_with_status values clock user_email = Some user_files_with_status →
       fst <$> user_files_with_status
       = filter (fun file_meta => ownerEmail file_meta = Some user_email) values).
Proof.
  cbv zeta.
  assert (Hun : (if negb (String.eqb status_filter "all")
                 then filter (fun row : FileMeta * FileStatus =>
                                status_name (snd row) = status_filter)
                        user_files_with_status
                 else user_files_with_status)
                = filter (fun row : FileMeta * FileStatus =>
                            status_filter = "all" ∨ status_name (snd row) = status_filter)
                    user_files_with_status).
  { destruct (String.eqb_spec status_filter "all") as [-> | Hne]; cbn [negb].
    - induction user_files_with_status as [|r l IH]; [done |].
      rewrite filter_cons_True by by left. by rewrite <- IH.
    - apply list_filter_iff. intros r. split; [by right | by intros [? | ?]]. }
  unfold listed_rows. rewrite Hun.
  set (unsorted := filter _ user_files_with_status).
  split; [apply stable_sort_perm |].
  split; [apply stable_sort_sorted, row_le_total |].
  split; [| intros values clock user_email; apply with_status_files].
  intros Hsort.
  assert (Hkey : String.eqb sort_by "fileName" = false) by by apply String.eqb_neq.
  split.
  - eapply Sorted_weaken; [| apply stable_sort_sorted, row_le_total].
    intros a b. unfold row_le. rewrite Hkey.
    destruct (String.eqb order "desc"); intros Hle; by apply Z.leb_le in Hle.
  - intros t.
    pose (P := fun row : FileMeta * FileStatus => bool_decide (createdAt (fst row) = t)).
    assert (Hfilter : ∀ l : list (FileMeta * FileStatus),
              filter (fun row => createdAt (fst row) = t) l
              = filter (fun row => P row = true) l).
    { intros l. apply list_filter_iff. intros r. unfold P.
      by rewrite bool_decide_eq_true. }
    rewrite !Hfilter. apply stable_sort_stable.
    intros a b Ha Hb. unfold P in Ha, Hb.
    apply bool_decide_eq_true in Ha, Hb. unfold row_le. rewrite Hkey.
    destruct (String.eqb order "desc"); apply Z.leb_le; lia.
Qed.

Lemma page_rows_window (rows : list (FileMeta * FileStatus)) (page limit : Z) :
  1 ≤ page → 0 ≤ limit →
  page_rows rows page limit
  = take (Z.to_nat limit) (drop (Z.to_nat ((page - 1) * limit)) rows).
Proof.
  intros Hp Hl. unfold page_rows. rewrite py_slice_window by nia.
  f_equal. f_equal. lia.
Qed.

(** X18: pages are consecutive windows of the rows.  For a page number of
    at least 1 and a limit of at least 0, the page holds the [limit] rows
    that follow the first [(page - 1) * limit], fewer at the end of the
    list, so never more than [limit]; page 0 is empty; and for a limit of at
    least 1 the pages from 1 to [totalPages], one after the other, are all
    the rows, where [totalPages] is the number of rows divided by the limit
    and rounded up. *)
Theorem listing_pages_are_windows (rows : list (FileMeta * FileStatus)) (limit : Z) :
  (∀ page, 1 ≤ page → 0 ≤ limit →
     page_rows rows page limit
     = take (Z.to_nat limit) (drop (Z.to_nat ((page - 1) * limit)) rows)
     ∧ Z.of_nat (length (page_rows rows page limit)) ≤ limit)
  ∧ (0 ≤ limit → page_rows rows 0 limit = [])
  ∧ (1 ≤ limit →
     let total_pages := (Z.of_nat (length rows) + limit - 1) / limit in
     concat ((fun i => page_rows rows (Z.of_nat i + 1) limit)
               <$> seq 0 (Z.to_nat total_pages))
     = rows
     ∧ Z.of_nat (length rows) ≤ total_pages * limit < Z.of_nat (length rows) + limit).
Proof.
  assert (Hwin : ∀ page, 1 ≤ page → 0 ≤ limit →
            page_rows rows page limit
            = take (Z.to_nat limit) (drop (Z.to_nat ((page - 1) * limit)) rows))
    by (intros; by apply page_rows_window).
  split; [| split].
  - intros page Hp Hl. split; [by apply Hwin |].
    rewrite Hwin by done. rewrite length_take. lia.
  - intros Hl. unfold page_rows, py_slice.
    replace ((0 - 1) * limit + limit) with 0 by lia.
    match goal with
    | |- take (Z.to_nat ?d) _ = _ => assert (Hd : Z.to_nat d = 0%nat)
    end.
    { destruct (Z.ltb_spec ((0 - 1) * limit) 0), (Z.ltb_spec 0 0); lia. }
    by rewrite Hd.
  - intros Hl. cbv zeta.
    set (n := Z.of_nat (length rows)).
    set (total_pages := (n + limit - 1) / limit).
    assert (Hdiv : n ≤ total_pages * limit < n + limit).
    { subst total_pages.
      pose proof (Z.div_mod (n + limit - 1) limit ltac:(lia)) as Hdm.
      pose proof (Z.mod_pos_bound (n + limit - 1) limit ltac:(lia)) as Hmod.
      nia. }
    split; [| done].
    assert (Hcat : ∀ k : nat,
              concat ((fun i => page_rows rows (Z.of_nat i + 1) limit) <$> seq 0 k)
              = take (k * Z.to_nat limit) rows).
    { induction k as [|k IH]; [done |].
      rewrite seq_S, fmap_app, concat_app, IH. cbn [fmap list_fmap concat].
      rewrite app_nil_r, Hwin by lia.
      replace (Z.to_nat ((Z.of_nat (0 + k) + 1 - 1) * limit))
        with (k * Z.to_nat limit)%nat by lia.
      replace (S k * Z.to_nat limit)%nat
        with (k * Z.to_nat limit + Z.to_nat limit)%nat by lia.
      by rewrite take_take_drop. }
    rewrite Hcat. apply take_ge. nia.
Qed.

Lemma count_status_total (rows : list (FileMeta * FileStatus)) :
  count_status active rows + count_status pending rows + count_status expired rows
  = Z.of_nat (length rows).
Proof.
  unfold count_status. induction rows as [|[fm st] rows IH]; [done |].
  rewrite !filter_cons. cbn [snd length].
  destruct st; repeat case_decide; try done; cbn [length]; lia.
Qed.

(** X19: the summary counts the rows after the status filter, not all the
    caller's files: the three counts add up to the number of rows; under a
    status filter other than [all] only the count of that status can be
    more than 0; and a filter that names no status leaves no row at all. *)
Theorem listing_summary_counts_filtered_rows
    (user_files_with_status : list (FileMeta * FileStatus))
    (status_filter sort_by order : string) :
  let rows := listed_rows user_files_with_status status_filter sort_by order in
  count_status active rows + count_status pending rows + count_status expired rows
  = Z.of_nat (length rows)
  ∧ (status_filter ≠ "all" →
     ∀ st, status_name st ≠ status_filter → count_status st rows = 0)
  ∧ (status_filter ≠ "all" →
     (∀ st, status_name st ≠ status_filter) → rows = []).
Proof.
  cbv zeta. split; [apply count_status_total |].
  assert (Hall : status_filter ≠ "all" →
            ∀ row, row ∈ listed_rows user_files_with_status status_filter sort_by order →
                   status_name (snd row) = status_filter).
  { intros Hne row Hin. by apply listed_rows_elem in Hin as [_ Hst]; apply Hst. }
  split.
  - intros Hne st Hst. unfold count_status.
    rewrite filter_none; [done |].
    intros row Hin Hrow. apply Hst. rewrite <- Hrow. by apply Hall.
  - intros Hne Hnone.
    destruct (listed_rows user_files_with_status status_filter sort_by order)
      as [|row rows] eqn:Hrows; [done |].
    exfalso. apply (Hnone (snd row)). apply Hall; [done |]. by left.
Qed.

Section ListingRoute.
Context `{Library}.
Variable values_of : gmap string FileMeta → list FileMeta.
Variable int_of_text : string → option Z.

Local Abbreviation listing := (get_user_files values_of int_of_text).

Lemma get_user_files_cases (clock : nat → Z) (args : ListingArgs) (req : Request)
    (s : State) :
  snd (listing clock args req s) = s
  ∧ ((snd (fst (get_current_user req s)) = None
      ∧ status (fst (listing clock args req s)) = 401)
     ∨ (∃ key u, snd (fst (get_current_user req s)) = Some (key, u)
        ∧ ((status (fst (listing clock args req s)) = 500
            ∧ (int_arg int_of_text (arg_page args) 1 = None
               ∨ int_arg int_of_text (arg_limit args) 20 = None
               ∨ int_arg int_of_text (arg_limit args) 20 = Some 0
               ∨ rows_of values_of clock args u s = None))
           ∨ (∃ page limit rows,
                int_arg int_of_text (arg_page args) 1 = Some page
                ∧ int_arg int_of_text (arg_limit args) 20 = Some limit
                ∧ limit ≠ 0
                ∧ rows_of values_of clock args u s = Some rows
                ∧ fst (listing clock args req s) = listing_answer rows page limit)))).
Proof.
  unfold get_user_files, rows_of. run_monad.
  destruct (get_current_user_cases req s)
    as [-> | (rest & key & u & _ & _ & _ & ->)]; cbn [fst snd].
  { split; [done |]. by left. }
  destruct (int_arg int_of_text (arg_page args) 1) as [page|] eqn:Hpage.
  2:{ split; [done |]. right. exists key, u. split; [done |]. left. by auto. }
  destruct (int_arg int_of_text (arg_limit args) 20) as [limit|] eqn:Hlimit.
  2:{ split; [done |]. right. exists key, u. split; [done |]. left. by auto. }
  destruct (owned_with_status (values_of (files s)) clock (email u))
    as [rows0|] eqn:Hrows; cbn [mbind option_bind].
  2:{ split; [done |]. right. exists key, u. split; [done |]. left.
      split; [done |]. do 3 right. by rewrite Hrows. }
  destruct (Z.eqb_spec limit 0) as [-> | Hne].
  { split; [done |]. right. exists key, u. split; [done |]. left.
    split; [done |]. by right; right; left. }
  split; [done |]. right. exists key, u. split; [done |]. right.
  eexists page, limit, _. rewrite Hrows. by cbn [mbind option_bind].
Qed.

(** X20: the listing shows a caller nothing but the caller's own stored
    files.  When it is answered 200, every row of the page is a file of the
    store whose owner is the caller's e-mail, shown with the status computed
    by [get_file_status] at one of the clock readings, and with the status
    asked for when a status filter other than [all] was given. *)
Theorem listing_shows_only_own_files (clock : nat → Z) (args : ListingArgs)
    (req : Request) (s : State) :
  (∀ fm, fm ∈ values_of (files s) → ∃ id, files s !! id = Some fm) →
  status (fst (listing clock args req s)) = 200 →
  ∃ key u rows,
    snd (fst (get_current_user req s)) = Some (key, u)
    ∧ json_get "files" (body (fst (listing clock args req s)))
      = Some (JArr (serialized_row <$> rows))
    ∧ ∀ row, row ∈ rows →
        ownerEmail (fst row) = Some (email u)
        ∧ (∃ id, files s !! id = Some (fst row))
        ∧ (∃ i, get_file_status (clock i) (fst row) = Some (snd row))
        ∧ (∀ wanted, arg_status args = Some wanted → wanted ≠ "all" →
                     status_name (snd row) = wanted).
Proof.
  intros Hvalues Hok.
  destruct (get_user_files_cases clock args req s)
    as [_ [[_ Hst]
          | (key & u & Hcur
             & [[Hst _] | (page & limit & rows & _ & _ & _ & Hrows & Hrun)])]];
    [congruence | congruence |].
  exists key, u, (page_rows rows page limit).
  split; [done |]. split; [by rewrite Hrun |].
  intros row Hin. apply page_rows_sublist in Hin.
  unfold rows_of in Hrows.
  destruct (owned_with_status (values_of (files s)) clock (email u))
    as [rows0|] eqn:Hrows0; [| done].
  cbn in Hrows. injection Hrows as <-.
  apply listed_rows_elem in Hin as [Hin Hst].
  destruct (owned_with_status_elem _ _ _ _ _ Hrows0 Hin) as (Hv & Hown & Hclock).
  split; [done |]. split; [by apply Hvalues |]. split; [done |].
  intros wanted Hw Hne. rewrite Hw in Hst. by apply Hst.
Qed.

(** X21: the listing writes no store, whatever it answers.  Without a
    valid token it is answered 401.  With one, it is answered 500 exactly
    when [page] or [limit] is no number, when [limit] is 0 (the number of
    pages is a division by the limit), or when [get_file_status] raises on
    one of the caller's files, which it does on a file with an offset-naive
    date; and 200 otherwise, with the page number and the limit read from
    the query (1 and 20 when absent), the number of rows as [totalFiles] and
    [(totalFiles + limit - 1) // limit] as [totalPages]. *)
Theorem listing_answers_and_writes_nothing (clock : nat → Z) (args : ListingArgs)
    (req : Request) (s : State) :
  snd (listing clock args req s) = s
  ∧ (snd (fst (get_current_user req s)) = None →
     status (fst (listing clock args req s)) = 401)
  ∧ (∀ key u, snd (fst (get_current_user req s)) = Some (key, u) →
       (status (fst (listing clock args req s)) = 500
        ↔ int_arg int_of_text (arg_page args) 1 = None
          ∨ int_arg int_of_text (arg_limit args) 20 = None
          ∨ int_arg int_of_text (arg_limit args) 20 = Some 0
          ∨ rows_of values_of clock args u s = None)
       ∧ (rows_of values_of clock args u s = None
          ↔ ∃ i file_meta,
              filter (fun file_meta => ownerEmail file_meta = Some (email u))
                (values_of (files s)) !! i = Some file_meta
              ∧ get_file_status (clock i) file_meta = None
              ∧ ∀ k file_meta', (k < i)%nat →
                  filter (fun file_meta => ownerEmail file_meta = Some (email u))
                    (values_of (files s)) !! k = Some file_meta' →
                  is_Some (get_file_status (clock k) file_meta'))
       ∧ (∀ page limit rows,
            int_arg int_of_text (arg_page args) 1 = Some page →
            int_arg int_of_text (arg_limit args) 20 = Some limit →
            limit ≠ 0 →
            rows_of values_of clock args u s = Some rows →
            status (fst (listing clock args req s)) = 200
            ∧ json_get "pagination" (body (fst (listing clock args req s)))
              = Some (JObj [("currentPage", JNum page);
                            ("totalPages",
                             JNum ((Z.of_nat (length rows) + limit - 1) / limit));
                            ("totalFiles", JNum (Z.of_nat (length rows)));
                            ("limit", JNum limit)]))
       ∧ (∀ rows, arg_page args = None → arg_limit args = None →
            rows_of values_of clock args u s = Some rows →
            status (fst (listing clock args req s)) = 200
            ∧ json_get "files" (body (fst (listing clock args req s)))
              = Some (JArr (serialized_row <$> take 20 rows)))).
Proof.
  destruct (get_user_files_cases clock args req s) as [Hsame Hcases].
  split; [done |]. split.
  - intros Hnone. destruct Hcases as [[_ Hst] | (key & u & Hcur & _)]; congruence.
  - intros key u Hcur.
    destruct Hcases as [[Hnone _] | (key' & u' & Hcur' & Hrest)]; [congruence |].
    rewrite Hcur in Hcur'. injection Hcur' as <- <-.
    assert (Hgood : ∀ page limit rows,
              int_arg int_of_text (arg_page args) 1 = Some page →
              int_arg int_of_text (arg_limit args) 20 = Some limit →
              limit ≠ 0 →
              rows_of values_of clock args u s = Some rows →
              fst (listing clock args req s) = listing_answer rows page limit).
    { intros page limit rows Hp Hl Hne Hrows.
      destruct Hrest as [[_ Hbad] | (page' & limit' & rows' & Hp' & Hl' & _ & Hrows' & Hrun)].
      - destruct Hbad as [Hb | [Hb | [Hb | Hb]]]; congruence.
      - congruence. }
    split; [| split; [| split]].
    + split.
      * intros H500.
        destruct Hrest as [[_ Hbad] | (page & limit & rows & _ & _ & _ & _ & Hrun)];
          [done |].
        by rewrite Hrun in H500.
      * intros Hbad.
        destruct Hrest as [[Hst _] | (page & limit & rows & Hp & Hl & Hne & Hrows & _)];
          [done |].
        destruct Hbad as [Hb | [Hb | [Hb | Hb]]]; congruence.
    + unfold rows_of, owned_with_status.
      destruct (with_status clock 0 _) as [rows0|] eqn:Hrows0; cbn [mbind option_bind].
      * split; [done |]. intros Hex.
        assert (Hno : with_status clock 0
                        (filter (fun file_meta => ownerEmail file_meta = Some (email u))
                           (values_of (files s))) = None); [| congruence].
        by apply with_status_raises.
      * split; [intros _ | done]. by apply with_status_raises in Hrows0.
    + intros page limit rows Hp Hl Hne Hrows.
      by rewrite (Hgood page limit rows).
    + intros rows Hp Hl Hrows.
      rewrite (Hgood 1 20 rows) by (by rewrite ?Hp, ?Hl).
      split; [done |].
      cbn [listing_answer body json_get assoc_get String.eqb Ascii.eqb Bool.eqb].
      by rewrite page_rows_window by lia.
Qed.
End ListingRoute.

Lemma listing_shows_only_own_files_witness :
  let login_request :=
    with_json [("email", "jitensha@hcmut.edu.vn"); ("password", "jitensha@123")]
      (empty_request 0 draws) in
  let s1 := snd (login login_request state0) in
  let s2 := snd (@upload_file example_library (example_upload (Some "Bearer token-h0")) s1) in
  let req := with_bearer "token-h0" (empty_request 16 draws) in
  let args := {| arg_status := Some "active"; arg_page := None; arg_limit := Some "10";
                 arg_sortBy := None; arg_order := None |} in
  let r := fst (@get_user_files example_library example_values parse_digits
                  (fun _ => 16) args req s2) in
  status r = 200
  ∧ ∃ rows, json_get "files" (body r)
            = Some (JArr (@serialized_row example_library <$> rows))
            ∧ rows ≠ []
            ∧ ∀ row, row ∈ rows → ownerEmail (fst row) = Some "jitensha@hcmut.edu.vn".
Proof.
  cbv zeta.
  set (s2 := snd (@upload_file example_library _ _)).
  set (req := with_bearer _ _). set (args := mkListingArgs _ _ _ _ _).
  assert (Hvalues : ∀ fm, fm ∈ example_values (files s2) → ∃ id, files s2 !! id = Some fm).
  { intros fm Hin. unfold example_values in Hin.
    apply list_elem_of_fmap in Hin as ([id fm'] & -> & Hin).
    apply elem_of_map_to_list in Hin. by exists id. }
  assert (Hok : status (fst (@get_user_files example_library example_values parse_digits
                               (fun _ => 16) args req s2)) = 200)
    by (vm_compute; reflexivity).
  split; [exact Hok |].
  destruct (@listing_shows_only_own_files example_library example_values parse_digits
              (fun _ => 16) args req s2 Hvalues Hok)
    as (key & u & rows & Hcur & Hfiles & Hrows).
  assert (Hu : email u = "jitensha@hcmut.edu.vn").
  { vm_compute in Hcur. by injection Hcur as _ <-. }
  exists rows. split; [exact Hfiles |]. split.
  - intros ->. revert Hfiles. vm_compute. discriminate.
  - intros row Hin. destruct (Hrows row Hin) as (Hown & _). by rewrite Hown, Hu.
Defined.
